(** * Timetable scheduler: a shallow embedding of
      [timetable_scheduler_improved.py] and the properties of its
      greedy assignment engine.

    Conventions of the embedding.
    - Python [int] is [Z]; [str] is [string], the UTF-8 bytes of the
      text; [Optional[str]] is [option string]; [float] durations (only
      the exactly representable 1.0, 1.5 and 2.0 occur) are rationals [Q]
      compared with [Qeq_bool].
    - A [datetime.time] is a pair of hour and minute: the program builds
      its times as [time(h, m)] only (in [_generate_time_slots]), with
      second and microsecond 0 and no tzinfo.
    - The nested [defaultdict]s are nested [gmap]s read with a default;
      the empty entries a [defaultdict] creates on a read cannot be
      observed by the scheduler and are not recorded.
    - [Counter] is a [gmap string nat] read with default 0.
    - A course object is identified with its position in the list handed
      to the scheduler; [course.basket = ...] is an update at that
      position.
    - [print] calls are dropped. *)

From Stdlib Require Import ZArith QArith List Permutation Sorted Lia.
From stdpp Require Import gmap strings list fin_maps pretty.

Open Scope Z_scope.

(** ** Data model *)

Inductive SessionType : Type := LECTURE | TUTORIAL | PRACTICAL.

Global Instance SessionType_eq_dec : EqDecision SessionType.
Proof. solve_decision. Defined.

(** [SessionType.value] *)
Definition value (t : SessionType) : string :=
  match t with
  | LECTURE => "Lecture"
  | TUTORIAL => "Tutorial"
  | PRACTICAL => "Practical"
  end.

(** [datetime.time(hour, minute)], as [_generate_time_slots] builds every
    time of the program: second and microsecond are 0, tzinfo is None. *)
Definition time : Type := (Z * Z)%type.

Module TimeSlot.
Record t : Type := mk {
  day : string;
  start_time : time;
  end_time : time;
  duration_hours : Q
}.

(** [TimeSlot.__eq__]: the duration takes no part in equality. *)
Definition eqb (a b : t) : bool :=
  bool_decide (day a = day b)
  && bool_decide (start_time a = start_time b)
  && bool_decide (end_time a = end_time b).

(** [time.__lt__] *)
Definition time_lt (x y : time) : bool :=
  (x.1 <? y.1)%Z || ((x.1 =? y.1)%Z && (x.2 <? y.2)%Z).

Definition overlaps (a b : t) : bool :=
  if negb (bool_decide (day a = day b)) then false
  else time_lt (start_time a) (end_time b) && time_lt (start_time b) (end_time a).
End TimeSlot.

(** [time_slot in slots] on a Python list: a scan with [__eq__]. *)
Definition slot_in (x : TimeSlot.t) (l : list TimeSlot.t) : bool :=
  existsb (TimeSlot.eqb x) l.

Module Course.
Record t : Type := mk {
  course_id : string;
  course_code : string;
  course_title : string;
  semester : Z;
  semester_half : string;
  branch : string;
  section : option string;
  lectures : Z;
  tutorials : Z;
  practicals : Z;
  faculty_name : string;
  is_elective : bool;
  basket : option string;
  num_students : Z
}.

(** [course.basket = b] *)
Definition set_basket (b : option string) (c : t) : t :=
  mk (course_id c) (course_code c) (course_title c) (semester c)
     (semester_half c) (branch c) (section c) (lectures c) (tutorials c)
     (practicals c) (faculty_name c) (is_elective c) b (num_students c).

(** Truthiness of [self.section]: [None] and the empty string are false. *)
Definition section_truthy (c : t) : option string :=
  match section c with
  | Some s => if bool_decide (s = "") then None else Some s
  | None => None
  end.

Definition get_student_key (c : t) : string :=
  match section_truthy c with
  | Some s => branch c +:+ "_" +:+ s +:+ "_Sem" +:+ pretty (semester c)
  | None =>
      let year := ((semester c + 1) / 2)%Z in
      branch c +:+ "_Year" +:+ pretty year
  end.
End Course.

Module Room.
Record t : Type := mk {
  room_id : string;
  capacity : Z
}.
End Room.

Module ScheduledSession.
Record t : Type := mk {
  course : Course.t;
  session_type : SessionType;
  time_slot : TimeSlot.t;
  room : Room.t;
  faculty_name : string;
  session_number : Z;
  basket : option string
}.
End ScheduledSession.

Global Instance time_eq_dec : EqDecision time.
Proof. solve_decision. Defined.
Global Instance Room_eq_dec : EqDecision Room.t.
Proof. solve_decision. Defined.
Global Instance Course_eq_dec : EqDecision Course.t.
Proof. solve_decision. Defined.

(** ** Containers *)

(** [defaultdict(lambda: defaultdict(list))], keyed by two strings. *)
Section Dict2.
Context {V : Type}.

Definition get2 (m : gmap string (gmap string (list V))) (a b : string) : list V :=
  default [] (default ∅ (m !! a) !! b).

(** [m[a][b].append(x)] *)
Definition append2 (m : gmap string (gmap string (list V))) (a b : string) (x : V)
  : gmap string (gmap string (list V)) :=
  <[a := <[b := get2 m a b ++ [x]]> (default ∅ (m !! a))]> m.

End Dict2.

(** [Counter]: [c[k] += 1]. *)
Definition count_of (c : gmap string nat) (k : string) : nat := default 0%nat (c !! k).
Definition incr (k : string) (c : gmap string nat) : gmap string nat :=
  <[k := S (count_of c k)]> c.

(** An insertion-ordered dictionary with list values, as [defaultdict(list)]
    is when it is iterated: [d[k].append(v)] keeps the position of an
    existing key and puts a new key last. *)
Section OrderedDict.
Context {K V : Type} (keq : K → K → bool).

Fixpoint od_append (d : list (K * list V)) (k : K) (v : V) : list (K * list V) :=
  match d with
  | [] => [(k, [v])]
  | (k', vs) :: rest =>
      if keq k' k then (k', vs ++ [v]) :: rest
      else (k', vs) :: od_append rest k v
  end.

Fixpoint od_get (d : list (K * list V)) (k : K) : list V :=
  match d with
  | [] => []
  | (k', vs) :: rest => if keq k' k then vs else od_get rest k
  end.

End OrderedDict.

(** [sorted(l, key=...)]: Python's sort is stable and compares keys with
    [<] only; [lt a b] is [key(a) < key(b)].  Insertion from the right
    keeps an element ahead of every later element that is not strictly
    smaller. *)
Section Sorted.
Context {A : Type} (lt : A → A → bool).

Fixpoint sorted_insert (x : A) (l : list A) : list A :=
  match l with
  | [] => [x]
  | y :: l' => if lt y x then y :: sorted_insert x l' else x :: y :: l'
  end.

Definition sorted (l : list A) : list A := foldr sorted_insert [] l.

End Sorted.

(** [range(a, b)] *)
Definition range (a b : Z) : list Z :=
  map (fun i => (a + Z.of_nat i)%Z) (seq 0 (Z.to_nat (b - a))).

(** [str.startswith] is [String.prefix]; [sub in s] on strings: *)
Fixpoint str_contains (sub s : string) : bool :=
  String.prefix sub s ||
  match s with
  | EmptyString => false
  | String _ s' => str_contains sub s'
  end.

(** A [str] is held as its UTF-8 bytes.  [code_points] cuts it into its
    characters: a character is a byte with the continuation bytes (binary
    10xxxxxx) that follow it. *)
Definition continuation (c : Ascii.ascii) : bool :=
  let n := Ascii.N_of_ascii c in ((128 <=? n) && (n <? 192))%N.

Definition starts_continuation (s : string) : bool :=
  match s with
  | String c _ => continuation c
  | EmptyString => false
  end.

Fixpoint code_points (s : string) : list string :=
  match s with
  | EmptyString => []
  | String c s' =>
      match code_points s' with
      | ch :: rest =>
          if starts_continuation s' then String c ch :: rest
          else String c EmptyString :: ch :: rest
      | [] => [String c EmptyString]
      end
  end.

(** The characters that [str.upper] changes, each with what it becomes:
    the uppercase mappings of the Unicode character database (14.0, the
    one of CPython 3.11), with the special casings that give more than
    one character. *)
Definition uppercase_table : list (string * string) :=
  [("a", "A"); ("b", "B"); ("c", "C"); ("d", "D"); ("e", "E"); ("f", "F");
   ("g", "G"); ("h", "H"); ("i", "I"); ("j", "J"); ("k", "K"); ("l", "L");
   ("m", "M"); ("n", "N"); ("o", "O"); ("p", "P"); ("q", "Q"); ("r", "R");
   ("s", "S"); ("t", "T"); ("u", "U"); ("v", "V"); ("w", "W"); ("x", "X");
   ("y", "Y"); ("z", "Z"); ("µ", "Μ"); ("ß", "SS"); ("à", "À"); ("á", "Á");
   ("â", "Â"); ("ã", "Ã"); ("ä", "Ä"); ("å", "Å"); ("æ", "Æ"); ("ç", "Ç");
   ("è", "È"); ("é", "É"); ("ê", "Ê"); ("ë", "Ë"); ("ì", "Ì"); ("í", "Í");
   ("î", "Î"); ("ï", "Ï"); ("ð", "Ð"); ("ñ", "Ñ"); ("ò", "Ò"); ("ó", "Ó");
   ("ô", "Ô"); ("õ", "Õ"); ("ö", "Ö"); ("ø", "Ø"); ("ù", "Ù"); ("ú", "Ú");
   ("û", "Û"); ("ü", "Ü"); ("ý", "Ý"); ("þ", "Þ"); ("ÿ", "Ÿ"); ("ā", "Ā");
   ("ă", "Ă"); ("ą", "Ą"); ("ć", "Ć"); ("ĉ", "Ĉ"); ("ċ", "Ċ"); ("č", "Č");
   ("ď", "Ď"); ("đ", "Đ"); ("ē", "Ē"); ("ĕ", "Ĕ"); ("ė", "Ė"); ("ę", "Ę");
   ("ě", "Ě"); ("ĝ", "Ĝ"); ("ğ", "Ğ"); ("ġ", "Ġ"); ("ģ", "Ģ"); ("ĥ", "Ĥ");
   ("ħ", "Ħ"); ("ĩ", "Ĩ"); ("ī", "Ī"); ("ĭ", "Ĭ"); ("į", "Į"); ("ı", "I");
   ("ĳ", "Ĳ"); ("ĵ", "Ĵ"); ("ķ", "Ķ"); ("ĺ", "Ĺ"); ("ļ", "Ļ"); ("ľ", "Ľ");
   ("ŀ", "Ŀ"); ("ł", "Ł"); ("ń", "Ń"); ("ņ", "Ņ"); ("ň", "Ň"); ("ŉ", "ʼN");
   ("ŋ", "Ŋ"); ("ō", "Ō"); ("ŏ", "Ŏ"); ("ő", "Ő"); ("œ", "Œ"); ("ŕ", "Ŕ");
   ("ŗ", "Ŗ"); ("ř", "Ř"); ("ś", "Ś"); ("ŝ", "Ŝ"); ("ş", "Ş"); ("š", "Š");
   ("ţ", "Ţ"); ("ť", "Ť"); ("ŧ", "Ŧ"); ("ũ", "Ũ"); ("ū", "Ū"); ("ŭ", "Ŭ");
   ("ů", "Ů"); ("ű", "Ű"); ("ų", "Ų"); ("ŵ", "Ŵ"); ("ŷ", "Ŷ"); ("ź", "Ź");
   ("ż", "Ż"); ("ž", "Ž"); ("ſ", "S"); ("ƀ", "Ƀ"); ("ƃ", "Ƃ"); ("ƅ", "Ƅ");
   ("ƈ", "Ƈ"); ("ƌ", "Ƌ"); ("ƒ", "Ƒ"); ("ƕ", "Ƕ"); ("ƙ", "Ƙ"); ("ƚ", "Ƚ");
   ("ƞ", "Ƞ"); ("ơ", "Ơ"); ("ƣ", "Ƣ"); ("ƥ", "Ƥ"); ("ƨ", "Ƨ"); ("ƭ", "Ƭ");
   ("ư", "Ư"); ("ƴ", "Ƴ"); ("ƶ", "Ƶ"); ("ƹ", "Ƹ"); ("ƽ", "Ƽ"); ("ƿ", "Ƿ");
   ("ǅ", "Ǆ"); ("ǆ", "Ǆ"); ("ǈ", "Ǉ"); ("ǉ", "Ǉ"); ("ǋ", "Ǌ"); ("ǌ", "Ǌ");
   ("ǎ", "Ǎ"); ("ǐ", "Ǐ"); ("ǒ", "Ǒ"); ("ǔ", "Ǔ"); ("ǖ", "Ǖ"); ("ǘ", "Ǘ");
   ("ǚ", "Ǚ"); ("ǜ", "Ǜ"); ("ǝ", "Ǝ"); ("ǟ", "Ǟ"); ("ǡ", "Ǡ"); ("ǣ", "Ǣ");
   ("ǥ", "Ǥ"); ("ǧ", "Ǧ"); ("ǩ", "Ǩ"); ("ǫ", "Ǫ"); ("ǭ", "Ǭ"); ("ǯ", "Ǯ");
   ("ǰ", "J̌"); ("ǲ", "Ǳ"); ("ǳ", "Ǳ"); ("ǵ", "Ǵ"); ("ǹ", "Ǹ"); ("ǻ", "Ǻ");
   ("ǽ", "Ǽ"); ("ǿ", "Ǿ"); ("ȁ", "Ȁ"); ("ȃ", "Ȃ"); ("ȅ", "Ȅ"); ("ȇ", "Ȇ");
   ("ȉ", "Ȉ"); ("ȋ", "Ȋ"); ("ȍ", "Ȍ"); ("ȏ", "Ȏ"); ("ȑ", "Ȑ"); ("ȓ", "Ȓ");
   ("ȕ", "Ȕ"); ("ȗ", "Ȗ"); ("ș", "Ș"); ("ț", "Ț"); ("ȝ", "Ȝ"); ("ȟ", "Ȟ");
   ("ȣ", "Ȣ"); ("ȥ", "Ȥ"); ("ȧ", "Ȧ"); ("ȩ", "Ȩ"); ("ȫ", "Ȫ"); ("ȭ", "Ȭ");
   ("ȯ", "Ȯ"); ("ȱ", "Ȱ"); ("ȳ", "Ȳ"); ("ȼ", "Ȼ"); ("ȿ", "Ȿ"); ("ɀ", "Ɀ");
   ("ɂ", "Ɂ"); ("ɇ", "Ɇ"); ("ɉ", "Ɉ"); ("ɋ", "Ɋ"); ("ɍ", "Ɍ"); ("ɏ", "Ɏ");
   ("ɐ", "Ɐ"); ("ɑ", "Ɑ"); ("ɒ", "Ɒ"); ("ɓ", "Ɓ"); ("ɔ", "Ɔ"); ("ɖ", "Ɖ");
   ("ɗ", "Ɗ"); ("ə", "Ə"); ("ɛ", "Ɛ"); ("ɜ", "Ɜ"); ("ɠ", "Ɠ"); ("ɡ", "Ɡ");
   ("ɣ", "Ɣ"); ("ɥ", "Ɥ"); ("ɦ", "Ɦ"); ("ɨ", "Ɨ"); ("ɩ", "Ɩ"); ("ɪ", "Ɪ");
   ("ɫ", "Ɫ"); ("ɬ", "Ɬ"); ("ɯ", "Ɯ"); ("ɱ", "Ɱ"); ("ɲ", "Ɲ"); ("ɵ", "Ɵ");
   ("ɽ", "Ɽ"); ("ʀ", "Ʀ"); ("ʂ", "Ʂ"); ("ʃ", "Ʃ"); ("ʇ", "Ʇ"); ("ʈ", "Ʈ");
   ("ʉ", "Ʉ"); ("ʊ", "Ʊ"); ("ʋ", "Ʋ"); ("ʌ", "Ʌ"); ("ʒ", "Ʒ"); ("ʝ", "Ʝ");
   ("ʞ", "Ʞ"); ("ͅ", "Ι"); ("ͱ", "Ͱ"); ("ͳ", "Ͳ"); ("ͷ", "Ͷ"); ("ͻ", "Ͻ");
   ("ͼ", "Ͼ"); ("ͽ", "Ͽ"); ("ΐ", "Ϊ́"); ("ά", "Ά"); ("έ", "Έ"); ("ή", "Ή");
   ("ί", "Ί"); ("ΰ", "Ϋ́"); ("α", "Α"); ("β", "Β"); ("γ", "Γ"); ("δ", "Δ");
   ("ε", "Ε"); ("ζ", "Ζ"); ("η", "Η"); ("θ", "Θ"); ("ι", "Ι"); ("κ", "Κ");
   ("λ", "Λ"); ("μ", "Μ"); ("ν", "Ν"); ("ξ", "Ξ"); ("ο", "Ο"); ("π", "Π");
   ("ρ", "Ρ"); ("ς", "Σ"); ("σ", "Σ"); ("τ", "Τ"); ("υ", "Υ"); ("φ", "Φ");
   ("χ", "Χ"); ("ψ", "Ψ"); ("ω", "Ω"); ("ϊ", "Ϊ"); ("ϋ", "Ϋ"); ("ό", "Ό");
   ("ύ", "Ύ"); ("ώ", "Ώ"); ("ϐ", "Β"); ("ϑ", "Θ"); ("ϕ", "Φ"); ("ϖ", "Π");
   ("ϗ", "Ϗ"); ("ϙ", "Ϙ"); ("ϛ", "Ϛ"); ("ϝ", "Ϝ"); ("ϟ", "Ϟ"); ("ϡ", "Ϡ");
   ("ϣ", "Ϣ"); ("ϥ", "Ϥ"); ("ϧ", "Ϧ"); ("ϩ", "Ϩ"); ("ϫ", "Ϫ"); ("ϭ", "Ϭ");
   ("ϯ", "Ϯ"); ("ϰ", "Κ"); ("ϱ", "Ρ"); ("ϲ", "Ϲ"); ("ϳ", "Ϳ"); ("ϵ", "Ε");
   ("ϸ", "Ϸ"); ("ϻ", "Ϻ"); ("а", "А"); ("б", "Б"); ("в", "В"); ("г", "Г");
   ("д", "Д"); ("е", "Е"); ("ж", "Ж"); ("з", "З"); ("и", "И"); ("й", "Й");
   ("к", "К"); ("л", "Л"); ("м", "М"); ("н", "Н"); ("о", "О"); ("п", "П");
   ("р", "Р"); ("с", "С"); ("т", "Т"); ("у", "У"); ("ф", "Ф"); ("х", "Х");
   ("ц", "Ц"); ("ч", "Ч"); ("ш", "Ш"); ("щ", "Щ"); ("ъ", "Ъ"); ("ы", "Ы");
   ("ь", "Ь"); ("э", "Э"); ("ю", "Ю"); ("я", "Я"); ("ѐ", "Ѐ"); ("ё", "Ё");
   ("ђ", "Ђ"); ("ѓ", "Ѓ"); ("є", "Є"); ("ѕ", "Ѕ"); ("і", "І"); ("ї", "Ї");
   ("ј", "Ј"); ("љ", "Љ"); ("њ", "Њ"); ("ћ", "Ћ"); ("ќ", "Ќ"); ("ѝ", "Ѝ");
   ("ў", "Ў"); ("џ", "Џ"); ("ѡ", "Ѡ"); ("ѣ", "Ѣ"); ("ѥ", "Ѥ"); ("ѧ", "Ѧ");
   ("ѩ", "Ѩ"); ("ѫ", "Ѫ"); ("ѭ", "Ѭ"); ("ѯ", "Ѯ"); ("ѱ", "Ѱ"); ("ѳ", "Ѳ");
   ("ѵ", "Ѵ"); ("ѷ", "Ѷ"); ("ѹ", "Ѹ"); ("ѻ", "Ѻ"); ("ѽ", "Ѽ"); ("ѿ", "Ѿ");
   ("ҁ", "Ҁ"); ("ҋ", "Ҋ"); ("ҍ", "Ҍ"); ("ҏ", "Ҏ"); ("ґ", "Ґ"); ("ғ", "Ғ");
   ("ҕ", "Ҕ"); ("җ", "Җ"); ("ҙ", "Ҙ"); ("қ", "Қ"); ("ҝ", "Ҝ"); ("ҟ", "Ҟ");
   ("ҡ", "Ҡ"); ("ң", "Ң"); ("ҥ", "Ҥ"); ("ҧ", "Ҧ"); ("ҩ", "Ҩ"); ("ҫ", "Ҫ");
   ("ҭ", "Ҭ"); ("ү", "Ү"); ("ұ", "Ұ"); ("ҳ", "Ҳ"); ("ҵ", "Ҵ"); ("ҷ", "Ҷ");
   ("ҹ", "Ҹ"); ("һ", "Һ"); ("ҽ", "Ҽ"); ("ҿ", "Ҿ"); ("ӂ", "Ӂ"); ("ӄ", "Ӄ");
   ("ӆ", "Ӆ"); ("ӈ", "Ӈ"); ("ӊ", "Ӊ"); ("ӌ", "Ӌ"); ("ӎ", "Ӎ"); ("ӏ", "Ӏ");
   ("ӑ", "Ӑ"); ("ӓ", "Ӓ"); ("ӕ", "Ӕ"); ("ӗ", "Ӗ"); ("ә", "Ә"); ("ӛ", "Ӛ");
   ("ӝ", "Ӝ"); ("ӟ", "Ӟ"); ("ӡ", "Ӡ"); ("ӣ", "Ӣ"); ("ӥ", "Ӥ"); ("ӧ", "Ӧ");
   ("ө", "Ө"); ("ӫ", "Ӫ"); ("ӭ", "Ӭ"); ("ӯ", "Ӯ"); ("ӱ", "Ӱ"); ("ӳ", "Ӳ");
   ("ӵ", "Ӵ"); ("ӷ", "Ӷ"); ("ӹ", "Ӹ"); ("ӻ", "Ӻ"); ("ӽ", "Ӽ"); ("ӿ", "Ӿ");
   ("ԁ", "Ԁ"); ("ԃ", "Ԃ"); ("ԅ", "Ԅ"); ("ԇ", "Ԇ"); ("ԉ", "Ԉ"); ("ԋ", "Ԋ");
   ("ԍ", "Ԍ"); ("ԏ", "Ԏ"); ("ԑ", "Ԑ"); ("ԓ", "Ԓ"); ("ԕ", "Ԕ"); ("ԗ", "Ԗ");
   ("ԙ", "Ԙ"); ("ԛ", "Ԛ"); ("ԝ", "Ԝ"); ("ԟ", "Ԟ"); ("ԡ", "Ԡ"); ("ԣ", "Ԣ");
   ("ԥ", "Ԥ"); ("ԧ", "Ԧ"); ("ԩ", "Ԩ"); ("ԫ", "Ԫ"); ("ԭ", "Ԭ"); ("ԯ", "Ԯ");
   ("ա", "Ա"); ("բ", "Բ"); ("գ", "Գ"); ("դ", "Դ"); ("ե", "Ե"); ("զ", "Զ");
   ("է", "Է"); ("ը", "Ը"); ("թ", "Թ"); ("ժ", "Ժ"); ("ի", "Ի"); ("լ", "Լ");
   ("խ", "Խ"); ("ծ", "Ծ"); ("կ", "Կ"); ("հ", "Հ"); ("ձ", "Ձ"); ("ղ", "Ղ");
   ("ճ", "Ճ"); ("մ", "Մ"); ("յ", "Յ"); ("ն", "Ն"); ("շ", "Շ"); ("ո", "Ո");
   ("չ", "Չ"); ("պ", "Պ"); ("ջ", "Ջ"); ("ռ", "Ռ"); ("ս", "Ս"); ("վ", "Վ");
   ("տ", "Տ"); ("ր", "Ր"); ("ց", "Ց"); ("ւ", "Ւ"); ("փ", "Փ"); ("ք", "Ք");
   ("օ", "Օ"); ("ֆ", "Ֆ"); ("և", "ԵՒ"); ("ა", "Ა"); ("ბ", "Ბ"); ("გ", "Გ");
   ("დ", "Დ"); ("ე", "Ე"); ("ვ", "Ვ"); ("ზ", "Ზ"); ("თ", "Თ"); ("ი", "Ი");
   ("კ", "Კ"); ("ლ", "Ლ"); ("მ", "Მ"); ("ნ", "Ნ"); ("ო", "Ო"); ("პ", "Პ");
   ("ჟ", "Ჟ"); ("რ", "Რ"); ("ს", "Ს"); ("ტ", "Ტ"); ("უ", "Უ"); ("ფ", "Ფ");
   ("ქ", "Ქ"); ("ღ", "Ღ"); ("ყ", "Ყ"); ("შ", "Შ"); ("ჩ", "Ჩ"); ("ც", "Ც");
   ("ძ", "Ძ"); ("წ", "Წ"); ("ჭ", "Ჭ"); ("ხ", "Ხ"); ("ჯ", "Ჯ"); ("ჰ", "Ჰ");
   ("ჱ", "Ჱ"); ("ჲ", "Ჲ"); ("ჳ", "Ჳ"); ("ჴ", "Ჴ"); ("ჵ", "Ჵ"); ("ჶ", "Ჶ");
   ("ჷ", "Ჷ"); ("ჸ", "Ჸ"); ("ჹ", "Ჹ"); ("ჺ", "Ჺ"); ("ჽ", "Ჽ"); ("ჾ", "Ჾ");
   ("ჿ", "Ჿ"); ("ᏸ", "Ᏸ"); ("ᏹ", "Ᏹ"); ("ᏺ", "Ᏺ"); ("ᏻ", "Ᏻ"); ("ᏼ", "Ᏼ");
   ("ᏽ", "Ᏽ"); ("ᲀ", "В"); ("ᲁ", "Д"); ("ᲂ", "О"); ("ᲃ", "С"); ("ᲄ", "Т");
   ("ᲅ", "Т"); ("ᲆ", "Ъ"); ("ᲇ", "Ѣ"); ("ᲈ", "Ꙋ"); ("ᵹ", "Ᵹ"); ("ᵽ", "Ᵽ");
   ("ᶎ", "Ᶎ"); ("ḁ", "Ḁ"); ("ḃ", "Ḃ"); ("ḅ", "Ḅ"); ("ḇ", "Ḇ"); ("ḉ", "Ḉ");
   ("ḋ", "Ḋ"); ("ḍ", "Ḍ"); ("ḏ", "Ḏ"); ("ḑ", "Ḑ"); ("ḓ", "Ḓ"); ("ḕ", "Ḕ");
   ("ḗ", "Ḗ"); ("ḙ", "Ḙ"); ("ḛ", "Ḛ"); ("ḝ", "Ḝ"); ("ḟ", "Ḟ"); ("ḡ", "Ḡ");
   ("ḣ", "Ḣ"); ("ḥ", "Ḥ"); ("ḧ", "Ḧ"); ("ḩ", "Ḩ"); ("ḫ", "Ḫ"); ("ḭ", "Ḭ");
   ("ḯ", "Ḯ"); ("ḱ", "Ḱ"); ("ḳ", "Ḳ"); ("ḵ", "Ḵ"); ("ḷ", "Ḷ"); ("ḹ", "Ḹ");
   ("ḻ", "Ḻ"); ("ḽ", "Ḽ"); ("ḿ", "Ḿ"); ("ṁ", "Ṁ"); ("ṃ", "Ṃ"); ("ṅ", "Ṅ");
   ("ṇ", "Ṇ"); ("ṉ", "Ṉ"); ("ṋ", "Ṋ"); ("ṍ", "Ṍ"); ("ṏ", "Ṏ"); ("ṑ", "Ṑ");
   ("ṓ", "Ṓ"); ("ṕ", "Ṕ"); ("ṗ", "Ṗ"); ("ṙ", "Ṙ"); ("ṛ", "Ṛ"); ("ṝ", "Ṝ");
   ("ṟ", "Ṟ"); ("ṡ", "Ṡ"); ("ṣ", "Ṣ"); ("ṥ", "Ṥ"); ("ṧ", "Ṧ"); ("ṩ", "Ṩ");
   ("ṫ", "Ṫ"); ("ṭ", "Ṭ"); ("ṯ", "Ṯ"); ("ṱ", "Ṱ"); ("ṳ", "Ṳ"); ("ṵ", "Ṵ");
   ("ṷ", "Ṷ"); ("ṹ", "Ṹ"); ("ṻ", "Ṻ"); ("ṽ", "Ṽ"); ("ṿ", "Ṿ"); ("ẁ", "Ẁ");
   ("ẃ", "Ẃ"); ("ẅ", "Ẅ"); ("ẇ", "Ẇ"); ("ẉ", "Ẉ"); ("ẋ", "Ẋ"); ("ẍ", "Ẍ");
   ("ẏ", "Ẏ"); ("ẑ", "Ẑ"); ("ẓ", "Ẓ"); ("ẕ", "Ẕ"); ("ẖ", "H̱"); ("ẗ", "T̈");
   ("ẘ", "W̊"); ("ẙ", "Y̊"); ("ẚ", "Aʾ"); ("ẛ", "Ṡ"); ("ạ", "Ạ"); ("ả", "Ả");
   ("ấ", "Ấ"); ("ầ", "Ầ"); ("ẩ", "Ẩ"); ("ẫ", "Ẫ"); ("ậ", "Ậ"); ("ắ", "Ắ");
   ("ằ", "Ằ"); ("ẳ", "Ẳ"); ("ẵ", "Ẵ"); ("ặ", "Ặ"); ("ẹ", "Ẹ"); ("ẻ", "Ẻ");
   ("ẽ", "Ẽ"); ("ế", "Ế"); ("ề", "Ề"); ("ể", "Ể"); ("ễ", "Ễ"); ("ệ", "Ệ");
   ("ỉ", "Ỉ"); ("ị", "Ị"); ("ọ", "Ọ"); ("ỏ", "Ỏ"); ("ố", "Ố"); ("ồ", "Ồ");
   ("ổ", "Ổ"); ("ỗ", "Ỗ"); ("ộ", "Ộ"); ("ớ", "Ớ"); ("ờ", "Ờ"); ("ở", "Ở");
   ("ỡ", "Ỡ"); ("ợ", "Ợ"); ("ụ", "Ụ"); ("ủ", "Ủ"); ("ứ", "Ứ"); ("ừ", "Ừ");
   ("ử", "Ử"); ("ữ", "Ữ"); ("ự", "Ự"); ("ỳ", "Ỳ"); ("ỵ", "Ỵ"); ("ỷ", "Ỷ");
   ("ỹ", "Ỹ"); ("ỻ", "Ỻ"); ("ỽ", "Ỽ"); ("ỿ", "Ỿ"); ("ἀ", "Ἀ"); ("ἁ", "Ἁ");
   ("ἂ", "Ἂ"); ("ἃ", "Ἃ"); ("ἄ", "Ἄ"); ("ἅ", "Ἅ"); ("ἆ", "Ἆ"); ("ἇ", "Ἇ");
   ("ἐ", "Ἐ"); ("ἑ", "Ἑ"); ("ἒ", "Ἒ"); ("ἓ", "Ἓ"); ("ἔ", "Ἔ"); ("ἕ", "Ἕ");
   ("ἠ", "Ἠ"); ("ἡ", "Ἡ"); ("ἢ", "Ἢ"); ("ἣ", "Ἣ"); ("ἤ", "Ἤ"); ("ἥ", "Ἥ");
   ("ἦ", "Ἦ"); ("ἧ", "Ἧ"); ("ἰ", "Ἰ"); ("ἱ", "Ἱ"); ("ἲ", "Ἲ"); ("ἳ", "Ἳ");
   ("ἴ", "Ἴ"); ("ἵ", "Ἵ"); ("ἶ", "Ἶ"); ("ἷ", "Ἷ"); ("ὀ", "Ὀ"); ("ὁ", "Ὁ");
   ("ὂ", "Ὂ"); ("ὃ", "Ὃ"); ("ὄ", "Ὄ"); ("ὅ", "Ὅ"); ("ὐ", "Υ̓"); ("ὑ", "Ὑ");
   ("ὒ", "Υ̓̀"); ("ὓ", "Ὓ"); ("ὔ", "Υ̓́"); ("ὕ", "Ὕ"); ("ὖ", "Υ̓͂"); ("ὗ", "Ὗ");
   ("ὠ", "Ὠ"); ("ὡ", "Ὡ"); ("ὢ", "Ὢ"); ("ὣ", "Ὣ"); ("ὤ", "Ὤ"); ("ὥ", "Ὥ");
   ("ὦ", "Ὦ"); ("ὧ", "Ὧ"); ("ὰ", "Ὰ"); ("ά", "Ά"); ("ὲ", "Ὲ"); ("έ", "Έ");
   ("ὴ", "Ὴ"); ("ή", "Ή"); ("ὶ", "Ὶ"); ("ί", "Ί"); ("ὸ", "Ὸ"); ("ό", "Ό");
   ("ὺ", "Ὺ"); ("ύ", "Ύ"); ("ὼ", "Ὼ"); ("ώ", "Ώ"); ("ᾀ", "ἈΙ"); ("ᾁ", "ἉΙ");
   ("ᾂ", "ἊΙ"); ("ᾃ", "ἋΙ"); ("ᾄ", "ἌΙ"); ("ᾅ", "ἍΙ"); ("ᾆ", "ἎΙ"); ("ᾇ", "ἏΙ");
   ("ᾈ", "ἈΙ"); ("ᾉ", "ἉΙ"); ("ᾊ", "ἊΙ"); ("ᾋ", "ἋΙ"); ("ᾌ", "ἌΙ"); ("ᾍ", "ἍΙ");
   ("ᾎ", "ἎΙ"); ("ᾏ", "ἏΙ"); ("ᾐ", "ἨΙ"); ("ᾑ", "ἩΙ"); ("ᾒ", "ἪΙ"); ("ᾓ", "ἫΙ");
   ("ᾔ", "ἬΙ"); ("ᾕ", "ἭΙ"); ("ᾖ", "ἮΙ"); ("ᾗ", "ἯΙ"); ("ᾘ", "ἨΙ"); ("ᾙ", "ἩΙ");
   ("ᾚ", "ἪΙ"); ("ᾛ", "ἫΙ"); ("ᾜ", "ἬΙ"); ("ᾝ", "ἭΙ"); ("ᾞ", "ἮΙ"); ("ᾟ", "ἯΙ");
   ("ᾠ", "ὨΙ"); ("ᾡ", "ὩΙ"); ("ᾢ", "ὪΙ"); ("ᾣ", "ὫΙ"); ("ᾤ", "ὬΙ"); ("ᾥ", "ὭΙ");
   ("ᾦ", "ὮΙ"); ("ᾧ", "ὯΙ"); ("ᾨ", "ὨΙ"); ("ᾩ", "ὩΙ"); ("ᾪ", "ὪΙ"); ("ᾫ", "ὫΙ");
   ("ᾬ", "ὬΙ"); ("ᾭ", "ὭΙ"); ("ᾮ", "ὮΙ"); ("ᾯ", "ὯΙ"); ("ᾰ", "Ᾰ"); ("ᾱ", "Ᾱ");
   ("ᾲ", "ᾺΙ"); ("ᾳ", "ΑΙ"); ("ᾴ", "ΆΙ"); ("ᾶ", "Α͂"); ("ᾷ", "Α͂Ι"); ("ᾼ", "ΑΙ");
   ("ι", "Ι"); ("ῂ", "ῊΙ"); ("ῃ", "ΗΙ"); ("ῄ", "ΉΙ"); ("ῆ", "Η͂"); ("ῇ", "Η͂Ι");
   ("ῌ", "ΗΙ"); ("ῐ", "Ῐ"); ("ῑ", "Ῑ"); ("ῒ", "Ϊ̀"); ("ΐ", "Ϊ́"); ("ῖ", "Ι͂");
   ("ῗ", "Ϊ͂"); ("ῠ", "Ῠ"); ("ῡ", "Ῡ"); ("ῢ", "Ϋ̀"); ("ΰ", "Ϋ́"); ("ῤ", "Ρ̓");
   ("ῥ", "Ῥ"); ("ῦ", "Υ͂"); ("ῧ", "Ϋ͂"); ("ῲ", "ῺΙ"); ("ῳ", "ΩΙ"); ("ῴ", "ΏΙ");
   ("ῶ", "Ω͂"); ("ῷ", "Ω͂Ι"); ("ῼ", "ΩΙ"); ("ⅎ", "Ⅎ"); ("ⅰ", "Ⅰ"); ("ⅱ", "Ⅱ");
   ("ⅲ", "Ⅲ"); ("ⅳ", "Ⅳ"); ("ⅴ", "Ⅴ"); ("ⅵ", "Ⅵ"); ("ⅶ", "Ⅶ"); ("ⅷ", "Ⅷ");
   ("ⅸ", "Ⅸ"); ("ⅹ", "Ⅹ"); ("ⅺ", "Ⅺ"); ("ⅻ", "Ⅻ"); ("ⅼ", "Ⅼ"); ("ⅽ", "Ⅽ");
   ("ⅾ", "Ⅾ"); ("ⅿ", "Ⅿ"); ("ↄ", "Ↄ"); ("ⓐ", "Ⓐ"); ("ⓑ", "Ⓑ"); ("ⓒ", "Ⓒ");
   ("ⓓ", "Ⓓ"); ("ⓔ", "Ⓔ"); ("ⓕ", "Ⓕ"); ("ⓖ", "Ⓖ"); ("ⓗ", "Ⓗ"); ("ⓘ", "Ⓘ");
   ("ⓙ", "Ⓙ"); ("ⓚ", "Ⓚ"); ("ⓛ", "Ⓛ"); ("ⓜ", "Ⓜ"); ("ⓝ", "Ⓝ"); ("ⓞ", "Ⓞ");
   ("ⓟ", "Ⓟ"); ("ⓠ", "Ⓠ"); ("ⓡ", "Ⓡ"); ("ⓢ", "Ⓢ"); ("ⓣ", "Ⓣ"); ("ⓤ", "Ⓤ");
   ("ⓥ", "Ⓥ"); ("ⓦ", "Ⓦ"); ("ⓧ", "Ⓧ"); ("ⓨ", "Ⓨ"); ("ⓩ", "Ⓩ"); ("ⰰ", "Ⰰ");
   ("ⰱ", "Ⰱ"); ("ⰲ", "Ⰲ"); ("ⰳ", "Ⰳ"); ("ⰴ", "Ⰴ"); ("ⰵ", "Ⰵ"); ("ⰶ", "Ⰶ");
   ("ⰷ", "Ⰷ"); ("ⰸ", "Ⰸ"); ("ⰹ", "Ⰹ"); ("ⰺ", "Ⰺ"); ("ⰻ", "Ⰻ"); ("ⰼ", "Ⰼ");
   ("ⰽ", "Ⰽ"); ("ⰾ", "Ⰾ"); ("ⰿ", "Ⰿ"); ("ⱀ", "Ⱀ"); ("ⱁ", "Ⱁ"); ("ⱂ", "Ⱂ");
   ("ⱃ", "Ⱃ"); ("ⱄ", "Ⱄ"); ("ⱅ", "Ⱅ"); ("ⱆ", "Ⱆ"); ("ⱇ", "Ⱇ"); ("ⱈ", "Ⱈ");
   ("ⱉ", "Ⱉ"); ("ⱊ", "Ⱊ"); ("ⱋ", "Ⱋ"); ("ⱌ", "Ⱌ"); ("ⱍ", "Ⱍ"); ("ⱎ", "Ⱎ");
   ("ⱏ", "Ⱏ"); ("ⱐ", "Ⱐ"); ("ⱑ", "Ⱑ"); ("ⱒ", "Ⱒ"); ("ⱓ", "Ⱓ"); ("ⱔ", "Ⱔ");
   ("ⱕ", "Ⱕ"); ("ⱖ", "Ⱖ"); ("ⱗ", "Ⱗ"); ("ⱘ", "Ⱘ"); ("ⱙ", "Ⱙ"); ("ⱚ", "Ⱚ");
   ("ⱛ", "Ⱛ"); ("ⱜ", "Ⱜ"); ("ⱝ", "Ⱝ"); ("ⱞ", "Ⱞ"); ("ⱟ", "Ⱟ"); ("ⱡ", "Ⱡ");
   ("ⱥ", "Ⱥ"); ("ⱦ", "Ⱦ"); ("ⱨ", "Ⱨ"); ("ⱪ", "Ⱪ"); ("ⱬ", "Ⱬ"); ("ⱳ", "Ⱳ");
   ("ⱶ", "Ⱶ"); ("ⲁ", "Ⲁ"); ("ⲃ", "Ⲃ"); ("ⲅ", "Ⲅ"); ("ⲇ", "Ⲇ"); ("ⲉ", "Ⲉ");
   ("ⲋ", "Ⲋ"); ("ⲍ", "Ⲍ"); ("ⲏ", "Ⲏ"); ("ⲑ", "Ⲑ"); ("ⲓ", "Ⲓ"); ("ⲕ", "Ⲕ");
   ("ⲗ", "Ⲗ"); ("ⲙ", "Ⲙ"); ("ⲛ", "Ⲛ"); ("ⲝ", "Ⲝ"); ("ⲟ", "Ⲟ"); ("ⲡ", "Ⲡ");
   ("ⲣ", "Ⲣ"); ("ⲥ", "Ⲥ"); ("ⲧ", "Ⲧ"); ("ⲩ", "Ⲩ"); ("ⲫ", "Ⲫ"); ("ⲭ", "Ⲭ");
   ("ⲯ", "Ⲯ"); ("ⲱ", "Ⲱ"); ("ⲳ", "Ⲳ"); ("ⲵ", "Ⲵ"); ("ⲷ", "Ⲷ"); ("ⲹ", "Ⲹ");
   ("ⲻ", "Ⲻ"); ("ⲽ", "Ⲽ"); ("ⲿ", "Ⲿ"); ("ⳁ", "Ⳁ"); ("ⳃ", "Ⳃ"); ("ⳅ", "Ⳅ");
   ("ⳇ", "Ⳇ"); ("ⳉ", "Ⳉ"); ("ⳋ", "Ⳋ"); ("ⳍ", "Ⳍ"); ("ⳏ", "Ⳏ"); ("ⳑ", "Ⳑ");
   ("ⳓ", "Ⳓ"); ("ⳕ", "Ⳕ"); ("ⳗ", "Ⳗ"); ("ⳙ", "Ⳙ"); ("ⳛ", "Ⳛ"); ("ⳝ", "Ⳝ");
   ("ⳟ", "Ⳟ"); ("ⳡ", "Ⳡ"); ("ⳣ", "Ⳣ"); ("ⳬ", "Ⳬ"); ("ⳮ", "Ⳮ"); ("ⳳ", "Ⳳ");
   ("ⴀ", "Ⴀ"); ("ⴁ", "Ⴁ"); ("ⴂ", "Ⴂ"); ("ⴃ", "Ⴃ"); ("ⴄ", "Ⴄ"); ("ⴅ", "Ⴅ");
   ("ⴆ", "Ⴆ"); ("ⴇ", "Ⴇ"); ("ⴈ", "Ⴈ"); ("ⴉ", "Ⴉ"); ("ⴊ", "Ⴊ"); ("ⴋ", "Ⴋ");
   ("ⴌ", "Ⴌ"); ("ⴍ", "Ⴍ"); ("ⴎ", "Ⴎ"); ("ⴏ", "Ⴏ"); ("ⴐ", "Ⴐ"); ("ⴑ", "Ⴑ");
   ("ⴒ", "Ⴒ"); ("ⴓ", "Ⴓ"); ("ⴔ", "Ⴔ"); ("ⴕ", "Ⴕ"); ("ⴖ", "Ⴖ"); ("ⴗ", "Ⴗ");
   ("ⴘ", "Ⴘ"); ("ⴙ", "Ⴙ"); ("ⴚ", "Ⴚ"); ("ⴛ", "Ⴛ"); ("ⴜ", "Ⴜ"); ("ⴝ", "Ⴝ");
   ("ⴞ", "Ⴞ"); ("ⴟ", "Ⴟ"); ("ⴠ", "Ⴠ"); ("ⴡ", "Ⴡ"); ("ⴢ", "Ⴢ"); ("ⴣ", "Ⴣ");
   ("ⴤ", "Ⴤ"); ("ⴥ", "Ⴥ"); ("ⴧ", "Ⴧ"); ("ⴭ", "Ⴭ"); ("ꙁ", "Ꙁ"); ("ꙃ", "Ꙃ");
   ("ꙅ", "Ꙅ"); ("ꙇ", "Ꙇ"); ("ꙉ", "Ꙉ"); ("ꙋ", "Ꙋ"); ("ꙍ", "Ꙍ"); ("ꙏ", "Ꙏ");
   ("ꙑ", "Ꙑ"); ("ꙓ", "Ꙓ"); ("ꙕ", "Ꙕ"); ("ꙗ", "Ꙗ"); ("ꙙ", "Ꙙ"); ("ꙛ", "Ꙛ");
   ("ꙝ", "Ꙝ"); ("ꙟ", "Ꙟ"); ("ꙡ", "Ꙡ"); ("ꙣ", "Ꙣ"); ("ꙥ", "Ꙥ"); ("ꙧ", "Ꙧ");
   ("ꙩ", "Ꙩ"); ("ꙫ", "Ꙫ"); ("ꙭ", "Ꙭ"); ("ꚁ", "Ꚁ"); ("ꚃ", "Ꚃ"); ("ꚅ", "Ꚅ");
   ("ꚇ", "Ꚇ"); ("ꚉ", "Ꚉ"); ("ꚋ", "Ꚋ"); ("ꚍ", "Ꚍ"); ("ꚏ", "Ꚏ"); ("ꚑ", "Ꚑ");
   ("ꚓ", "Ꚓ"); ("ꚕ", "Ꚕ"); ("ꚗ", "Ꚗ"); ("ꚙ", "Ꚙ"); ("ꚛ", "Ꚛ"); ("ꜣ", "Ꜣ");
   ("ꜥ", "Ꜥ"); ("ꜧ", "Ꜧ"); ("ꜩ", "Ꜩ"); ("ꜫ", "Ꜫ"); ("ꜭ", "Ꜭ"); ("ꜯ", "Ꜯ");
   ("ꜳ", "Ꜳ"); ("ꜵ", "Ꜵ"); ("ꜷ", "Ꜷ"); ("ꜹ", "Ꜹ"); ("ꜻ", "Ꜻ"); ("ꜽ", "Ꜽ");
   ("ꜿ", "Ꜿ"); ("ꝁ", "Ꝁ"); ("ꝃ", "Ꝃ"); ("ꝅ", "Ꝅ"); ("ꝇ", "Ꝇ"); ("ꝉ", "Ꝉ");
   ("ꝋ", "Ꝋ"); ("ꝍ", "Ꝍ"); ("ꝏ", "Ꝏ"); ("ꝑ", "Ꝑ"); ("ꝓ", "Ꝓ"); ("ꝕ", "Ꝕ");
   ("ꝗ", "Ꝗ"); ("ꝙ", "Ꝙ"); ("ꝛ", "Ꝛ"); ("ꝝ", "Ꝝ"); ("ꝟ", "Ꝟ"); ("ꝡ", "Ꝡ");
   ("ꝣ", "Ꝣ"); ("ꝥ", "Ꝥ"); ("ꝧ", "Ꝧ"); ("ꝩ", "Ꝩ"); ("ꝫ", "Ꝫ"); ("ꝭ", "Ꝭ");
   ("ꝯ", "Ꝯ"); ("ꝺ", "Ꝺ"); ("ꝼ", "Ꝼ"); ("ꝿ", "Ꝿ"); ("ꞁ", "Ꞁ"); ("ꞃ", "Ꞃ");
   ("ꞅ", "Ꞅ"); ("ꞇ", "Ꞇ"); ("ꞌ", "Ꞌ"); ("ꞑ", "Ꞑ"); ("ꞓ", "Ꞓ"); ("ꞔ", "Ꞔ");
   ("ꞗ", "Ꞗ"); ("ꞙ", "Ꞙ"); ("ꞛ", "Ꞛ"); ("ꞝ", "Ꞝ"); ("ꞟ", "Ꞟ"); ("ꞡ", "Ꞡ");
   ("ꞣ", "Ꞣ"); ("ꞥ", "Ꞥ"); ("ꞧ", "Ꞧ"); ("ꞩ", "Ꞩ"); ("ꞵ", "Ꞵ"); ("ꞷ", "Ꞷ");
   ("ꞹ", "Ꞹ"); ("ꞻ", "Ꞻ"); ("ꞽ", "Ꞽ"); ("ꞿ", "Ꞿ"); ("ꟁ", "Ꟁ"); ("ꟃ", "Ꟃ");
   ("ꟈ", "Ꟈ"); ("ꟊ", "Ꟊ"); ("ꟑ", "Ꟑ"); ("ꟗ", "Ꟗ"); ("ꟙ", "Ꟙ"); ("ꟶ", "Ꟶ");
   ("ꭓ", "Ꭓ"); ("ꭰ", "Ꭰ"); ("ꭱ", "Ꭱ"); ("ꭲ", "Ꭲ"); ("ꭳ", "Ꭳ"); ("ꭴ", "Ꭴ");
   ("ꭵ", "Ꭵ"); ("ꭶ", "Ꭶ"); ("ꭷ", "Ꭷ"); ("ꭸ", "Ꭸ"); ("ꭹ", "Ꭹ"); ("ꭺ", "Ꭺ");
   ("ꭻ", "Ꭻ"); ("ꭼ", "Ꭼ"); ("ꭽ", "Ꭽ"); ("ꭾ", "Ꭾ"); ("ꭿ", "Ꭿ"); ("ꮀ", "Ꮀ");
   ("ꮁ", "Ꮁ"); ("ꮂ", "Ꮂ"); ("ꮃ", "Ꮃ"); ("ꮄ", "Ꮄ"); ("ꮅ", "Ꮅ"); ("ꮆ", "Ꮆ");
   ("ꮇ", "Ꮇ"); ("ꮈ", "Ꮈ"); ("ꮉ", "Ꮉ"); ("ꮊ", "Ꮊ"); ("ꮋ", "Ꮋ"); ("ꮌ", "Ꮌ");
   ("ꮍ", "Ꮍ"); ("ꮎ", "Ꮎ"); ("ꮏ", "Ꮏ"); ("ꮐ", "Ꮐ"); ("ꮑ", "Ꮑ"); ("ꮒ", "Ꮒ");
   ("ꮓ", "Ꮓ"); ("ꮔ", "Ꮔ"); ("ꮕ", "Ꮕ"); ("ꮖ", "Ꮖ"); ("ꮗ", "Ꮗ"); ("ꮘ", "Ꮘ");
   ("ꮙ", "Ꮙ"); ("ꮚ", "Ꮚ"); ("ꮛ", "Ꮛ"); ("ꮜ", "Ꮜ"); ("ꮝ", "Ꮝ"); ("ꮞ", "Ꮞ");
   ("ꮟ", "Ꮟ"); ("ꮠ", "Ꮠ"); ("ꮡ", "Ꮡ"); ("ꮢ", "Ꮢ"); ("ꮣ", "Ꮣ"); ("ꮤ", "Ꮤ");
   ("ꮥ", "Ꮥ"); ("ꮦ", "Ꮦ"); ("ꮧ", "Ꮧ"); ("ꮨ", "Ꮨ"); ("ꮩ", "Ꮩ"); ("ꮪ", "Ꮪ");
   ("ꮫ", "Ꮫ"); ("ꮬ", "Ꮬ"); ("ꮭ", "Ꮭ"); ("ꮮ", "Ꮮ"); ("ꮯ", "Ꮯ"); ("ꮰ", "Ꮰ");
   ("ꮱ", "Ꮱ"); ("ꮲ", "Ꮲ"); ("ꮳ", "Ꮳ"); ("ꮴ", "Ꮴ"); ("ꮵ", "Ꮵ"); ("ꮶ", "Ꮶ");
   ("ꮷ", "Ꮷ"); ("ꮸ", "Ꮸ"); ("ꮹ", "Ꮹ"); ("ꮺ", "Ꮺ"); ("ꮻ", "Ꮻ"); ("ꮼ", "Ꮼ");
   ("ꮽ", "Ꮽ"); ("ꮾ", "Ꮾ"); ("ꮿ", "Ꮿ"); ("ﬀ", "FF"); ("ﬁ", "FI"); ("ﬂ", "FL");
   ("ﬃ", "FFI"); ("ﬄ", "FFL"); ("ﬅ", "ST"); ("ﬆ", "ST"); ("ﬓ", "ՄՆ"); ("ﬔ", "ՄԵ");
   ("ﬕ", "ՄԻ"); ("ﬖ", "ՎՆ"); ("ﬗ", "ՄԽ"); ("ａ", "Ａ"); ("ｂ", "Ｂ"); ("ｃ", "Ｃ");
   ("ｄ", "Ｄ"); ("ｅ", "Ｅ"); ("ｆ", "Ｆ"); ("ｇ", "Ｇ"); ("ｈ", "Ｈ"); ("ｉ", "Ｉ");
   ("ｊ", "Ｊ"); ("ｋ", "Ｋ"); ("ｌ", "Ｌ"); ("ｍ", "Ｍ"); ("ｎ", "Ｎ"); ("ｏ", "Ｏ");
   ("ｐ", "Ｐ"); ("ｑ", "Ｑ"); ("ｒ", "Ｒ"); ("ｓ", "Ｓ"); ("ｔ", "Ｔ"); ("ｕ", "Ｕ");
   ("ｖ", "Ｖ"); ("ｗ", "Ｗ"); ("ｘ", "Ｘ"); ("ｙ", "Ｙ"); ("ｚ", "Ｚ"); ("𐐨", "𐐀");
   ("𐐩", "𐐁"); ("𐐪", "𐐂"); ("𐐫", "𐐃"); ("𐐬", "𐐄"); ("𐐭", "𐐅"); ("𐐮", "𐐆");
   ("𐐯", "𐐇"); ("𐐰", "𐐈"); ("𐐱", "𐐉"); ("𐐲", "𐐊"); ("𐐳", "𐐋"); ("𐐴", "𐐌");
   ("𐐵", "𐐍"); ("𐐶", "𐐎"); ("𐐷", "𐐏"); ("𐐸", "𐐐"); ("𐐹", "𐐑"); ("𐐺", "𐐒");
   ("𐐻", "𐐓"); ("𐐼", "𐐔"); ("𐐽", "𐐕"); ("𐐾", "𐐖"); ("𐐿", "𐐗"); ("𐑀", "𐐘");
   ("𐑁", "𐐙"); ("𐑂", "𐐚"); ("𐑃", "𐐛"); ("𐑄", "𐐜"); ("𐑅", "𐐝"); ("𐑆", "𐐞");
   ("𐑇", "𐐟"); ("𐑈", "𐐠"); ("𐑉", "𐐡"); ("𐑊", "𐐢"); ("𐑋", "𐐣"); ("𐑌", "𐐤");
   ("𐑍", "𐐥"); ("𐑎", "𐐦"); ("𐑏", "𐐧"); ("𐓘", "𐒰"); ("𐓙", "𐒱"); ("𐓚", "𐒲");
   ("𐓛", "𐒳"); ("𐓜", "𐒴"); ("𐓝", "𐒵"); ("𐓞", "𐒶"); ("𐓟", "𐒷"); ("𐓠", "𐒸");
   ("𐓡", "𐒹"); ("𐓢", "𐒺"); ("𐓣", "𐒻"); ("𐓤", "𐒼"); ("𐓥", "𐒽"); ("𐓦", "𐒾");
   ("𐓧", "𐒿"); ("𐓨", "𐓀"); ("𐓩", "𐓁"); ("𐓪", "𐓂"); ("𐓫", "𐓃"); ("𐓬", "𐓄");
   ("𐓭", "𐓅"); ("𐓮", "𐓆"); ("𐓯", "𐓇"); ("𐓰", "𐓈"); ("𐓱", "𐓉"); ("𐓲", "𐓊");
   ("𐓳", "𐓋"); ("𐓴", "𐓌"); ("𐓵", "𐓍"); ("𐓶", "𐓎"); ("𐓷", "𐓏"); ("𐓸", "𐓐");
   ("𐓹", "𐓑"); ("𐓺", "𐓒"); ("𐓻", "𐓓"); ("𐖗", "𐕰"); ("𐖘", "𐕱"); ("𐖙", "𐕲");
   ("𐖚", "𐕳"); ("𐖛", "𐕴"); ("𐖜", "𐕵"); ("𐖝", "𐕶"); ("𐖞", "𐕷"); ("𐖟", "𐕸");
   ("𐖠", "𐕹"); ("𐖡", "𐕺"); ("𐖣", "𐕼"); ("𐖤", "𐕽"); ("𐖥", "𐕾"); ("𐖦", "𐕿");
   ("𐖧", "𐖀"); ("𐖨", "𐖁"); ("𐖩", "𐖂"); ("𐖪", "𐖃"); ("𐖫", "𐖄"); ("𐖬", "𐖅");
   ("𐖭", "𐖆"); ("𐖮", "𐖇"); ("𐖯", "𐖈"); ("𐖰", "𐖉"); ("𐖱", "𐖊"); ("𐖳", "𐖌");
   ("𐖴", "𐖍"); ("𐖵", "𐖎"); ("𐖶", "𐖏"); ("𐖷", "𐖐"); ("𐖸", "𐖑"); ("𐖹", "𐖒");
   ("𐖻", "𐖔"); ("𐖼", "𐖕"); ("𐳀", "𐲀"); ("𐳁", "𐲁"); ("𐳂", "𐲂"); ("𐳃", "𐲃");
   ("𐳄", "𐲄"); ("𐳅", "𐲅"); ("𐳆", "𐲆"); ("𐳇", "𐲇"); ("𐳈", "𐲈"); ("𐳉", "𐲉");
   ("𐳊", "𐲊"); ("𐳋", "𐲋"); ("𐳌", "𐲌"); ("𐳍", "𐲍"); ("𐳎", "𐲎"); ("𐳏", "𐲏");
   ("𐳐", "𐲐"); ("𐳑", "𐲑"); ("𐳒", "𐲒"); ("𐳓", "𐲓"); ("𐳔", "𐲔"); ("𐳕", "𐲕");
   ("𐳖", "𐲖"); ("𐳗", "𐲗"); ("𐳘", "𐲘"); ("𐳙", "𐲙"); ("𐳚", "𐲚"); ("𐳛", "𐲛");
   ("𐳜", "𐲜"); ("𐳝", "𐲝"); ("𐳞", "𐲞"); ("𐳟", "𐲟"); ("𐳠", "𐲠"); ("𐳡", "𐲡");
   ("𐳢", "𐲢"); ("𐳣", "𐲣"); ("𐳤", "𐲤"); ("𐳥", "𐲥"); ("𐳦", "𐲦"); ("𐳧", "𐲧");
   ("𐳨", "𐲨"); ("𐳩", "𐲩"); ("𐳪", "𐲪"); ("𐳫", "𐲫"); ("𐳬", "𐲬"); ("𐳭", "𐲭");
   ("𐳮", "𐲮"); ("𐳯", "𐲯"); ("𐳰", "𐲰"); ("𐳱", "𐲱"); ("𐳲", "𐲲"); ("𑣀", "𑢠");
   ("𑣁", "𑢡"); ("𑣂", "𑢢"); ("𑣃", "𑢣"); ("𑣄", "𑢤"); ("𑣅", "𑢥"); ("𑣆", "𑢦");
   ("𑣇", "𑢧"); ("𑣈", "𑢨"); ("𑣉", "𑢩"); ("𑣊", "𑢪"); ("𑣋", "𑢫"); ("𑣌", "𑢬");
   ("𑣍", "𑢭"); ("𑣎", "𑢮"); ("𑣏", "𑢯"); ("𑣐", "𑢰"); ("𑣑", "𑢱"); ("𑣒", "𑢲");
   ("𑣓", "𑢳"); ("𑣔", "𑢴"); ("𑣕", "𑢵"); ("𑣖", "𑢶"); ("𑣗", "𑢷"); ("𑣘", "𑢸");
   ("𑣙", "𑢹"); ("𑣚", "𑢺"); ("𑣛", "𑢻"); ("𑣜", "𑢼"); ("𑣝", "𑢽"); ("𑣞", "𑢾");
   ("𑣟", "𑢿"); ("𖹠", "𖹀"); ("𖹡", "𖹁"); ("𖹢", "𖹂"); ("𖹣", "𖹃"); ("𖹤", "𖹄");
   ("𖹥", "𖹅"); ("𖹦", "𖹆"); ("𖹧", "𖹇"); ("𖹨", "𖹈"); ("𖹩", "𖹉"); ("𖹪", "𖹊");
   ("𖹫", "𖹋"); ("𖹬", "𖹌"); ("𖹭", "𖹍"); ("𖹮", "𖹎"); ("𖹯", "𖹏"); ("𖹰", "𖹐");
   ("𖹱", "𖹑"); ("𖹲", "𖹒"); ("𖹳", "𖹓"); ("𖹴", "𖹔"); ("𖹵", "𖹕"); ("𖹶", "𖹖");
   ("𖹷", "𖹗"); ("𖹸", "𖹘"); ("𖹹", "𖹙"); ("𖹺", "𖹚"); ("𖹻", "𖹛"); ("𖹼", "𖹜");
   ("𖹽", "𖹝"); ("𖹾", "𖹞"); ("𖹿", "𖹟"); ("𞤢", "𞤀"); ("𞤣", "𞤁"); ("𞤤", "𞤂");
   ("𞤥", "𞤃"); ("𞤦", "𞤄"); ("𞤧", "𞤅"); ("𞤨", "𞤆"); ("𞤩", "𞤇"); ("𞤪", "𞤈");
   ("𞤫", "𞤉"); ("𞤬", "𞤊"); ("𞤭", "𞤋"); ("𞤮", "𞤌"); ("𞤯", "𞤍"); ("𞤰", "𞤎");
   ("𞤱", "𞤏"); ("𞤲", "𞤐"); ("𞤳", "𞤑"); ("𞤴", "𞤒"); ("𞤵", "𞤓"); ("𞤶", "𞤔");
   ("𞤷", "𞤕"); ("𞤸", "𞤖"); ("𞤹", "𞤗"); ("𞤺", "𞤘"); ("𞤻", "𞤙"); ("𞤼", "𞤚");
   ("𞤽", "𞤛"); ("𞤾", "𞤜"); ("𞤿", "𞤝"); ("𞥀", "𞤞"); ("𞥁", "𞤟"); ("𞥂", "𞤠");
   ("𞥃", "𞤡")].

Fixpoint assoc (k : string) (l : list (string * string)) : option string :=
  match l with
  | [] => None
  | (k', v) :: l' => if String.eqb k k' then Some v else assoc k l'
  end.

Definition upper_char (ch : string) : string :=
  default ch (assoc ch uppercase_table).

(** [str.upper]: character by character. *)
Definition upper (s : string) : string :=
  foldr (fun ch r => upper_char ch +:+ r) EmptyString (code_points s).

(** ** The scheduler *)

Definition required (t : SessionType) : Q :=
  match t with
  | LECTURE => 3 # 2
  | TUTORIAL => 1
  | PRACTICAL => 2
  end.

Definition days : list string :=
  ["Monday"; "Tuesday"; "Wednesday"; "Thursday"; "Friday"].

Definition _generate_time_slots : list TimeSlot.t :=
  flat_map (fun day =>
    [ (* 1.5h lectures *)
      TimeSlot.mk day (9, 0) (10, 30) (3 # 2);
      TimeSlot.mk day (11, 0) (12, 30) (3 # 2);
      TimeSlot.mk day (14, 0) (15, 30) (3 # 2);
      TimeSlot.mk day (16, 0) (17, 30) (3 # 2);
      (* 1h tutorials *)
      TimeSlot.mk day (9, 0) (10, 0) 1;
      TimeSlot.mk day (10, 30) (11, 30) 1;
      TimeSlot.mk day (11, 30) (12, 30) 1;
      TimeSlot.mk day (14, 0) (15, 0) 1;
      TimeSlot.mk day (15, 30) (16, 30) 1;
      TimeSlot.mk day (16, 30) (17, 30) 1;
      (* 2h practicals *)
      TimeSlot.mk day (9, 0) (11, 0) 2;
      TimeSlot.mk day (11, 0) (13, 0) 2;
      TimeSlot.mk day (14, 0) (16, 0) 2;
      TimeSlot.mk day (16, 0) (18, 0) 2 ]) days.

(** The room lists of [__init__]. *)
Definition startswith_L (r : Room.t) : bool := String.prefix "L" (Room.room_id r).

Definition is_lab (r : Room.t) : bool :=
  startswith_L r || str_contains "LAB" (upper (Room.room_id r)).

(** [key=lambda r: -r.capacity] *)
Definition capacity_desc (a b : Room.t) : bool :=
  (- Room.capacity a <? - Room.capacity b)%Z.

Definition big_rooms_of (rooms : list Room.t) : list Room.t :=
  sorted capacity_desc (filter (λ r, 100 ≤ Room.capacity r) rooms).

Definition regular_rooms_of (rooms : list Room.t) : list Room.t :=
  sorted capacity_desc
    (filter (λ r, Room.capacity r < 100 ∧ ¬ startswith_L r) rooms).

Definition labs_of (rooms : list Room.t) : list Room.t :=
  filter (λ r, is_lab r) rooms.

Record Scheduler : Type := mkScheduler {
  courses : list Course.t;
  rooms : list Room.t;
  schedule : list ScheduledSession.t;
  faculty_schedule : gmap string (gmap string (list TimeSlot.t));
  room_schedule : gmap string (gmap string (list TimeSlot.t));
  student_schedule : gmap string (gmap string (list TimeSlot.t));
  course_daily_schedule : gmap string (gmap string (list SessionType));
  time_slots : list TimeSlot.t;
  slots_by_duration : list (Q * list TimeSlot.t);
  big_rooms : list Room.t;
  regular_rooms : list Room.t;
  labs : list Room.t;
  conflicts : list string;
  conflict_reasons : gmap string nat;
  elective_baskets : gmap string (list nat)
}.

(** [self.conflict_reasons[k] += 1] *)
Definition count_reason (k : string) (s : Scheduler) : Scheduler :=
  mkScheduler (courses s) (rooms s) (schedule s) (faculty_schedule s)
    (room_schedule s) (student_schedule s) (course_daily_schedule s)
    (time_slots s) (slots_by_duration s) (big_rooms s) (regular_rooms s)
    (labs s) (conflicts s) (incr k (conflict_reasons s)) (elective_baskets s).

(** [self.conflicts.append(msg)] *)
Definition add_conflict (msg : string) (s : Scheduler) : Scheduler :=
  mkScheduler (courses s) (rooms s) (schedule s) (faculty_schedule s)
    (room_schedule s) (student_schedule s) (course_daily_schedule s)
    (time_slots s) (slots_by_duration s) (big_rooms s) (regular_rooms s)
    (labs s) (conflicts s ++ [msg]) (conflict_reasons s) (elective_baskets s).

(** The five appends of [_schedule_session] once a check has passed. *)
Definition commit (s : Scheduler) (course : Course.t) (session_type : SessionType)
    (time_slot : TimeSlot.t) (room : Room.t) (session_number : Z) : Scheduler :=
  let session :=
    ScheduledSession.mk course session_type time_slot room
      (Course.faculty_name course) session_number (Course.basket course) in
  let semester_half := Course.semester_half course in
  mkScheduler (courses s) (rooms s)
    (schedule s ++ [session])
    (append2 (faculty_schedule s) (Course.faculty_name course) semester_half time_slot)
    (append2 (room_schedule s) (Room.room_id room) semester_half time_slot)
    (append2 (student_schedule s) (Course.get_student_key course) semester_half time_slot)
    (append2 (course_daily_schedule s) (Course.course_id course)
       (TimeSlot.day time_slot) session_type)
    (time_slots s) (slots_by_duration s) (big_rooms s) (regular_rooms s)
    (labs s) (conflicts s) (conflict_reasons s) (elective_baskets s).

Definition _get_suitable_rooms (s : Scheduler) (course : Course.t)
    (session_type : SessionType) : list Room.t :=
  match session_type with
  | PRACTICAL =>
      filter (λ room, Course.num_students course ≤ Room.capacity room) (labs s)
  | _ =>
      filter (λ room, Course.num_students course ≤ Room.capacity room)
        (big_rooms s ++ regular_rooms s)
  end.

(** The same-day rule applied when the course has exactly one session
    that day: the counter key and the message of the rejection, if any. *)
Definition same_day_collision (session_type existing_type : SessionType)
  : option (string * string) :=
  match session_type, existing_type with
  | PRACTICAL, PRACTICAL => Some ("Two practicals same day", "Already has a practical today")
  | LECTURE, LECTURE => Some ("Two lectures same day", "Already has a lecture today")
  | TUTORIAL, TUTORIAL => Some ("Two tutorials same day", "Already has a tutorial today")
  | LECTURE, TUTORIAL | TUTORIAL, LECTURE =>
      Some ("Lecture+Tutorial same day", "Already has a theory session today")
  | _, _ => None
  end.

Definition _check_constraints (s : Scheduler) (course : Course.t)
    (session_type : SessionType) (time_slot : TimeSlot.t) (room : Room.t)
  : Scheduler * (bool * string) :=
  let semester_half := Course.semester_half course in
  (* Faculty conflict (within same semester half) *)
  if slot_in time_slot (get2 (faculty_schedule s) (Course.faculty_name course) semester_half)
  then (count_reason "Faculty busy" s, (false, "Faculty busy"))
  else
  (* Room conflict (across all semester halves) *)
  if existsb (fun half => slot_in time_slot (get2 (room_schedule s) (Room.room_id room) half))
       ["Sem-I"; "Sem-II"]
  then (count_reason "Room occupied" s, (false, "Room occupied"))
  else
  (* Student conflict (within same semester half) *)
  let student_key := Course.get_student_key course in
  if slot_in time_slot (get2 (student_schedule s) student_key semester_half)
  then (count_reason "Students busy" s, (false, "Students busy"))
  else
  (* Daily limit check *)
  let day := TimeSlot.day time_slot in
  let daily_sessions := get2 (course_daily_schedule s) (Course.course_id course) day in
  if (2 <=? length daily_sessions)%nat
  then (count_reason "Max 2 sessions/day exceeded" s,
        (false, "Course already has 2 sessions today"))
  else
  match (match daily_sessions with
         | [existing_type] => same_day_collision session_type existing_type
         | _ => None
         end) with
  | Some (key, msg) => (count_reason key s, (false, msg))
  | None =>
  (* Duration check *)
  if negb (Qeq_bool (TimeSlot.duration_hours time_slot) (required session_type))
  then (count_reason "Wrong duration" s, (false, "Wrong duration"))
  else (s, (true, "OK"))
  end.

(** The inner loop of [_schedule_session]: the first room of
    [suitable_rooms] that passes the check at [time_slot]. *)
Fixpoint try_rooms (s : Scheduler) (course : Course.t) (session_type : SessionType)
    (time_slot : TimeSlot.t) (suitable_rooms : list Room.t)
  : Scheduler * option Room.t :=
  match suitable_rooms with
  | [] => (s, None)
  | room :: rest =>
      let '(s', (valid, _)) := _check_constraints s course session_type time_slot room in
      if valid then (s', Some room)
      else try_rooms s' course session_type time_slot rest
  end.

(** The outer loop of [_schedule_session]. *)
Fixpoint try_slots (s : Scheduler) (course : Course.t) (session_type : SessionType)
    (session_number : Z) (available_slots : list TimeSlot.t)
    (suitable_rooms : list Room.t) : Scheduler * bool :=
  match available_slots with
  | [] => (s, false)
  | time_slot :: rest =>
      match try_rooms s course session_type time_slot suitable_rooms with
      | (s', Some room) =>
          (commit s' course session_type time_slot room session_number, true)
      | (s', None) =>
          try_slots s' course session_type session_number rest suitable_rooms
      end
  end.

Definition _schedule_session (s : Scheduler) (course : Course.t)
    (session_type : SessionType) (session_number : Z) : Scheduler * bool :=
  let suitable_rooms := _get_suitable_rooms s course session_type in
  match suitable_rooms with
  | [] => (count_reason "No suitable room" s, false)
  | _ =>
      let available_slots :=
        od_get Qeq_bool (slots_by_duration s) (required session_type) in
      try_slots s course session_type session_number available_slots suitable_rooms
  end.

(** The conflict line of [schedule_course]. *)
Definition conflict_message (course : Course.t) (session_type : SessionType)
    (session_num : Z) : string :=
  Course.course_code course +:+ " (" +:+ Course.branch course +:+ " "
  +:+ default "" (Course.section_truthy course) +:+ " "
  +:+ Course.semester_half course +:+ ") - "
  +:+ value session_type +:+ " #" +:+ pretty session_num
  +:+ " - Faculty: " +:+ Course.faculty_name course.

Definition sessions_needed (course : Course.t) : list (SessionType * Z) :=
  [ (LECTURE, Course.lectures course);
    (TUTORIAL, Course.tutorials course);
    (PRACTICAL, Course.practicals course) ].

(** One iteration of the inner loop of [schedule_course]. *)
Definition schedule_one (course : Course.t) (session_type : SessionType)
    (acc : Scheduler * Z) (session_num : Z) : Scheduler * Z :=
  let '(s, scheduled_count) := acc in
  let '(s', ok) := _schedule_session s course session_type session_num in
  if ok then (s', scheduled_count + 1)
  else (add_conflict (conflict_message course session_type session_num) s',
        scheduled_count).

Definition schedule_course (s : Scheduler) (course : Course.t) : Scheduler * Z :=
  fold_left
    (fun acc '(session_type, count) =>
       fold_left (schedule_one course session_type) (range 1 (count + 1)) acc)
    (sessions_needed course) (s, 0).

(** The sort key of [generate_timetable], compared as Python compares
    tuples: [(semester_half, semester, -practicals, -num_students)]. *)
Definition course_key_lt (a b : Course.t) : bool :=
  match String.compare (Course.semester_half a) (Course.semester_half b) with
  | Lt => true
  | Gt => false
  | Eq =>
      if (Course.semester a =? Course.semester b) then
        if (- Course.practicals a =? - Course.practicals b) then
          (- Course.num_students a <? - Course.num_students b)
        else (- Course.practicals a <? - Course.practicals b)
      else (Course.semester a <? Course.semester b)
  end.

(** [generate_timetable], up to the export: the final scheduler and
    [total_sessions]. *)
Definition generate_timetable (s : Scheduler) : Scheduler * Z :=
  let sorted_courses := sorted course_key_lt (courses s) in
  fold_left
    (fun '(s, total_sessions) course =>
       let '(s', count) := schedule_course s course in
       (s', total_sessions + count))
    sorted_courses (s, 0).

(** The [metadata] counts of [export_timetable]. *)
Definition total_sessions (s : Scheduler) : nat := length (schedule s).
Definition total_conflicts (s : Scheduler) : nat := length (conflicts s).

(** *** Basket detection *)

Definition basket_key : Type := (Z * string * string)%type.

Definition basket_key_of (course : Course.t) : basket_key :=
  (Course.semester course, Course.branch course, Course.semester_half course).

Definition basket_key_eqb (a b : basket_key) : bool := bool_decide (a = b).

(** First loop of [_detect_baskets]: positions of the electives, grouped
    by key in first-occurrence order.  [i] is the position of the head of
    [cs] in the course list. *)
Fixpoint group_electives (i : nat) (cs : list Course.t)
    (elective_groups : list (basket_key * list nat)) : list (basket_key * list nat) :=
  match cs with
  | [] => elective_groups
  | course :: rest =>
      group_electives (S i) rest
        (if Course.is_elective course
         then od_append basket_key_eqb elective_groups (basket_key_of course) i
         else elective_groups)
  end.

(** [baskets[basket_id].append(course)] *)
Definition basket_append (baskets : gmap string (list nat)) (basket_id : string)
    (i : nat) : gmap string (list nat) :=
  <[basket_id := default [] (baskets !! basket_id) ++ [i]]> baskets.

(** Second loop of [_detect_baskets], over [elective_groups.items()]. *)
Fixpoint assign_baskets (groups : list (basket_key * list nat)) (basket_counter : Z)
    (cs : list Course.t) (baskets : gmap string (list nat))
  : list Course.t * gmap string (list nat) :=
  match groups with
  | [] => (cs, baskets)
  | (_, members) :: rest =>
      if (1 <? length members)%nat then
        let basket_id := "B" +:+ pretty basket_counter in
        let '(cs', baskets') :=
          fold_left
            (fun '(cs, baskets) i =>
               (alter (Course.set_basket (Some basket_id)) i cs,
                basket_append baskets basket_id i))
            members (cs, baskets) in
        assign_baskets rest (basket_counter + 1) cs' baskets'
      else assign_baskets rest basket_counter cs baskets
  end.

(** The courses after the in-place update and the returned [baskets]. *)
Definition _detect_baskets (cs : list Course.t) : list Course.t * gmap string (list nat) :=
  assign_baskets (group_electives 0 cs []) 1 cs ∅.

(** [slots_by_duration], filled in catalog order. *)
Definition group_slots (slots : list TimeSlot.t) : list (Q * list TimeSlot.t) :=
  fold_left (fun d slot => od_append Qeq_bool d (TimeSlot.duration_hours slot) slot)
    slots [].

(** [ImprovedScheduler.__init__] *)
Definition __init__ (cs : list Course.t) (rs : list Room.t) : Scheduler :=
  let time_slots := _generate_time_slots in
  let '(cs', baskets) := _detect_baskets cs in
  mkScheduler cs' rs [] ∅ ∅ ∅ ∅
    time_slots (group_slots time_slots)
    (big_rooms_of rs) (regular_rooms_of rs) (labs_of rs)
    [] ∅ baskets.

(** A whole run, as [main] drives it: construct, then generate. *)
Definition run (cs : list Course.t) (rs : list Room.t) : Scheduler :=
  (generate_timetable (__init__ cs rs)).1.

(** * Specification

    Predicates and sample inputs the properties below are stated with. *)

(** What an accepted candidate has passed. *)
Record checks_pass (s : Scheduler) (course : Course.t) (session_type : SessionType)
    (time_slot : TimeSlot.t) (room : Room.t) : Prop := {
  faculty_free :
    slot_in time_slot
      (get2 (faculty_schedule s) (Course.faculty_name course)
         (Course.semester_half course)) = false;
  room_free_I :
    slot_in time_slot (get2 (room_schedule s) (Room.room_id room) "Sem-I") = false;
  room_free_II :
    slot_in time_slot (get2 (room_schedule s) (Room.room_id room) "Sem-II") = false;
  students_free :
    slot_in time_slot
      (get2 (student_schedule s) (Course.get_student_key course)
         (Course.semester_half course)) = false;
  below_cap :
    (length (get2 (course_daily_schedule s) (Course.course_id course)
               (TimeSlot.day time_slot)) < 2)%nat;
  no_collision :
    ∀ existing_type,
      get2 (course_daily_schedule s) (Course.course_id course)
        (TimeSlot.day time_slot) = [existing_type] →
      same_day_collision session_type existing_type = None;
  duration_ok :
    Qeq_bool (TimeSlot.duration_hours time_slot) (required session_type) = true
}.

(** [P] holds of a scheduler whose courses are [cs]. *)
Definition holds_with (P : Scheduler → Prop) (cs : list Course.t) (s : Scheduler) : Prop :=
  P s ∧ courses s = cs.

(** No two entries of a list, at different positions, are in [clash]. *)
Definition no_two {A : Type} (clash : A → A → Prop) (l : list A) : Prop :=
  ∀ i j x y, i ≠ j → l !! i = Some x → l !! j = Some y → ¬ clash x y.

Definition half_of (x : ScheduledSession.t) : string :=
  Course.semester_half (ScheduledSession.course x).

Definition same_slot (x y : ScheduledSession.t) : Prop :=
  TimeSlot.eqb (ScheduledSession.time_slot x) (ScheduledSession.time_slot y) = true.

Definition faculty_clash (x y : ScheduledSession.t) : Prop :=
  ScheduledSession.faculty_name x = ScheduledSession.faculty_name y
  ∧ half_of x = half_of y ∧ same_slot x y.

(** Rooms are compared by [room_id], the key of [room_schedule]; two equal
    [Room] objects have equal ids. *)
Definition room_clash (x y : ScheduledSession.t) : Prop :=
  Room.room_id (ScheduledSession.room x) = Room.room_id (ScheduledSession.room y)
  ∧ same_slot x y.

Definition student_clash (x y : ScheduledSession.t) : Prop :=
  Course.get_student_key (ScheduledSession.course x)
  = Course.get_student_key (ScheduledSession.course y)
  ∧ half_of x = half_of y ∧ same_slot x y.

(** The two half values the room check consults. *)
Definition valid_half (c : Course.t) : Prop :=
  Course.semester_half c = "Sem-I" ∨ Course.semester_half c = "Sem-II".

(** Every placed session is recorded in the occupancy table of its
    faculty, and no two placed sessions clash on faculty. *)
Definition faculty_inv (s : Scheduler) : Prop :=
  (∀ x, x ∈ schedule s →
     slot_in (ScheduledSession.time_slot x)
       (get2 (faculty_schedule s) (ScheduledSession.faculty_name x) (half_of x)) = true)
  ∧ no_two faculty_clash (schedule s).

Definition student_inv (s : Scheduler) : Prop :=
  (∀ x, x ∈ schedule s →
     slot_in (ScheduledSession.time_slot x)
       (get2 (student_schedule s)
          (Course.get_student_key (ScheduledSession.course x)) (half_of x)) = true)
  ∧ no_two student_clash (schedule s).

Definition room_inv (s : Scheduler) : Prop :=
  (∀ x, x ∈ schedule s →
     valid_half (ScheduledSession.course x)
     ∧ slot_in (ScheduledSession.time_slot x)
         (get2 (room_schedule s) (Room.room_id (ScheduledSession.room x))
            (half_of x)) = true)
  ∧ no_two room_clash (schedule s).

(** [c'] is [c] up to its [basket] field. *)
Definition same_but_basket (c c' : Course.t) : Prop :=
  c' = Course.set_basket (Course.basket c') c.

(** The sessions of course [cid] placed on day [d], in placement order. *)
Definition day_sessions (cid d : string) (l : list ScheduledSession.t)
  : list ScheduledSession.t :=
  filter (λ x, Course.course_id (ScheduledSession.course x) = cid
               ∧ TimeSlot.day (ScheduledSession.time_slot x) = d) l.

Definition day_types (cid d : string) (l : list ScheduledSession.t) : list SessionType :=
  ScheduledSession.session_type <$> day_sessions cid d l.

(** The shapes [course_daily_schedule[cid][d]] can take. *)
Definition daily_ok (l : list SessionType) : Prop :=
  (length l ≤ 2)%nat ∧ ∀ a b, l = [a; b] → same_day_collision b a = None.

Definition daily_inv (s : Scheduler) : Prop :=
  ∀ cid d,
    day_types cid d (schedule s) = get2 (course_daily_schedule s) cid d
    ∧ daily_ok (get2 (course_daily_schedule s) cid d).

Definition duration_inv (s : Scheduler) : Prop :=
  ∀ x, x ∈ schedule s →
    (TimeSlot.duration_hours (ScheduledSession.time_slot x)
     == required (ScheduledSession.session_type x))%Q.

(** Sessions accounted for so far. *)
Definition reported (s : Scheduler) : nat :=
  (total_sessions s + total_conflicts s)%nat.

(** How many sessions [schedule_course] attempts for a course. *)
Definition attempts (c : Course.t) : nat :=
  (Z.to_nat (Course.lectures c) + Z.to_nat (Course.tutorials c)
   + Z.to_nat (Course.practicals c))%nat.

(** The sum the report is compared with. *)
Definition required_sessions (cs : list Course.t) : Z :=
  foldr (fun c acc => Course.lectures c + Course.tutorials c + Course.practicals c + acc)
    0 cs.

Definition counts_nonneg (c : Course.t) : Prop :=
  0 ≤ Course.lectures c ∧ 0 ≤ Course.tutorials c ∧ 0 ≤ Course.practicals c.

(** The rejection a failing check produces: one counter is incremented
    and a message is returned. *)
Definition rejected (key msg : string) (s : Scheduler) : Scheduler * (bool * string) :=
  (count_reason key s, (false, msg)).

(** The conditions [_check_constraints] tests, in the order it tests them. *)
Definition faculty_busy (s : Scheduler) (course : Course.t) (time_slot : TimeSlot.t) : bool :=
  slot_in time_slot
    (get2 (faculty_schedule s) (Course.faculty_name course) (Course.semester_half course)).

Definition room_occupied (s : Scheduler) (room : Room.t) (time_slot : TimeSlot.t) : bool :=
  slot_in time_slot (get2 (room_schedule s) (Room.room_id room) "Sem-I")
  || slot_in time_slot (get2 (room_schedule s) (Room.room_id room) "Sem-II").

Definition students_busy (s : Scheduler) (course : Course.t) (time_slot : TimeSlot.t) : bool :=
  slot_in time_slot
    (get2 (student_schedule s) (Course.get_student_key course)
       (Course.semester_half course)).

Definition daily_sessions (s : Scheduler) (course : Course.t) (time_slot : TimeSlot.t)
  : list SessionType :=
  get2 (course_daily_schedule s) (Course.course_id course) (TimeSlot.day time_slot).

Definition wrong_duration (session_type : SessionType) (time_slot : TimeSlot.t) : bool :=
  negb (Qeq_bool (TimeSlot.duration_hours time_slot) (required session_type)).

(** Descending by capacity. *)
Definition capacity_ge (a b : Room.t) : Prop := Room.capacity b ≤ Room.capacity a.

(** The first 1.5h slot of the catalog. *)
Definition first_lecture_slot : TimeSlot.t :=
  TimeSlot.mk "Monday" (9, 0) (10, 30) (3 # 2).

(** [elective_groups] after the first loop, and the groups that get a
    basket. *)
Definition elective_groups (cs : list Course.t) : list (basket_key * list nat) :=
  group_electives 0 cs [].

Definition is_multi (g : basket_key * list nat) : bool := (1 <? length g.2)%nat.

Definition multi_groups (cs : list Course.t) : list (basket_key * list nat) :=
  filter (λ g, is_multi g) (elective_groups cs).

(** The assignments [course.basket = basket_id] the second loop executes,
    in order: the position of the course and the id it receives. *)
Fixpoint basket_assignments (groups : list (basket_key * list nat)) (basket_counter : Z)
  : list (nat * string) :=
  match groups with
  | [] => []
  | (_, members) :: rest =>
      if (1 <? length members)%nat then
        ((λ i, (i, "B" +:+ pretty basket_counter)) <$> members)
        ++ basket_assignments rest (basket_counter + 1)
      else basket_assignments rest basket_counter
  end.

Definition apply_assignments (ws : list (nat * string)) (cs : list Course.t)
  : list Course.t :=
  fold_left (fun cs '(i, basket_id) => alter (Course.set_basket (Some basket_id)) i cs)
    ws cs.


(** The electives of [cs] with key [K] are exactly at [members]. *)
Definition members_of (cs : list Course.t) (K : basket_key) (members : list nat) : Prop :=
  ∀ j, j ∈ members ↔
       ∃ c, cs !! j = Some c ∧ Course.is_elective c = true ∧ basket_key_of c = K.

(** What the first loop has built from the courses [pre] seen so far. *)
Definition groups_of (pre : list Course.t) (G : list (basket_key * list nat)) : Prop :=
  NoDup G.*1
  ∧ NoDup (mjoin G.*2)
  ∧ (∀ K members, (K, members) ∈ G → members_of pre K members)
  ∧ (∀ j c, pre !! j = Some c → Course.is_elective c = true →
       ∃ members, (basket_key_of c, members) ∈ G).


(** ** Sample inputs *)

Definition ex_programming : Course.t :=
  Course.mk "COURSE_1" "CS101" "Programming" 1 "Sem-I" "CSE" None
    1 0 1 "Dr A" false None 60.

Definition ex_calculus : Course.t :=
  Course.mk "COURSE_2" "MA101" "Calculus" 1 "Sem-II" "CSE" None
    1 1 0 "Dr B" false None 60.

Definition ex_algebra : Course.t :=
  Course.mk "COURSE_1" "MA102" "Algebra" 1 "Sem-I" "CSE" None
    1 0 0 "Dr B" false None 60.

Definition ex_signals : Course.t :=
  Course.mk "COURSE_1" "EC201" "Signals" 3 "first-half" "ECE" None
    1 0 0 "Dr C" false None 60.

Definition ex_networks : Course.t :=
  Course.mk "COURSE_2" "CS301" "Networks" 3 "first-half" "CSE" None
    1 0 0 "Dr D" false None 60.




(** A room whose id has no ASCII letter "L" and becomes "FLAB" in upper
    case (its first character is the ligature U+FB02). *)
Definition ex_ligature_room : Room.t := Room.mk "ﬂab" 40.

Definition ex_hall : Room.t := Room.mk "R1" 100.
Definition ex_lab : Room.t := Room.mk "L1" 60.
Definition ex_big_lab : Room.t := Room.mk "L1" 120.

Definition ex_courses : list Course.t := [ex_programming; ex_calculus].
Definition ex_rooms : list Room.t := [ex_hall; ex_lab].

Definition ex_first_session : ScheduledSession.t :=
  ScheduledSession.mk ex_programming LECTURE first_lecture_slot ex_hall "Dr A" 1 None.

Definition ex_tutorial_slot : TimeSlot.t := TimeSlot.mk "Monday" (9, 0) (10, 0) 1.

(** The statement that the three room lists share no room. *)
Definition classes_disjoint (rs : list Room.t) : Prop :=
  ∀ r, ¬ (r ∈ big_rooms_of rs ∧ r ∈ regular_rooms_of rs)
       ∧ ¬ (r ∈ big_rooms_of rs ∧ r ∈ labs_of rs)
       ∧ ¬ (r ∈ regular_rooms_of rs ∧ r ∈ labs_of rs).

(** * The rest of the module: definitions *)

(** The reasons a run can count in [conflict_reasons]. *)
Definition run_reasons : list string :=
  [ "Faculty busy"; "Room occupied"; "Students busy";
    "Max 2 sessions/day exceeded"; "Two practicals same day";
    "Two lectures same day"; "Two tutorials same day";
    "Lecture+Tutorial same day"; "No suitable room" ].

(** The count [schedule_course] reads for a session type. *)
Definition needed_count (course : Course.t) (session_type : SessionType) : Z :=
  match session_type with
  | LECTURE => Course.lectures course
  | TUTORIAL => Course.tutorials course
  | PRACTICAL => Course.practicals course
  end.

(** The attributes a run never assigns once the scheduler is built. *)
Definition same_setup (s0 s : Scheduler) : Prop :=
  courses s = courses s0 ∧ rooms s = rooms s0
  ∧ time_slots s = time_slots s0 ∧ slots_by_duration s = slots_by_duration s0
  ∧ big_rooms s = big_rooms s0 ∧ regular_rooms s = regular_rooms s0
  ∧ labs s = labs s0 ∧ elective_baskets s = elective_baskets s0.

(** Every slot filed under the duration of a type has that duration. *)
Definition slots_fit (s0 : Scheduler) : Prop :=
  ∀ session_type slot,
    slot ∈ od_get Qeq_bool (slots_by_duration s0) (required session_type) →
    wrong_duration session_type slot = false.

(** [P] holds of a scheduler reached from [s0]. *)
Definition holds_in_run (P : Scheduler → Prop) (s0 s : Scheduler) : Prop :=
  P s ∧ same_setup s0 s.

(** Minutes from [a] to [b]. *)
Definition minutes_between (a b : time) : Z := (b.1 * 60 + b.2) - (a.1 * 60 + a.2).

(** A slot on a weekday whose duration is the time from start to end. *)
Definition slot_wf (slot : TimeSlot.t) : bool :=
  bool_decide (TimeSlot.day slot ∈ days)
  && TimeSlot.time_lt (TimeSlot.start_time slot) (TimeSlot.end_time slot)
  && Qeq_bool (TimeSlot.duration_hours slot)
       (minutes_between (TimeSlot.start_time slot) (TimeSlot.end_time slot) # 60).

(** What makes [room] suitable for a session of [course]. *)
Definition suits (rs : list Room.t) (course : Course.t) (session_type : SessionType)
    (room : Room.t) : Prop :=
  room ∈ rs
  ∧ Course.num_students course ≤ Room.capacity room
  ∧ match session_type with
    | PRACTICAL => is_lab room = true
    | _ => 100 ≤ Room.capacity room ∨ startswith_L room = false
    end.

(** The scheduler [s'] extends [s]: lists and occupancy tables have only
    been appended to, counters have only grown. *)
Definition extends (s s' : Scheduler) : Prop :=
  schedule s `prefix_of` schedule s'
  ∧ conflicts s `prefix_of` conflicts s'
  ∧ (∀ a b, get2 (faculty_schedule s) a b `prefix_of` get2 (faculty_schedule s') a b)
  ∧ (∀ a b, get2 (room_schedule s) a b `prefix_of` get2 (room_schedule s') a b)
  ∧ (∀ a b, get2 (student_schedule s) a b `prefix_of` get2 (student_schedule s') a b)
  ∧ (∀ a b, get2 (course_daily_schedule s) a b
            `prefix_of` get2 (course_daily_schedule s') a b)
  ∧ (∀ key, (count_of (conflict_reasons s) key ≤ count_of (conflict_reasons s') key)%nat).

(** The sessions of course [cid] in a schedule. *)
Definition course_sessions (cid : string) (l : list ScheduledSession.t)
  : list ScheduledSession.t :=
  filter (λ x, Course.course_id (ScheduledSession.course x) = cid) l.

(** The first 2h slot of the catalog. *)
Definition first_practical_slot : TimeSlot.t :=
  TimeSlot.mk "Monday" (9, 0) (11, 0) 2.

(** Every slot of a table of [s] is equal to [t]. *)
Definition only_slot (t : TimeSlot.t) (m : gmap string (gmap string (list TimeSlot.t)))
  : Prop :=
  ∀ a b t', slot_in t' (get2 m a b) = true → TimeSlot.eqb t' t = true.

(** [t.strftime("%H:%M")] prints hour and minute as two digits each; a
    [datetime.time] holds an hour in 0..23 and a minute in 0..59. *)
Definition pad2 (n : Z) : string :=
  if n <? 10 then "0" +:+ pretty n else pretty n.

Definition strftime_HM (t : time) : string := pad2 t.1 +:+ ":" +:+ pad2 t.2.

Definition valid_time (t : time) : Prop := 0 ≤ t.1 < 24 ∧ 0 ≤ t.2 < 60.

(** [TimeSlot.__str__] *)
Definition TimeSlot_str (slot : TimeSlot.t) : string :=
  TimeSlot.day slot +:+ " " +:+ strftime_HM (TimeSlot.start_time slot)
  +:+ "-" +:+ strftime_HM (TimeSlot.end_time slot).

(** The two-digit prints of 0..59 are two characters long and pairwise
    different. *)
Definition pad2_table_ok : bool :=
  let ns := map Z.of_nat (seq 0 60) in
  forallb (fun a =>
    bool_decide (String.length (pad2 a) = 2%nat)
    && forallb (fun b => implb (String.eqb (pad2 a) (pad2 b)) (a =? b)) ns) ns.

(** Positions of a list at which equal slots sit, and pairs of catalog
    slots of one duration that overlap. *)
Definition catalog_distinct : bool :=
  forallb (fun '(i, a) =>
    forallb (fun '(j, b) => implb (TimeSlot.eqb a b) (i =? j)%nat)
      (imap (fun j b => (j, b)) _generate_time_slots))
    (imap (fun i a => (i, a)) _generate_time_slots).

Definition catalog_same_duration_apart : bool :=
  forallb (fun a =>
    forallb (fun b =>
      implb (Qeq_bool (TimeSlot.duration_hours a) (TimeSlot.duration_hours b)
             && TimeSlot.overlaps a b)
            (TimeSlot.eqb a b))
      _generate_time_slots)
    _generate_time_slots.

(** The sort key of [generate_timetable] as a tuple. *)
Definition course_key (c : Course.t) : string * Z * Z * Z :=
  (Course.semester_half c, Course.semester c, - Course.practicals c,
   - Course.num_students c).

(** [b] does not come before [a] in the order of the sort. *)
Definition not_before {A : Type} (lt : A → A → bool) (a b : A) : Prop := lt b a = false.

(** ** The two exports *)

(** An entry of [export_by_student_group]. *)
Module StudentEntry.
Record t : Type := mk {
  course_code : string;
  course_title : string;
  semester_half : string;
  session_type : string;
  session_number : Z;
  day : string;
  time : string;
  room : string;
  faculty : string;
  is_elective : bool;
  basket : option string
}.
End StudentEntry.

Definition student_entry (session : ScheduledSession.t) : StudentEntry.t :=
  let course := ScheduledSession.course session in
  let time_slot := ScheduledSession.time_slot session in
  StudentEntry.mk
    (Course.course_code course)
    (Course.course_title course)
    (Course.semester_half course)
    (value (ScheduledSession.session_type session))
    (ScheduledSession.session_number session)
    (TimeSlot.day time_slot)
    (strftime_HM (TimeSlot.start_time time_slot) +:+ "-"
     +:+ strftime_HM (TimeSlot.end_time time_slot))
    (Room.room_id (ScheduledSession.room session))
    (ScheduledSession.faculty_name session)
    (Course.is_elective course)
    (ScheduledSession.basket session).

(** The first loop of [export_by_student_group]. *)
Definition organize (l : list ScheduledSession.t) : list (string * list StudentEntry.t) :=
  fold_left
    (fun organized session =>
       od_append String.eqb organized
         (Course.get_student_key (ScheduledSession.course session))
         (student_entry session))
    l [].

Definition day_order : list string :=
  ["Monday"; "Tuesday"; "Wednesday"; "Thursday"; "Friday"].

(** [l.index(x)] when [x in l]. *)
Fixpoint index_of (x : string) (l : list string) : option nat :=
  match l with
  | [] => None
  | y :: l' => if String.eqb y x then Some 0%nat else S <$> index_of x l'
  end.

(** [day_order.index(d) if d in day_order else 999] *)
Definition day_rank (d : string) : Z :=
  match index_of d day_order with
  | Some i => Z.of_nat i
  | None => 999
  end.

(** The sort key [(day rank, time)] compared as tuples. *)
Definition entry_key_lt (a b : StudentEntry.t) : bool :=
  if day_rank (StudentEntry.day a) =? day_rank (StudentEntry.day b)
  then String.ltb (StudentEntry.time a) (StudentEntry.time b)
  else day_rank (StudentEntry.day a) <? day_rank (StudentEntry.day b).

Definition export_by_student_group (s : Scheduler) : list (string * list StudentEntry.t) :=
  map (fun '(key, entries) => (key, sorted entry_key_lt entries)) (organize (schedule s)).

(** A row of the ["schedule"] list of [export_timetable]. *)
Module ExportRow.
Record t : Type := mk {
  course_code : string;
  course_title : string;
  semester : Z;
  semester_half : string;
  branch : string;
  section : option string;
  is_elective : bool;
  basket : option string;
  session_type : string;
  session_number : Z;
  day : string;
  start_time : string;
  end_time : string;
  room : string;
  room_capacity : Z;
  faculty : string;
  year : Z
}.
End ExportRow.

Module Metadata.
Record t : Type := mk {
  total_sessions : nat;
  total_conflicts : nat;
  total_courses : nat;
  elective_baskets : nat;
  conflict_breakdown : gmap string nat
}.
End Metadata.

Module Timetable.
Record t : Type := mk {
  metadata : Metadata.t;
  conflicts : list string;
  schedule : list ExportRow.t
}.
End Timetable.

Definition export_row (s : ScheduledSession.t) : ExportRow.t :=
  let course := ScheduledSession.course s in
  let time_slot := ScheduledSession.time_slot s in
  ExportRow.mk
    (Course.course_code course)
    (Course.course_title course)
    (Course.semester course)
    (Course.semester_half course)
    (Course.branch course)
    (Course.section course)
    (Course.is_elective course)
    (ScheduledSession.basket s)
    (value (ScheduledSession.session_type s))
    (ScheduledSession.session_number s)
    (TimeSlot.day time_slot)
    (strftime_HM (TimeSlot.start_time time_slot))
    (strftime_HM (TimeSlot.end_time time_slot))
    (Room.room_id (ScheduledSession.room s))
    (Room.capacity (ScheduledSession.room s))
    (ScheduledSession.faculty_name s)
    ((Course.semester course + 1) / 2).

Definition export_timetable (s : Scheduler) : Timetable.t :=
  Timetable.mk
    (Metadata.mk
       (length (schedule s))
       (length (conflicts s))
       (length (courses s))
       (size (elective_baskets s))
       (conflict_reasons s))
    (conflicts s)
    (map export_row (schedule s)).

(** Two entries of a student group that collide on the page: same
    semester half, same day, same time. *)
Definition entry_clash (a b : StudentEntry.t) : Prop :=
  StudentEntry.semester_half a = StudentEntry.semester_half b
  ∧ StudentEntry.day a = StudentEntry.day b
  ∧ StudentEntry.time a = StudentEntry.time b.

(** The group of a student key in the export, as [d.get(key, [])]. *)
Definition student_group (s : Scheduler) (key : string) : list StudentEntry.t :=
  od_get String.eqb (export_by_student_group s) key.

(** Start and end of a slot are clock times. *)
Definition slot_clock_ok (slot : TimeSlot.t) : bool :=
  bool_decide (0 ≤ (TimeSlot.start_time slot).1 < 24
               ∧ 0 ≤ (TimeSlot.start_time slot).2 < 60)
  && bool_decide (0 ≤ (TimeSlot.end_time slot).1 < 24
                  ∧ 0 ≤ (TimeSlot.end_time slot).2 < 60).

(** The candidates [_schedule_session] goes through for a session. *)
Definition candidate_slots (s : Scheduler) (session_type : SessionType) : list TimeSlot.t :=
  od_get Qeq_bool (slots_by_duration s) (required session_type).

(** * Properties *)

(** ** Slots and slot lists *)

Lemma TimeSlot_eqb_spec (a b : TimeSlot.t) :
  TimeSlot.eqb a b = true ↔
  TimeSlot.day a = TimeSlot.day b
  ∧ TimeSlot.start_time a = TimeSlot.start_time b
  ∧ TimeSlot.end_time a = TimeSlot.end_time b.
Proof.
  unfold TimeSlot.eqb. rewrite !andb_true_iff, !bool_decide_eq_true. tauto.
Qed.

Lemma TimeSlot_eqb_refl (a : TimeSlot.t) : TimeSlot.eqb a a = true.
Proof. by apply TimeSlot_eqb_spec. Qed.

Lemma TimeSlot_eqb_sym (a b : TimeSlot.t) :
  TimeSlot.eqb a b = true → TimeSlot.eqb b a = true.
Proof. rewrite !TimeSlot_eqb_spec. intros (-> & -> & ->). done. Qed.

Lemma TimeSlot_eqb_trans (a b c : TimeSlot.t) :
  TimeSlot.eqb a b = true → TimeSlot.eqb b c = true → TimeSlot.eqb a c = true.
Proof. rewrite !TimeSlot_eqb_spec. intros (-> & -> & ->). done. Qed.

Lemma slot_in_snoc (x y : TimeSlot.t) (l : list TimeSlot.t) :
  slot_in x (l ++ [y]) = slot_in x l || TimeSlot.eqb x y.
Proof. unfold slot_in. rewrite existsb_app. simpl. by rewrite orb_false_r. Qed.

Lemma slot_in_eqb (x y : TimeSlot.t) (l : list TimeSlot.t) :
  TimeSlot.eqb x y = true → slot_in x l = true → slot_in y l = true.
Proof.
  unfold slot_in. intros Hxy. rewrite !existsb_exists.
  intros (z & Hz & Hxz). exists z. split; [done|].
  eapply TimeSlot_eqb_trans; [|exact Hxz]. by apply TimeSlot_eqb_sym.
Qed.

(** ** Nested dictionaries *)

Section Dict2Facts.
Context {V : Type}.
Implicit Types m : gmap string (gmap string (list V)).

Lemma get2_empty a b : get2 (V:=V) ∅ a b = [].
Proof. unfold get2. by rewrite lookup_empty. Qed.

Lemma get2_append2_eq m a b x : get2 (append2 m a b x) a b = get2 m a b ++ [x].
Proof.
  unfold append2. unfold get2 at 1.
  rewrite lookup_insert_eq. simpl. by rewrite lookup_insert_eq.
Qed.

Lemma get2_append2_ne m a b x a' b' :
  (a, b) ≠ (a', b') → get2 (append2 m a b x) a' b' = get2 m a' b'.
Proof.
  intros Hne. unfold append2. unfold get2 at 1.
  destruct (decide (a = a')) as [->|Ha].
  - rewrite lookup_insert_eq. simpl.
    rewrite lookup_insert_ne by congruence. done.
  - by rewrite lookup_insert_ne.
Qed.

Lemma get2_append2 m a b x a' b' :
  get2 (append2 m a b x) a' b' =
  if decide ((a, b) = (a', b')) then get2 m a' b' ++ [x] else get2 m a' b'.
Proof.
  case_decide as H.
  - inversion H; subst. apply get2_append2_eq.
  - by apply get2_append2_ne.
Qed.

End Dict2Facts.

Lemma slot_in_append2_mono (m : gmap string (gmap string (list TimeSlot.t)))
    a b x a' b' y :
  slot_in y (get2 m a' b') = true → slot_in y (get2 (append2 m a b x) a' b') = true.
Proof.
  rewrite get2_append2. case_decide; [|done].
  rewrite slot_in_snoc. intros ->. done.
Qed.

Lemma slot_in_append2_new (m : gmap string (gmap string (list TimeSlot.t))) a b x :
  slot_in x (get2 (append2 m a b x) a b) = true.
Proof.
  rewrite get2_append2_eq, slot_in_snoc, TimeSlot_eqb_refl. apply orb_true_r.
Qed.

(** ** Stable sort *)

Section SortedFacts.
Context {A : Type} (lt : A → A → bool).

Lemma sorted_insert_perm (x : A) (l : list A) : sorted_insert lt x l ≡ₚ x :: l.
Proof.
  induction l as [|y l IH]; simpl; [done|].
  destruct (lt y x); [|done].
  rewrite IH. apply Permutation_swap.
Qed.

Lemma sorted_perm (l : list A) : sorted lt l ≡ₚ l.
Proof.
  induction l as [|x l IH]; simpl; [done|].
  by rewrite sorted_insert_perm, IH.
Qed.

Lemma elem_of_sorted (x : A) (l : list A) : x ∈ sorted lt l ↔ x ∈ l.
Proof. by rewrite sorted_perm. Qed.

End SortedFacts.

(** ** The constraint checker *)

Lemma check_accept_inv s course session_type time_slot room s' msg :
  _check_constraints s course session_type time_slot room = (s', (true, msg)) →
  s' = s ∧ msg = "OK" ∧ checks_pass s course session_type time_slot room.
Proof.
  unfold _check_constraints. simpl existsb. rewrite orb_false_r.
  destruct (slot_in time_slot (get2 (faculty_schedule s) _ _)) eqn:Hf; [done|].
  destruct (slot_in time_slot (get2 (room_schedule s) _ "Sem-I")) eqn:HrI; [done|].
  destruct (slot_in time_slot (get2 (room_schedule s) _ "Sem-II")) eqn:HrII; [done|].
  simpl orb. cbv iota.
  destruct (slot_in time_slot (get2 (student_schedule s) _ _)) eqn:Hs; [done|].
  destruct (2 <=? length _)%nat eqn:Hcap; [done|].
  apply Nat.leb_gt in Hcap.
  destruct (match get2 (course_daily_schedule s) _ _ with
            | [existing_type] => same_day_collision session_type existing_type
            | _ => None
            end) as [[key m]|] eqn:Hcol; [done|].
  destruct (Qeq_bool _ _) eqn:Hd; simpl; [|done].
  intros [= <- <-]. split; [done|]. split; [done|].
  split; try done.
  intros e He. by rewrite He in Hcol.
Qed.

Lemma check_reject_inv s course session_type time_slot room s' msg :
  _check_constraints s course session_type time_slot room = (s', (false, msg)) →
  ∃ key, s' = count_reason key s.
Proof.
  unfold _check_constraints.
  repeat (case_match; try (intros [= <- <-]; by eexists)); done.
Qed.

(** The inner loop only counts reasons; a room it returns has passed the
    checks in the scheduler it returns. *)
Lemma try_rooms_inv s course session_type time_slot suitable_rooms s' res :
  try_rooms s course session_type time_slot suitable_rooms = (s', res) →
  ∃ keys, s' = foldr count_reason s keys
    ∧ match res with
      | Some room =>
          room ∈ suitable_rooms ∧ checks_pass s' course session_type time_slot room
      | None => True
      end.
Proof.
  revert s. induction suitable_rooms as [|room rest IH]; intros s; simpl.
  - intros [= <- <-]. by exists [].
  - destruct (_check_constraints s course session_type time_slot room)
      as [s1 [[] msg]] eqn:Hc.
    + apply check_accept_inv in Hc as (-> & _ & Hp).
      intros [= <- <-]. exists []. split; [done|]. split; [|done]. left.
    + apply check_reject_inv in Hc as [key ->].
      intros H. apply IH in H as (keys & -> & Hres).
      exists (keys ++ [key]). split.
      * by rewrite foldr_app.
      * destruct res; [|done]. destruct Hres. split; [by right|done].
Qed.

(** ** Invariants of a run

    A property of the scheduler that survives the three state updates
    (counting a reason, recording a conflict, committing an accepted
    candidate of one of the scheduler's courses) holds after
    [generate_timetable]. *)

Section RunInvariant.
Variable P : Scheduler → Prop.
Variable cs : list Course.t.
Hypothesis P_count : ∀ key s, P s → P (count_reason key s).
Hypothesis P_conflict : ∀ msg s, P s → P (add_conflict msg s).
Hypothesis P_commit :
  ∀ s course session_type time_slot room session_number,
    P s → courses s = cs → course ∈ cs →
    checks_pass s course session_type time_slot room →
    P (commit s course session_type time_slot room session_number).

Lemma holds_with_counts keys s : holds_with P cs s → holds_with P cs (foldr count_reason s keys).
Proof.
  intros HQ. induction keys as [|k keys IH]; simpl; [done|].
  destruct IH as [HP Hc]. split; [by apply P_count|done].
Qed.

Lemma try_slots_inv course session_type n slots suitable_rooms s :
  course ∈ cs → holds_with P cs s →
  holds_with P cs (try_slots s course session_type n slots suitable_rooms).1.
Proof.
  intros Hin. revert s. induction slots as [|slot rest IH]; intros s HQ; simpl; [done|].
  destruct (try_rooms s course session_type slot suitable_rooms) as [s' res] eqn:Ht.
  apply try_rooms_inv in Ht as (keys & -> & Hres).
  pose proof (holds_with_counts keys s HQ) as HQ'.
  destruct res as [room|].
  - destruct Hres as [_ Hp]. destruct HQ' as [HP Hc]. simpl. split; [|done].
    by apply P_commit.
  - by apply IH.
Qed.

Lemma schedule_session_inv course session_type n s :
  course ∈ cs → holds_with P cs s →
  holds_with P cs (_schedule_session s course session_type n).1.
Proof.
  intros Hin HQ. unfold _schedule_session.
  destruct (_get_suitable_rooms s course session_type) as [|r rs] eqn:Hs.
  - simpl. destruct HQ. split; [by apply P_count|done].
  - by apply try_slots_inv.
Qed.

Lemma schedule_one_inv course session_type acc n :
  course ∈ cs → holds_with P cs acc.1 →
  holds_with P cs (schedule_one course session_type acc n).1.
Proof.
  intros Hin HQ. destruct acc as [s k]. unfold schedule_one.
  pose proof (schedule_session_inv course session_type n s Hin HQ) as H.
  destruct (_schedule_session s course session_type n) as [s' []]; simpl in *; [done|].
  destruct H. split; [by apply P_conflict|done].
Qed.

Lemma schedule_course_inv course s :
  course ∈ cs → holds_with P cs s → holds_with P cs (schedule_course s course).1.
Proof.
  intros Hin HQ. unfold schedule_course.
  assert (∀ needed acc, holds_with P cs acc.1 →
    holds_with P cs (fold_left (fun acc '(session_type, count) =>
         fold_left (schedule_one course session_type) (range 1 (count + 1)) acc)
         needed acc).1) as Hloop.
  { induction needed as [|[ty count] needed IH]; intros acc Hacc; simpl; [done|].
    apply IH. clear IH. revert acc Hacc.
    induction (range 1 (count + 1)) as [|n ns IHn]; intros acc Hacc; simpl; [done|].
    apply IHn. by apply schedule_one_inv. }
  by apply Hloop.
Qed.

Lemma generate_timetable_inv s :
  P s → courses s = cs → P (generate_timetable s).1 ∧ courses (generate_timetable s).1 = cs.
Proof.
  intros HP Hc. unfold generate_timetable.
  assert (∀ l acc, (∀ c, c ∈ l → c ∈ cs) → holds_with P cs acc.1 →
    holds_with P cs (fold_left (fun '(s, total_sessions) course =>
         let '(s', count) := schedule_course s course in
         (s', total_sessions + count)) l acc).1) as Hloop.
  { induction l as [|c l IH]; intros [s0 k] Hl Hacc; simpl; [done|].
    apply IH; [intros c' Hc'; apply Hl; by right|].
    pose proof (schedule_course_inv c s0 (Hl c ltac:(left)) Hacc) as H.
    by destruct (schedule_course s0 c). }
  apply Hloop; [|done].
  intros c. rewrite elem_of_sorted. by rewrite Hc.
Qed.

End RunInvariant.

(** ** No double-booking *)

Lemma no_two_nil {A : Type} (clash : A → A → Prop) : no_two clash [].
Proof. intros i j x y _ H. by rewrite lookup_nil in H. Qed.

Lemma no_two_snoc {A : Type} (clash : A → A → Prop) (l : list A) (z : A) :
  (∀ x y, clash x y → clash y x) →
  no_two clash l → (∀ x, x ∈ l → ¬ clash x z) → no_two clash (l ++ [z]).
Proof.
  intros Hsym Hl Hz i j x y Hij Hi Hj.
  apply lookup_snoc_Some in Hi as [[Hli Hi]|[-> ->]];
    apply lookup_snoc_Some in Hj as [[Hlj Hj]|[-> ->]].
  - by eapply Hl.
  - apply Hz. by eapply list_elem_of_lookup_2.
  - intros Hc. apply Hsym in Hc. revert Hc. apply Hz.
    by eapply list_elem_of_lookup_2.
  - done.
Qed.

Lemma same_slot_sym x y : same_slot x y → same_slot y x.
Proof. apply TimeSlot_eqb_sym. Qed.

Lemma faculty_clash_sym x y : faculty_clash x y → faculty_clash y x.
Proof. intros (? & ? & ?). repeat split; try done. by apply same_slot_sym. Qed.

Lemma room_clash_sym x y : room_clash x y → room_clash y x.
Proof. intros (? & ?). split; [done|]. by apply same_slot_sym. Qed.

Lemma student_clash_sym x y : student_clash x y → student_clash y x.
Proof. intros (? & ? & ?). repeat split; try done. by apply same_slot_sym. Qed.

Lemma faculty_inv_commit s course session_type time_slot room n :
  faculty_inv s → checks_pass s course session_type time_slot room →
  faculty_inv (commit s course session_type time_slot room n).
Proof.
  intros [Htr Hno] Hp. split; simpl.
  - intros x [Hx| ->%list_elem_of_singleton]%elem_of_app.
    + apply slot_in_append2_mono. by apply Htr.
    + apply slot_in_append2_new.
  - apply no_two_snoc; [apply faculty_clash_sym|done|].
    intros x Hx (Hf & Hh & Hs). unfold same_slot, half_of in Hh, Hs. simpl in *.
    pose proof (Htr x Hx) as Hin. unfold half_of in Hin. rewrite Hf, Hh in Hin.
    apply (slot_in_eqb _ _ _ Hs) in Hin.
    by rewrite (faculty_free _ _ _ _ _ Hp) in Hin.
Qed.

Lemma student_inv_commit s course session_type time_slot room n :
  student_inv s → checks_pass s course session_type time_slot room →
  student_inv (commit s course session_type time_slot room n).
Proof.
  intros [Htr Hno] Hp. split; simpl.
  - intros x [Hx| ->%list_elem_of_singleton]%elem_of_app.
    + apply slot_in_append2_mono. by apply Htr.
    + apply slot_in_append2_new.
  - apply no_two_snoc; [apply student_clash_sym|done|].
    intros x Hx (Hf & Hh & Hs). unfold same_slot, half_of in Hh, Hs. simpl in *.
    pose proof (Htr x Hx) as Hin. unfold half_of in Hin. rewrite Hf, Hh in Hin.
    apply (slot_in_eqb _ _ _ Hs) in Hin.
    by rewrite (students_free _ _ _ _ _ Hp) in Hin.
Qed.

Lemma room_inv_commit s course session_type time_slot room n :
  valid_half course →
  room_inv s → checks_pass s course session_type time_slot room →
  room_inv (commit s course session_type time_slot room n).
Proof.
  intros Hv [Htr Hno] Hp. split; simpl.
  - intros x [Hx| ->%list_elem_of_singleton]%elem_of_app.
    + destruct (Htr x Hx) as [Hvx Hin]. split; [done|].
      by apply slot_in_append2_mono.
    + split; [done|]. apply slot_in_append2_new.
  - apply no_two_snoc; [apply room_clash_sym|done|].
    intros x Hx (Hr & Hs). unfold same_slot in Hs. simpl in *.
    destruct (Htr x Hx) as [Hvx Hin]. rewrite Hr in Hin.
    apply (slot_in_eqb _ _ _ Hs) in Hin.
    destruct Hvx as [Hh|Hh]; unfold half_of in Hin; rewrite Hh in Hin.
    + by rewrite (room_free_I _ _ _ _ _ Hp) in Hin.
    + by rewrite (room_free_II _ _ _ _ _ Hp) in Hin.
Qed.

(** ** What construction does to the courses *)

Lemma same_but_basket_refl c : same_but_basket c c.
Proof. by destruct c. Qed.

Lemma same_but_basket_set c c' b :
  same_but_basket c c' → same_but_basket c (Course.set_basket b c').
Proof. unfold same_but_basket. intros ->. by destruct c. Qed.

Lemma assign_members_frame (cs0 : list Course.t) basket_id members cs baskets :
  Forall2 same_but_basket cs0 cs →
  Forall2 same_but_basket cs0
    (fold_left
       (fun '(cs, baskets) i =>
          (alter (Course.set_basket (Some basket_id)) i cs,
           basket_append baskets basket_id i))
       members (cs, baskets)).1.
Proof.
  revert cs baskets. induction members as [|i members IH]; intros cs baskets H; simpl; [done|].
  apply IH. apply Forall2_alter_r; [done|].
  intros x y _ _. apply same_but_basket_set.
Qed.

Lemma assign_baskets_frame (cs0 : list Course.t) groups k cs baskets :
  Forall2 same_but_basket cs0 cs →
  Forall2 same_but_basket cs0 (assign_baskets groups k cs baskets).1.
Proof.
  revert k cs baskets.
  induction groups as [|[key members] groups IH]; intros k cs baskets H; simpl; [done|].
  destruct (1 <? length members)%nat; [|by apply IH].
  pose proof (assign_members_frame cs0 ("B" +:+ pretty k) members cs baskets H) as H'.
  destruct (fold_left _ members (cs, baskets)) as [cs' baskets'].
  by apply IH.
Qed.

Lemma detect_baskets_frame (cs : list Course.t) :
  Forall2 same_but_basket cs (_detect_baskets cs).1.
Proof.
  apply assign_baskets_frame. apply Forall2_same_length_lookup_2; [done|].
  intros i x y Hx Hy. assert (x = y) as -> by congruence. apply same_but_basket_refl.
Qed.

Lemma init_courses (cs : list Course.t) (rs : list Room.t) :
  courses (__init__ cs rs) = (_detect_baskets cs).1.
Proof. unfold __init__. by destruct (_detect_baskets cs). Qed.

Lemma init_schedule (cs : list Course.t) (rs : list Room.t) :
  schedule (__init__ cs rs) = [] ∧ conflicts (__init__ cs rs) = []
  ∧ faculty_schedule (__init__ cs rs) = ∅ ∧ room_schedule (__init__ cs rs) = ∅
  ∧ student_schedule (__init__ cs rs) = ∅ ∧ course_daily_schedule (__init__ cs rs) = ∅
  ∧ conflict_reasons (__init__ cs rs) = ∅.
Proof. unfold __init__. by destruct (_detect_baskets cs). Qed.

Lemma init_rooms (cs : list Course.t) (rs : list Room.t) :
  rooms (__init__ cs rs) = rs
  ∧ big_rooms (__init__ cs rs) = big_rooms_of rs
  ∧ regular_rooms (__init__ cs rs) = regular_rooms_of rs
  ∧ labs (__init__ cs rs) = labs_of rs
  ∧ slots_by_duration (__init__ cs rs) = group_slots _generate_time_slots.
Proof. unfold __init__. by destruct (_detect_baskets cs). Qed.

Lemma init_valid_half (cs : list Course.t) (rs : list Room.t) :
  (∀ c, c ∈ cs → valid_half c) →
  ∀ c, c ∈ courses (__init__ cs rs) → valid_half c.
Proof.
  intros Hv c'. rewrite init_courses.
  intros [i Hi]%list_elem_of_lookup_1.
  pose proof (detect_baskets_frame cs) as HF.
  destruct (Forall2_lookup_r _ _ _ _ _ HF Hi) as (c & Hc & Hcc').
  pose proof (Hv c (list_elem_of_lookup_2 _ _ _ Hc)) as Hvc.
  unfold valid_half in *. rewrite Hcc'. by destruct c.
Qed.

(** The three exclusivity results, shared by the theorems below. *)
Lemma faculty_exclusive (cs : list Course.t) (rs : list Room.t) :
  no_two faculty_clash (schedule (run cs rs)).
Proof.
  unfold run.
  destruct (generate_timetable_inv faculty_inv (courses (__init__ cs rs)))
    with (s := __init__ cs rs) as [[_ H] _]; try done.
  - intros s c ty t r n Hi _ _ Hp. by apply faculty_inv_commit.
  - destruct (init_schedule cs rs) as (Hs & _). unfold faculty_inv. rewrite Hs.
    split; [by intros x ?%elem_of_nil|apply no_two_nil].
Qed.

Lemma student_exclusive (cs : list Course.t) (rs : list Room.t) :
  no_two student_clash (schedule (run cs rs)).
Proof.
  unfold run.
  destruct (generate_timetable_inv student_inv (courses (__init__ cs rs)))
    with (s := __init__ cs rs) as [[_ H] _]; try done.
  - intros s c ty t r n Hi _ _ Hp. by apply student_inv_commit.
  - destruct (init_schedule cs rs) as (Hs & _). unfold student_inv. rewrite Hs.
    split; [by intros x ?%elem_of_nil|apply no_two_nil].
Qed.

Lemma room_exclusive (cs : list Course.t) (rs : list Room.t) :
  (∀ c, c ∈ cs → valid_half c) →
  no_two room_clash (schedule (run cs rs)).
Proof.
  intros Hv. unfold run.
  destruct (generate_timetable_inv room_inv (courses (__init__ cs rs)))
    with (s := __init__ cs rs) as [[_ H] _]; try done.
  - intros s c ty t r n Hi _ Hc Hp. apply room_inv_commit; try done.
    by eapply init_valid_half.
  - destruct (init_schedule cs rs) as (Hs & _). unfold room_inv. rewrite Hs.
    split; [by intros x ?%elem_of_nil|apply no_two_nil].
Qed.

(** ** Daily cap *)

Lemma daily_inv_commit s course session_type time_slot room n :
  daily_inv s → checks_pass s course session_type time_slot room →
  daily_inv (commit s course session_type time_slot room n).
Proof.
  intros Hinv Hp cid d. destruct (Hinv cid d) as [Heq Hok]. simpl.
  unfold day_types, day_sessions in *. rewrite filter_app, fmap_app, Heq.
  rewrite get2_append2. rewrite filter_cons, filter_nil. simpl.
  destruct (decide ((Course.course_id course, TimeSlot.day time_slot) = (cid, d)))
    as [Hk|Hk].
  - inversion Hk; subst. rewrite decide_True by done. simpl. split; [done|].
    pose proof (below_cap _ _ _ _ _ Hp) as Hlen.
    pose proof (no_collision _ _ _ _ _ Hp) as Hcol.
    destruct (get2 (course_daily_schedule s) _ _) as [|e [|e' l]]; simpl in *.
    + split; [simpl; lia|]. intros a b [=].
    + split; [simpl; lia|]. intros a b [= <- <-]. by apply Hcol.
    + lia.
  - rewrite decide_False; [|intros [H1 H2]; apply Hk; by rewrite H1, H2]. simpl.
    rewrite app_nil_r. done.
Qed.

Lemma daily_inv_run (cs : list Course.t) (rs : list Room.t) : daily_inv (run cs rs).
Proof.
  unfold run.
  destruct (generate_timetable_inv daily_inv (courses (__init__ cs rs)))
    with (s := __init__ cs rs) as [H _]; try done.
  - intros s c ty t r n Hi _ _ Hp. by apply daily_inv_commit.
  - destruct (init_schedule cs rs) as (Hs & _ & _ & _ & _ & Hd & _).
    intros cid d. rewrite Hs, Hd, get2_empty. split; [done|].
    split; [simpl; lia|]. intros a b [=].
Qed.

Lemma daily_ok_shape (l : list SessionType) :
  daily_ok l →
  (length l ≤ 2)%nat ∧ NoDup l ∧ ¬ (LECTURE ∈ l ∧ TUTORIAL ∈ l).
Proof.
  intros [Hlen Hcol]. split; [done|].
  destruct l as [|a [|b [|c l]]]; simpl in Hlen; try lia.
  - split; [constructor|]. intros [H _]. by apply elem_of_nil in H.
  - split; [apply NoDup_singleton|].
    intros [H1%list_elem_of_singleton H2%list_elem_of_singleton]. congruence.
  - specialize (Hcol a b eq_refl).
    split.
    + apply NoDup_cons. split; [|apply NoDup_singleton].
      intros ->%list_elem_of_singleton. by destruct b.
    + intros [H1 H2].
      apply elem_of_cons in H1 as [H1|H1%list_elem_of_singleton];
        apply elem_of_cons in H2 as [H2|H2%list_elem_of_singleton];
        subst; done.
Qed.

(** ** Duration match *)

Lemma duration_inv_run (cs : list Course.t) (rs : list Room.t) : duration_inv (run cs rs).
Proof.
  unfold run.
  destruct (generate_timetable_inv duration_inv (courses (__init__ cs rs)))
    with (s := __init__ cs rs) as [H _]; try done.
  - intros s c ty t r n Hi _ _ Hp x. simpl.
    intros [Hx| ->%list_elem_of_singleton]%elem_of_app; [by apply Hi|].
    simpl. apply Qeq_bool_iff. by destruct Hp.
  - destruct (init_schedule cs rs) as (Hs & _).
    intros x. rewrite Hs. by intros ?%elem_of_nil.
Qed.

(** ** Counting placed and unplaced sessions *)

Lemma count_reasons_fields keys s :
  schedule (foldr count_reason s keys) = schedule s
  ∧ conflicts (foldr count_reason s keys) = conflicts s.
Proof. induction keys as [|k keys IH]; simpl; [done|]. apply IH. Qed.

Lemma try_slots_reported course session_type n slots suitable_rooms s s' ok :
  try_slots s course session_type n slots suitable_rooms = (s', ok) →
  length (schedule s') = (length (schedule s) + (if ok then 1 else 0))%nat
  ∧ conflicts s' = conflicts s.
Proof.
  revert s. induction slots as [|slot rest IH]; intros s; simpl.
  - intros [= <- <-]. split; [lia|done].
  - destruct (try_rooms s course session_type slot suitable_rooms) as [s1 res] eqn:Ht.
    apply try_rooms_inv in Ht as (keys & -> & _).
    destruct (count_reasons_fields keys s) as [Hs Hc].
    destruct res as [room|].
    + intros [= <- <-]. simpl. rewrite length_app, Hs, Hc. simpl. split; [lia|done].
    + intros H. apply IH in H as [H1 H2]. by rewrite H1, H2, Hs, Hc.
Qed.

Lemma schedule_session_reported course session_type n s s' ok :
  _schedule_session s course session_type n = (s', ok) →
  length (schedule s') = (length (schedule s) + (if ok then 1 else 0))%nat
  ∧ conflicts s' = conflicts s.
Proof.
  unfold _schedule_session.
  destruct (_get_suitable_rooms s course session_type).
  - intros [= <- <-]. simpl. split; [lia|done].
  - apply try_slots_reported.
Qed.

Lemma schedule_one_reported course session_type acc n :
  reported (schedule_one course session_type acc n).1 = S (reported acc.1).
Proof.
  destruct acc as [s k]. unfold schedule_one.
  destruct (_schedule_session s course session_type n) as [s' ok] eqn:H.
  apply schedule_session_reported in H as [H1 H2].
  unfold reported, total_sessions, total_conflicts.
  destruct ok; simpl; rewrite ?length_app, H1, H2; simpl; lia.
Qed.

Lemma length_range (a b : Z) : length (range a b) = Z.to_nat (b - a).
Proof. unfold range. by rewrite length_map, length_seq. Qed.

Lemma schedule_all_reported course session_type nums acc :
  reported (fold_left (schedule_one course session_type) nums acc).1
  = (reported acc.1 + length nums)%nat.
Proof.
  revert acc. induction nums as [|n nums IH]; intros acc; simpl; [lia|].
  rewrite IH, schedule_one_reported. lia.
Qed.

Lemma schedule_course_reported s course :
  reported (schedule_course s course).1 = (reported s + attempts course)%nat.
Proof.
  unfold schedule_course, sessions_needed, attempts. simpl.
  rewrite !schedule_all_reported, !length_range. simpl.
  replace (Course.lectures course + 1 - 1) with (Course.lectures course) by lia.
  replace (Course.tutorials course + 1 - 1) with (Course.tutorials course) by lia.
  replace (Course.practicals course + 1 - 1) with (Course.practicals course) by lia.
  lia.
Qed.

Lemma generate_timetable_reported s :
  reported (generate_timetable s).1 = (reported s + sum_list_with attempts (courses s))%nat.
Proof.
  unfold generate_timetable.
  rewrite <- (sum_list_with_Permutation_proper attempts _ _
                (sorted_perm course_key_lt (courses s))).
  generalize (sorted course_key_lt (courses s)) as l. intros l.
  generalize 0 as k. revert s.
  induction l as [|c l IH]; intros s k; simpl; [lia|].
  pose proof (schedule_course_reported s c) as Hc.
  destruct (schedule_course s c) as [s' count]. simpl in Hc.
  rewrite IH, Hc. lia.
Qed.

Lemma attempts_same_but_basket cs cs' :
  Forall2 same_but_basket cs cs' →
  sum_list_with attempts cs' = sum_list_with attempts cs.
Proof.
  induction 1 as [|c c' cs cs' Hc _ IH]; simpl; [done|].
  rewrite IH. f_equal. rewrite Hc. by destruct c.
Qed.

Lemma attempts_required cs :
  (∀ c, c ∈ cs → counts_nonneg c) →
  Z.of_nat (sum_list_with attempts cs) = required_sessions cs.
Proof.
  induction cs as [|c cs IH]; intros H; simpl; [done|].
  rewrite Nat2Z.inj_add, IH by (intros c' Hc'; apply H; by right).
  destruct (H c ltac:(left)) as (? & ? & ?). unfold attempts. lia.
Qed.

(** ** Order of the checks *)

Section CheckOrder.
Variables (s : Scheduler) (course : Course.t) (session_type : SessionType)
          (time_slot : TimeSlot.t) (room : Room.t).

Lemma check_unfold :
  _check_constraints s course session_type time_slot room =
  if faculty_busy s course time_slot
  then rejected "Faculty busy" "Faculty busy" s
  else if room_occupied s room time_slot
  then rejected "Room occupied" "Room occupied" s
  else if students_busy s course time_slot
  then rejected "Students busy" "Students busy" s
  else if (2 <=? length (daily_sessions s course time_slot))%nat
  then rejected "Max 2 sessions/day exceeded" "Course already has 2 sessions today" s
  else match (match daily_sessions s course time_slot with
              | [existing_type] => same_day_collision session_type existing_type
              | _ => None
              end) with
       | Some (key, msg) => rejected key msg s
       | None =>
           if wrong_duration session_type time_slot
           then rejected "Wrong duration" "Wrong duration" s
           else (s, (true, "OK"))
       end.
Proof.
  unfold _check_constraints, room_occupied. simpl existsb.
  by rewrite orb_false_r.
Qed.

Lemma check_faculty_first :
  faculty_busy s course time_slot = true →
  _check_constraints s course session_type time_slot room
  = rejected "Faculty busy" "Faculty busy" s.
Proof. rewrite check_unfold. by intros ->. Qed.

Lemma check_room_second :
  faculty_busy s course time_slot = false →
  room_occupied s room time_slot = true →
  _check_constraints s course session_type time_slot room
  = rejected "Room occupied" "Room occupied" s.
Proof. rewrite check_unfold. by intros -> ->. Qed.

Lemma check_students_third :
  faculty_busy s course time_slot = false →
  room_occupied s room time_slot = false →
  students_busy s course time_slot = true →
  _check_constraints s course session_type time_slot room
  = rejected "Students busy" "Students busy" s.
Proof. rewrite check_unfold. by intros -> -> ->. Qed.

Lemma check_cap_fourth :
  faculty_busy s course time_slot = false →
  room_occupied s room time_slot = false →
  students_busy s course time_slot = false →
  (2 ≤ length (daily_sessions s course time_slot))%nat →
  _check_constraints s course session_type time_slot room
  = rejected "Max 2 sessions/day exceeded" "Course already has 2 sessions today" s.
Proof.
  rewrite check_unfold. intros -> -> -> H.
  by apply Nat.leb_le in H as ->.
Qed.

Lemma check_collision_fifth existing_type key msg :
  faculty_busy s course time_slot = false →
  room_occupied s room time_slot = false →
  students_busy s course time_slot = false →
  daily_sessions s course time_slot = [existing_type] →
  same_day_collision session_type existing_type = Some (key, msg) →
  _check_constraints s course session_type time_slot room = rejected key msg s.
Proof. rewrite check_unfold. by intros -> -> -> -> ->. Qed.

Lemma check_duration_sixth :
  faculty_busy s course time_slot = false →
  room_occupied s room time_slot = false →
  students_busy s course time_slot = false →
  (length (daily_sessions s course time_slot) < 2)%nat →
  (∀ existing_type, daily_sessions s course time_slot = [existing_type] →
     same_day_collision session_type existing_type = None) →
  wrong_duration session_type time_slot = true →
  _check_constraints s course session_type time_slot room
  = rejected "Wrong duration" "Wrong duration" s.
Proof.
  rewrite check_unfold. intros -> -> -> Hlen Hcol ->.
  apply Nat.leb_gt in Hlen as ->.
  destruct (daily_sessions s course time_slot) as [|e [|e' l]]; try done.
  by rewrite (Hcol e eq_refl).
Qed.

Lemma check_accepts :
  faculty_busy s course time_slot = false →
  room_occupied s room time_slot = false →
  students_busy s course time_slot = false →
  (length (daily_sessions s course time_slot) < 2)%nat →
  (∀ existing_type, daily_sessions s course time_slot = [existing_type] →
     same_day_collision session_type existing_type = None) →
  wrong_duration session_type time_slot = false →
  _check_constraints s course session_type time_slot room = (s, (true, "OK")).
Proof.
  rewrite check_unfold. intros -> -> -> Hlen Hcol ->.
  apply Nat.leb_gt in Hlen as ->.
  destruct (daily_sessions s course time_slot) as [|e [|e' l]]; try done.
  by rewrite (Hcol e eq_refl).
Qed.

End CheckOrder.

(** ** Room classes *)

(** [upper] follows the full case mapping: a ligature becomes two
    letters, so the id of [ex_ligature_room] holds "LAB" in upper case and
    the room is a lab, which it is not by its first letter. *)
Lemma upper_samples :
  upper "lab-2b" = "LAB-2B"
  ∧ upper "straße" = "STRASSE"
  ∧ upper (Room.room_id ex_ligature_room) = "FLAB"
  ∧ startswith_L ex_ligature_room = false
  ∧ is_lab ex_ligature_room = true.
Proof. by vm_compute. Qed.

Lemma sorted_insert_capacity (x : Room.t) (l : list Room.t) :
  StronglySorted capacity_ge l → StronglySorted capacity_ge (sorted_insert capacity_desc x l).
Proof.
  induction 1 as [|y l Hl IH Hy]; simpl.
  - repeat constructor.
  - unfold capacity_desc at 1. destruct (Z.ltb_spec (- Room.capacity y) (- Room.capacity x)).
    + constructor; [done|].
      rewrite (sorted_insert_perm capacity_desc x l).
      constructor; [unfold capacity_ge; lia|done].
    + constructor; [by constructor|].
      constructor; [unfold capacity_ge; lia|].
      eapply Forall_impl; [exact Hy|]. unfold capacity_ge. intros z Hz. lia.
Qed.

Lemma sorted_capacity (l : list Room.t) :
  StronglySorted capacity_ge (sorted capacity_desc l).
Proof.
  induction l as [|x l IH]; simpl; [constructor|]. by apply sorted_insert_capacity.
Qed.

Lemma elem_of_big_rooms (rs : list Room.t) (r : Room.t) :
  r ∈ big_rooms_of rs ↔ r ∈ rs ∧ 100 ≤ Room.capacity r.
Proof. unfold big_rooms_of. rewrite elem_of_sorted, list_elem_of_filter. tauto. Qed.

Lemma elem_of_regular_rooms (rs : list Room.t) (r : Room.t) :
  r ∈ regular_rooms_of rs ↔ r ∈ rs ∧ Room.capacity r < 100 ∧ startswith_L r = false.
Proof.
  unfold regular_rooms_of. rewrite elem_of_sorted, list_elem_of_filter.
  destruct (startswith_L r); simpl.
  - split; [intros [[_ H] _]; by destruct H|by intros (_ & _ & ?)].
  - split; [by intros [[? _] ?]|intros (? & ? & _); repeat split; auto].
Qed.

Lemma elem_of_labs (rs : list Room.t) (r : Room.t) :
  r ∈ labs_of rs ↔ r ∈ rs ∧ is_lab r = true.
Proof.
  unfold labs_of. rewrite list_elem_of_filter.
  destruct (is_lab r); simpl.
  - split; intros [? ?]; by split.
  - split; [by intros [[] _]|by intros [_ ?]].
Qed.

(** ** A single course in an empty timetable *)

Lemma lecture_slots_head :
  ∃ rest, od_get Qeq_bool (group_slots _generate_time_slots) (required LECTURE)
          = first_lecture_slot :: rest.
Proof. eexists. vm_compute. reflexivity. Qed.

Lemma schedule_session_fresh s course r rs' n :
  faculty_schedule s = ∅ → room_schedule s = ∅ → student_schedule s = ∅ →
  course_daily_schedule s = ∅ →
  slots_by_duration s = group_slots _generate_time_slots →
  _get_suitable_rooms s course LECTURE = r :: rs' →
  _schedule_session s course LECTURE n
  = (commit s course LECTURE first_lecture_slot r n, true).
Proof.
  intros Hf Hr Hs Hd Hslots Hrooms. unfold _schedule_session.
  rewrite Hrooms, Hslots.
  destruct lecture_slots_head as [rest ->]. simpl try_slots.
  rewrite check_accepts.
  - done.
  - unfold faculty_busy. by rewrite Hf, get2_empty.
  - unfold room_occupied. by rewrite Hr, !get2_empty.
  - unfold students_busy. by rewrite Hs, get2_empty.
  - unfold daily_sessions. rewrite Hd, get2_empty. simpl. lia.
  - unfold daily_sessions. rewrite Hd, get2_empty. done.
  - done.
Qed.

Lemma detect_baskets_single (c : Course.t) : _detect_baskets [c] = ([c], ∅).
Proof. unfold _detect_baskets. simpl. by destruct (Course.is_elective c). Qed.

Lemma suitable_single (s : Scheduler) (c : Course.t) (r : Room.t) :
  big_rooms s = big_rooms_of [r] → regular_rooms s = regular_rooms_of [r] →
  Course.num_students c ≤ Room.capacity r →
  100 ≤ Room.capacity r ∨ startswith_L r = false →
  _get_suitable_rooms s c LECTURE = [r].
Proof.
  intros Hb Hr Hcap Hcls. unfold _get_suitable_rooms. rewrite Hb, Hr.
  unfold big_rooms_of, regular_rooms_of.
  rewrite !filter_cons, !filter_nil.
  destruct (decide (100 ≤ Room.capacity r)) as [Hbig|Hsmall].
  - rewrite (decide_False (P := _ ∧ _)) by lia. simpl.
    rewrite filter_cons, filter_nil. case_decide; [done|lia].
  - destruct Hcls as [?|HL]; [lia|].
    rewrite (decide_True (P := _ ∧ _)); [|split; [lia|rewrite HL; simpl; tauto]]. simpl.
    rewrite filter_cons, filter_nil. case_decide; [done|lia].
Qed.

Lemma single_course_run (c : Course.t) (r : Room.t) :
  Course.lectures c = 1 → Course.tutorials c = 0 → Course.practicals c = 0 →
  Course.num_students c ≤ Room.capacity r →
  100 ≤ Room.capacity r ∨ startswith_L r = false →
  schedule (run [c] [r])
  = [ScheduledSession.mk c LECTURE first_lecture_slot r
       (Course.faculty_name c) 1 (Course.basket c)]
  ∧ conflicts (run [c] [r]) = [].
Proof.
  intros Hl Ht Hp Hcap Hcls. unfold run.
  pose proof (init_courses [c] [r]) as Hcs. rewrite detect_baskets_single in Hcs.
  destruct (init_schedule [c] [r]) as (Hsch & Hcf & Hf & Hr & Hs & Hd & _).
  destruct (init_rooms [c] [r]) as (_ & Hbig & Hreg & _ & Hslots).
  unfold generate_timetable. rewrite Hcs. simpl.
  unfold schedule_course, sessions_needed. rewrite Hl, Ht, Hp. simpl.
  unfold schedule_one.
  rewrite (schedule_session_fresh _ c r []); try done.
  - simpl. by rewrite Hsch, Hcf.
  - by apply suitable_single.
Qed.

(** ** Basket detection *)

Lemma od_append_keys (G : list (basket_key * list nat)) k v :
  (od_append basket_key_eqb G k v).*1 = if decide (k ∈ G.*1) then G.*1 else G.*1 ++ [k].
Proof.
  induction G as [|[k' vs] G IH]; [done|].
  cbn [od_append]. unfold basket_key_eqb at 1. case_bool_decide as Hk; subst.
  - clear IH. rewrite !fmap_cons. cbn [fst].
    destruct (decide (k ∈ k :: G.*1)) as [H|H]; [done|].
    exfalso. apply H. left.
  - rewrite !fmap_cons, IH. cbn [fst]. clear IH.
    destruct (decide (k ∈ G.*1)) as [Hin|Hin];
      destruct (decide (k ∈ k' :: G.*1)) as [H|H]; try done.
    + exfalso. apply H. by right.
    + apply elem_of_cons in H as [?|?]; congruence.
Qed.

Lemma od_append_members (G : list (basket_key * list nat)) k v :
  mjoin (od_append basket_key_eqb G k v).*2 ≡ₚ v :: mjoin G.*2.
Proof.
  induction G as [|[k' vs] G IH]; simpl; [done|].
  unfold basket_key_eqb at 1. case_bool_decide; simpl.
  - rewrite <- app_assoc. simpl. symmetry. apply Permutation_middle.
  - rewrite IH. symmetry. apply Permutation_middle.
Qed.

Lemma od_append_entry (G : list (basket_key * list nat)) k v K members :
  NoDup G.*1 →
  (K, members) ∈ od_append basket_key_eqb G k v →
  (K ≠ k ∧ (K, members) ∈ G)
  ∨ (K = k ∧ ((∃ m0, (k, m0) ∈ G ∧ members = m0 ++ [v])
              ∨ ((k ∉ G.*1) ∧ members = [v]))).
Proof.
  induction G as [|[k' vs] G IH]; intros Hnd Hin.
  - apply list_elem_of_singleton in Hin. injection Hin as -> ->.
    right. split; [done|]. right. split; [apply not_elem_of_nil|done].
  - rewrite fmap_cons in Hnd. apply NoDup_cons in Hnd as [Hk' Hnd].
    cbn [od_append] in Hin. unfold basket_key_eqb at 1 in Hin.
    case_bool_decide as Hk.
    + cbn [fst] in Hk. subst k'. apply elem_of_cons in Hin as [Hin|Hin].
      * injection Hin as -> ->. right. split; [done|]. left.
        exists vs. split; [left|done].
      * left. split; [|by right].
        intros ->. apply Hk'. apply list_elem_of_fmap. by exists (k, members).
    + cbn [fst] in Hk. apply elem_of_cons in Hin as [Hin|Hin].
      * injection Hin as -> ->. left. split; [done|left].
      * destruct (IH Hnd Hin) as [[Hne H]|[-> [(m0 & H & ->)|[Hn ->]]]].
        -- left. split; [done|by right].
        -- right. split; [done|]. left. exists m0. split; [by right|done].
        -- right. split; [done|]. right. split; [|done].
           rewrite fmap_cons. cbn [fst].
           intros [?|?]%elem_of_cons; congruence.
Qed.

Lemma key_of_entry (G : list (basket_key * list nat)) K :
  K ∈ G.*1 ↔ ∃ members, (K, members) ∈ G.
Proof.
  rewrite list_elem_of_fmap. split.
  - intros ([K' m] & -> & H). by exists m.
  - intros [m H]. by exists (K, m).
Qed.

Lemma groups_of_nil : groups_of [] [].
Proof.
  split; [constructor|]. split; [constructor|]. split.
  - intros K members HG. by apply elem_of_nil in HG.
  - intros j c Hj. by rewrite lookup_nil in Hj.
Qed.

Lemma groups_of_skip pre G c :
  Course.is_elective c = false → groups_of pre G → groups_of (pre ++ [c]) G.
Proof.
  intros Hc (Hk & Hm & Hent & Hcov). repeat split; try done.
  - intros Hj. apply (Hent K members H) in Hj as (c0 & Hj & He & HK).
    exists c0. split; [|done]. by apply lookup_app_l_Some.
  - intros (c0 & Hj & He & HK). apply (Hent K members H).
    apply lookup_snoc_Some in Hj as [[_ Hj]|[_ <-]]; [by exists c0|congruence].
  - intros j c0 Hj He.
    apply lookup_snoc_Some in Hj as [[_ Hj]|[_ <-]]; [by eapply Hcov|congruence].
Qed.

Lemma groups_of_add pre G c :
  Course.is_elective c = true → groups_of pre G →
  groups_of (pre ++ [c]) (od_append basket_key_eqb G (basket_key_of c) (length pre)).
Proof.
  intros Hc (Hk & Hm & Hent & Hcov).
  assert (∀ K members j, (K, members) ∈ G → j ∈ members → (j < length pre)%nat) as Hlt.
  { intros K members j HG Hj. apply (Hent K members HG) in Hj as (c0 & Hj & _).
    by eapply lookup_lt_Some. }
  split; [|split; [|split]].
  - rewrite od_append_keys. case_decide as Hin; [done|].
    apply NoDup_app. split; [done|]. split; [|apply NoDup_singleton].
    intros K HK ->%list_elem_of_singleton. done.
  - rewrite od_append_members. apply NoDup_cons. split; [|done].
    intros (members & Hj & [[K m] [-> HG]]%list_elem_of_fmap)%list_elem_of_join.
    specialize (Hlt K m _ HG Hj). lia.
  - intros K members HG.
    apply od_append_entry in HG; [|done].
    destruct HG as [[Hne HG]|[-> [(m0 & HG & ->)|[Hn ->]]]].
    + intros j. rewrite (Hent K members HG j). split.
      * intros (c0 & Hj & He & HK). exists c0. split; [|done]. by apply lookup_app_l_Some.
      * intros (c0 & Hj & He & HK).
        apply lookup_snoc_Some in Hj as [[_ Hj]|[_ <-]]; [by exists c0|congruence].
    + intros j. rewrite elem_of_app, list_elem_of_singleton, (Hent _ m0 HG j). split.
      * intros [(c0 & Hj & He & HK)| ->].
        -- exists c0. split; [|done]. by apply lookup_app_l_Some.
        -- exists c. split; [|done]. by rewrite lookup_app_r, Nat.sub_diag.
      * intros (c0 & Hj & He & HK).
        apply lookup_snoc_Some in Hj as [[_ Hj]|[-> <-]]; [left; by exists c0|by right].
    + intros j. rewrite list_elem_of_singleton. split.
      * intros ->. exists c. split; [|done]. by rewrite lookup_app_r, Nat.sub_diag.
      * intros (c0 & Hj & He & HK).
        apply lookup_snoc_Some in Hj as [[_ Hj]|[-> <-]]; [|done].
        exfalso. apply Hn. apply key_of_entry. rewrite <- HK. by eapply Hcov.
  - intros j c0 Hj He. apply key_of_entry. rewrite od_append_keys.
    apply lookup_snoc_Some in Hj as [[_ Hj]|[-> <-]].
    + pose proof (proj2 (key_of_entry G (basket_key_of c0)) (Hcov j c0 Hj He)) as Hin.
      case_decide; [done|]. apply elem_of_app. by left.
    + case_decide; [done|]. apply elem_of_app. right. by apply list_elem_of_singleton.
Qed.

Lemma group_electives_spec rest pre G :
  groups_of pre G → groups_of (pre ++ rest) (group_electives (length pre) rest G).
Proof.
  revert pre G. induction rest as [|c rest IH]; intros pre G HG; simpl.
  - by rewrite app_nil_r.
  - replace (pre ++ c :: rest) with ((pre ++ [c]) ++ rest) by by rewrite <- app_assoc.
    replace (S (length pre)) with (length (pre ++ [c])) by (rewrite length_app; simpl; lia).
    apply IH. destruct (Course.is_elective c) eqn:Hc.
    + by apply groups_of_add.
    + by apply groups_of_skip.
Qed.

Lemma elective_groups_spec (cs : list Course.t) : groups_of cs (elective_groups cs).
Proof. apply (group_electives_spec cs [] []). apply groups_of_nil. Qed.

Lemma assign_members_apply basket_id members cs baskets :
  (fold_left
     (fun '(cs, baskets) i =>
        (alter (Course.set_basket (Some basket_id)) i cs,
         basket_append baskets basket_id i))
     members (cs, baskets)).1
  = apply_assignments ((λ i, (i, basket_id)) <$> members) cs.
Proof.
  revert cs baskets. induction members as [|i members IH]; intros cs baskets; [done|].
  simpl. by rewrite IH.
Qed.

Lemma apply_assignments_app ws1 ws2 cs :
  apply_assignments (ws1 ++ ws2) cs = apply_assignments ws2 (apply_assignments ws1 cs).
Proof. unfold apply_assignments. by rewrite fold_left_app. Qed.

Lemma assign_baskets_apply groups k cs baskets :
  (assign_baskets groups k cs baskets).1
  = apply_assignments (basket_assignments groups k) cs.
Proof.
  revert k cs baskets.
  induction groups as [|[key members] groups IH]; intros k cs baskets; simpl; [done|].
  destruct (1 <? length members)%nat; [|apply IH].
  pose proof (assign_members_apply ("B" +:+ pretty k) members cs baskets) as H.
  destruct (fold_left _ members (cs, baskets)) as [cs' baskets']. simpl in H.
  by rewrite IH, apply_assignments_app, H.
Qed.

Lemma filter_cons_bool {A : Type} (P : A → bool) (x : A) (l : list A) :
  filter (λ g, P g) (x :: l)
  = if P x then x :: filter (λ g, P g) l else filter (λ g, P g) l.
Proof.
  rewrite filter_cons. destruct (decide (P x)) as [H|H]; destruct (P x); done.
Qed.


Lemma basket_assignments_positions groups k :
  (basket_assignments groups k).*1 = mjoin (filter (λ g, is_multi g) groups).*2.
Proof.
  revert k. induction groups as [|[K0 m0] groups IH]; intros k; simpl; [done|].
  rewrite filter_cons_bool. unfold is_multi at 1. simpl.
  destruct (1 <? length m0)%nat; simpl; [|apply IH].
  rewrite fmap_app, IH. f_equal. rewrite <- list_fmap_compose.
  by rewrite list_fmap_id.
Qed.

Lemma elem_of_join_filter (G : list (basket_key * list nat))
    (P : basket_key * list nat → bool) j :
  j ∈ mjoin (filter (λ g, P g) G).*2 → j ∈ mjoin G.*2.
Proof.
  intros (m & Hj & [[K m'] [-> HG]]%list_elem_of_fmap)%list_elem_of_join.
  apply list_elem_of_filter in HG as [_ HG].
  apply list_elem_of_join. exists m'. split; [done|].
  apply list_elem_of_fmap. by exists (K, m').
Qed.

Lemma NoDup_join_filter (G : list (basket_key * list nat)) (P : basket_key * list nat → bool) :
  NoDup (mjoin G.*2) → NoDup (mjoin (filter (λ g, P g) G).*2).
Proof.
  induction G as [|[K m] G IH]; simpl; [done|].
  intros (Hm & Hdis & HG)%NoDup_app. rewrite filter_cons_bool.
  destruct (P (K, m)); [|by apply IH]. simpl.
  apply NoDup_app. split; [done|]. split; [|by apply IH].
  intros j Hj Hj'. apply (Hdis j Hj). by eapply elem_of_join_filter.
Qed.




Lemma detect_baskets_apply (cs : list Course.t) :
  (_detect_baskets cs).1
  = apply_assignments (basket_assignments (elective_groups cs) 1) cs.
Proof. apply assign_baskets_apply. Qed.

Lemma basket_assignments_NoDup (cs : list Course.t) :
  NoDup (basket_assignments (elective_groups cs) 1).*1.
Proof.
  rewrite basket_assignments_positions. apply NoDup_join_filter.
  by destruct (elective_groups_spec cs) as (_ & H & _).
Qed.








Lemma basket_id_inj (a b : Z) : "B" +:+ pretty a = "B" +:+ pretty b → a = b.
Proof.
  intros H. cbn [String.append] in H. injection H as H. by apply (inj pretty).
Qed.



(** * The claims *)

(** C1. No double-booking: when every course's semester_half is "Sem-I"
    or "Sem-II", no two sessions of the final schedule of a run share
    faculty_name, semester_half and time slot; no two share room and time
    slot, whatever their halves; no two share student key, semester_half
    and time slot.  (Holds for any session counts, negative ones
    included.) *)
Theorem no_double_booking (cs : list Course.t) (rs : list Room.t) :
  (∀ c, c ∈ cs → valid_half c) →
  no_two faculty_clash (schedule (run cs rs))
  ∧ no_two room_clash (schedule (run cs rs))
  ∧ no_two student_clash (schedule (run cs rs)).
Proof.
  intros Hv. split; [apply faculty_exclusive|].
  split; [by apply room_exclusive|apply student_exclusive].
Qed.

Lemma no_double_booking_witness :
  (∀ c, c ∈ ex_courses → valid_half c)
  ∧ no_two faculty_clash (schedule (run ex_courses ex_rooms))
  ∧ no_two room_clash (schedule (run ex_courses ex_rooms))
  ∧ no_two student_clash (schedule (run ex_courses ex_rooms)).
Proof.
  assert (∀ c, c ∈ ex_courses → valid_half c) as Hv.
  { intros c Hc. unfold ex_courses in Hc.
    apply elem_of_cons in Hc as [->|Hc]; [by left|].
    apply elem_of_cons in Hc as [->|Hc]; [by right|].
    by apply elem_of_nil in Hc. }
  split; [exact Hv|]. exact (no_double_booking ex_courses ex_rooms Hv).
Defined.

(** C2. Daily cap: after a run, for every course (by course_id) and every
    day, at most 2 sessions of the course are placed that day, no two of
    them have the same session type, and a lecture and a tutorial are
    never both placed; a practical can share the day with a lecture. *)
Theorem daily_cap :
  (∀ (cs : list Course.t) (rs : list Room.t) (cid d : string),
     (length (day_sessions cid d (schedule (run cs rs))) ≤ 2)%nat
     ∧ NoDup (day_types cid d (schedule (run cs rs)))
     ∧ ¬ (LECTURE ∈ day_types cid d (schedule (run cs rs))
          ∧ TUTORIAL ∈ day_types cid d (schedule (run cs rs))))
  ∧ day_types "COURSE_1" "Monday" (schedule (run ex_courses ex_rooms))
    = [LECTURE; PRACTICAL].
Proof.
  split; [|by vm_compute].
  intros cs rs cid d. destruct (daily_inv_run cs rs cid d) as [Heq Hok].
  rewrite <- Heq in Hok. apply daily_ok_shape in Hok as (Hlen & Hnd & Hlt).
  split; [|done]. unfold day_types in Hlen. by rewrite length_fmap in Hlen.
Qed.

(** C3. Completeness of reporting: for non-negative session counts, the
    number of scheduled sessions plus the number of conflict entries after
    a run equals the sum of lectures + tutorials + practicals over the
    input courses. *)
Theorem reporting_complete (cs : list Course.t) (rs : list Room.t) :
  (∀ c, c ∈ cs → counts_nonneg c) →
  Z.of_nat (total_sessions (run cs rs) + total_conflicts (run cs rs))
  = required_sessions cs.
Proof.
  intros Hnn. unfold run.
  pose proof (generate_timetable_reported (__init__ cs rs)) as H.
  unfold reported in H. rewrite H. clear H.
  destruct (init_schedule cs rs) as (Hs & Hc & _).
  unfold total_sessions, total_conflicts. rewrite Hs, Hc, init_courses. simpl.
  rewrite (attempts_same_but_basket cs) by apply detect_baskets_frame.
  by apply attempts_required.
Qed.

Lemma reporting_complete_witness :
  (∀ c, c ∈ ex_courses → counts_nonneg c)
  ∧ Z.of_nat (total_sessions (run ex_courses ex_rooms)
              + total_conflicts (run ex_courses ex_rooms))
    = required_sessions ex_courses.
Proof.
  assert (∀ c, c ∈ ex_courses → counts_nonneg c) as Hnn.
  { intros c Hc. unfold ex_courses in Hc.
    apply elem_of_cons in Hc as [->|Hc]; [by vm_compute|].
    apply elem_of_cons in Hc as [->|Hc]; [by vm_compute|].
    by apply elem_of_nil in Hc. }
  split; [exact Hnn|]. exact (reporting_complete ex_courses ex_rooms Hnn).
Defined.

(** C4, as stated, fails: with two sessions of the course already placed
    on the day and the first three checks passing, the string returned is
    not "Max 2 sessions/day exceeded". *)
Lemma cap_message_counterexample :
  faculty_busy (run ex_courses ex_rooms) ex_programming ex_tutorial_slot = false
  ∧ room_occupied (run ex_courses ex_rooms) ex_hall ex_tutorial_slot = false
  ∧ students_busy (run ex_courses ex_rooms) ex_programming ex_tutorial_slot = false
  ∧ length (daily_sessions (run ex_courses ex_rooms) ex_programming ex_tutorial_slot)
    = 2%nat
  ∧ (_check_constraints (run ex_courses ex_rooms) ex_programming TUTORIAL
       ex_tutorial_slot ex_hall).2.2 ≠ "Max 2 sessions/day exceeded".
Proof. repeat split; by vm_compute. Qed.

(** C4, amended.  [_check_constraints] tests faculty-busy, room-occupied,
    students-busy, daily cap, same-day type collision and duration
    mismatch in this order and reports the first that fails: it counts one
    reason and returns one message.  The counted reason and the returned
    message are the same string for "Faculty busy", "Room occupied",
    "Students busy" and "Wrong duration"; for the daily cap the counted
    reason is "Max 2 sessions/day exceeded" and the returned message is
    "Course already has 2 sessions today"; a same-day collision counts
    "Two practicals/lectures/tutorials same day" or "Lecture+Tutorial same
    day" and returns "Already has a practical/lecture/tutorial/theory
    session today".  With no failing check the scheduler is unchanged and
    (True, "OK") is returned. *)
Theorem check_constraints_order (s : Scheduler) (course : Course.t)
    (session_type : SessionType) (time_slot : TimeSlot.t) (room : Room.t) :
  (faculty_busy s course time_slot = true →
   _check_constraints s course session_type time_slot room
   = rejected "Faculty busy" "Faculty busy" s)
  ∧ (faculty_busy s course time_slot = false →
     room_occupied s room time_slot = true →
     _check_constraints s course session_type time_slot room
     = rejected "Room occupied" "Room occupied" s)
  ∧ (faculty_busy s course time_slot = false →
     room_occupied s room time_slot = false →
     students_busy s course time_slot = true →
     _check_constraints s course session_type time_slot room
     = rejected "Students busy" "Students busy" s)
  ∧ (faculty_busy s course time_slot = false →
     room_occupied s room time_slot = false →
     students_busy s course time_slot = false →
     (2 ≤ length (daily_sessions s course time_slot))%nat →
     _check_constraints s course session_type time_slot room
     = rejected "Max 2 sessions/day exceeded" "Course already has 2 sessions today" s)
  ∧ (∀ existing_type key msg,
       faculty_busy s course time_slot = false →
       room_occupied s room time_slot = false →
       students_busy s course time_slot = false →
       daily_sessions s course time_slot = [existing_type] →
       same_day_collision session_type existing_type = Some (key, msg) →
       _check_constraints s course session_type time_slot room = rejected key msg s)
  ∧ (faculty_busy s course time_slot = false →
     room_occupied s room time_slot = false →
     students_busy s course time_slot = false →
     (length (daily_sessions s course time_slot) < 2)%nat →
     (∀ existing_type, daily_sessions s course time_slot = [existing_type] →
        same_day_collision session_type existing_type = None) →
     _check_constraints s course session_type time_slot room
     = if wrong_duration session_type time_slot
       then rejected "Wrong duration" "Wrong duration" s
       else (s, (true, "OK")))
  ∧ same_day_collision PRACTICAL PRACTICAL
    = Some ("Two practicals same day", "Already has a practical today")
  ∧ same_day_collision LECTURE LECTURE
    = Some ("Two lectures same day", "Already has a lecture today")
  ∧ same_day_collision TUTORIAL TUTORIAL
    = Some ("Two tutorials same day", "Already has a tutorial today")
  ∧ same_day_collision LECTURE TUTORIAL
    = Some ("Lecture+Tutorial same day", "Already has a theory session today")
  ∧ same_day_collision TUTORIAL LECTURE
    = Some ("Lecture+Tutorial same day", "Already has a theory session today")
  ∧ same_day_collision PRACTICAL LECTURE = None
  ∧ same_day_collision PRACTICAL TUTORIAL = None
  ∧ same_day_collision LECTURE PRACTICAL = None
  ∧ same_day_collision TUTORIAL PRACTICAL = None.
Proof.
  split; [apply check_faculty_first|].
  split; [apply check_room_second|].
  split; [apply check_students_third|].
  split; [apply check_cap_fourth|].
  split; [apply check_collision_fifth|].
  split; [|done].
  intros Hf Hr Hs Hlen Hcol.
  destruct (wrong_duration session_type time_slot) eqn:Hd.
  - by apply check_duration_sixth.
  - by apply check_accepts.
Qed.

Lemma check_constraints_order_witness :
  _check_constraints (run ex_courses ex_rooms) ex_programming TUTORIAL
    ex_tutorial_slot ex_hall
  = rejected "Max 2 sessions/day exceeded" "Course already has 2 sessions today"
      (run ex_courses ex_rooms).
Proof.
  apply (check_constraints_order (run ex_courses ex_rooms) ex_programming TUTORIAL
           ex_tutorial_slot ex_hall).
  - by vm_compute.
  - by vm_compute.
  - by vm_compute.
  - vm_compute. lia.
Defined.

(** C5, as stated, fails: a room of capacity 120 whose id starts with "L"
    is both a big room and a lab. *)
Lemma room_classes_counterexample : ¬ classes_disjoint [ex_big_lab].
Proof.
  intros H. destruct (H ex_big_lab) as (_ & Hbl & _). apply Hbl.
  split.
  - apply elem_of_big_rooms. split; [left|by vm_compute].
  - apply elem_of_labs. split; [left|done].
Qed.

(** C5, amended.  [big_rooms] holds the rooms of capacity at least 100 and
    [regular_rooms] the rooms of capacity below 100 whose id does not
    start with "L", both in descending order of capacity; [labs] holds the
    lab-like rooms in input order.  Big and regular rooms are disjoint and
    every room is in at least one of the three lists; a lab-like room of
    capacity at least 100 is in both [big_rooms] and [labs]. *)
Theorem room_classes (rs : list Room.t) :
  big_rooms_of rs ≡ₚ filter (λ r, 100 ≤ Room.capacity r) rs
  ∧ StronglySorted capacity_ge (big_rooms_of rs)
  ∧ regular_rooms_of rs
    ≡ₚ filter (λ r, Room.capacity r < 100 ∧ ¬ startswith_L r) rs
  ∧ StronglySorted capacity_ge (regular_rooms_of rs)
  ∧ labs_of rs `sublist_of` rs
  ∧ (∀ r, r ∈ labs_of rs ↔ r ∈ rs ∧ is_lab r = true)
  ∧ (∀ r, ¬ (r ∈ big_rooms_of rs ∧ r ∈ regular_rooms_of rs))
  ∧ (∀ r, r ∈ rs → r ∈ big_rooms_of rs ∨ r ∈ regular_rooms_of rs ∨ r ∈ labs_of rs)
  ∧ (∀ r, r ∈ rs → 100 ≤ Room.capacity r → is_lab r = true →
       r ∈ big_rooms_of rs ∧ r ∈ labs_of rs).
Proof.
  split; [apply sorted_perm|]. split; [apply sorted_capacity|].
  split; [apply sorted_perm|]. split; [apply sorted_capacity|].
  split; [apply sublist_filter|]. split; [apply elem_of_labs|].
  split; [|split].
  - intros r. rewrite elem_of_big_rooms, elem_of_regular_rooms. lia.
  - intros r Hr. rewrite elem_of_big_rooms, elem_of_regular_rooms, elem_of_labs.
    destruct (decide (100 ≤ Room.capacity r)); [by left|]. right.
    unfold is_lab. destruct (startswith_L r); [right|left]; repeat split; try done. lia.
  - intros r Hr Hcap Hlab. rewrite elem_of_big_rooms, elem_of_labs. done.
Qed.

Lemma room_classes_witness :
  ex_big_lab ∈ big_rooms_of [ex_big_lab] ∧ ex_big_lab ∈ labs_of [ex_big_lab].
Proof.
  apply (room_classes [ex_big_lab]).
  - left.
  - by vm_compute.
  - done.
Defined.

(** C6. Duration match: every session of the schedule of a run sits in a
    slot whose duration_hours equals the duration required of its type,
    1.5 for a lecture, 1.0 for a tutorial, 2.0 for a practical. *)
Theorem duration_match (cs : list Course.t) (rs : list Room.t) (i : nat)
    (x : ScheduledSession.t) :
  schedule (run cs rs) !! i = Some x →
  (TimeSlot.duration_hours (ScheduledSession.time_slot x)
   == required (ScheduledSession.session_type x))%Q
  ∧ (required LECTURE == 3 # 2)%Q ∧ (required TUTORIAL == 1)%Q
  ∧ (required PRACTICAL == 2)%Q.
Proof.
  intros Hx. split; [|done].
  apply (duration_inv_run cs rs). by eapply list_elem_of_lookup_2.
Qed.

Lemma duration_match_witness :
  schedule (run ex_courses ex_rooms) !! 0%nat = Some ex_first_session
  ∧ (TimeSlot.duration_hours (ScheduledSession.time_slot ex_first_session)
     == required (ScheduledSession.session_type ex_first_session))%Q.
Proof.
  assert (schedule (run ex_courses ex_rooms) !! 0%nat = Some ex_first_session) as H
    by (by vm_compute).
  split; [exact H|].
  exact (proj1 (duration_match ex_courses ex_rooms 0 ex_first_session H)).
Defined.

(** C7, as stated, fails: the only room has capacity 60, enough for the
    60 students, but its id starts with "L", so it is a lab only; the
    lecture finds no suitable room and becomes a conflict. *)
Lemma single_course_counterexample :
  Course.lectures ex_algebra = 1 ∧ Course.tutorials ex_algebra = 0
  ∧ Course.practicals ex_algebra = 0
  ∧ Course.num_students ex_algebra ≤ Room.capacity ex_lab
  ∧ schedule (run [ex_algebra] [ex_lab]) = []
  ∧ conflicts (run [ex_algebra] [ex_lab])
    = ["MA102 (CSE  Sem-I) - Lecture #1 - Faculty: Dr B"].
Proof. repeat split; by vm_compute. Qed.

(** C7, amended.  One course with 1 lecture, 0 tutorials and 0 practicals
    and one room whose capacity is at least the course's num_students and
    which is a big or a regular room (capacity at least 100, or an id not
    starting with "L"): the run schedules exactly one session, the lecture
    numbered 1, on Monday 9:00-10:30 in that room, and reports no
    conflict. *)
Theorem single_course_scenario (c : Course.t) (r : Room.t) :
  Course.lectures c = 1 → Course.tutorials c = 0 → Course.practicals c = 0 →
  Course.num_students c ≤ Room.capacity r →
  100 ≤ Room.capacity r ∨ startswith_L r = false →
  schedule (run [c] [r])
  = [ScheduledSession.mk c LECTURE (TimeSlot.mk "Monday" (9, 0) (10, 30) (3 # 2)) r
       (Course.faculty_name c) 1 (Course.basket c)]
  ∧ conflicts (run [c] [r]) = [].
Proof. apply single_course_run. Qed.

Lemma single_course_scenario_witness :
  (Course.lectures ex_algebra = 1 ∧ Course.tutorials ex_algebra = 0
   ∧ Course.practicals ex_algebra = 0
   ∧ Course.num_students ex_algebra ≤ Room.capacity ex_hall
   ∧ (100 ≤ Room.capacity ex_hall ∨ startswith_L ex_hall = false))
  ∧ schedule (run [ex_algebra] [ex_hall])
    = [ScheduledSession.mk ex_algebra LECTURE
         (TimeSlot.mk "Monday" (9, 0) (10, 30) (3 # 2)) ex_hall "Dr B" 1 None]
  ∧ conflicts (run [ex_algebra] [ex_hall]) = [].
Proof.
  assert (Course.num_students ex_algebra ≤ Room.capacity ex_hall) as Hcap
    by (by vm_compute).
  assert (100 ≤ Room.capacity ex_hall ∨ startswith_L ex_hall = false) as Hcls
    by (by right).
  split; [by repeat split|].
  exact (single_course_scenario ex_algebra ex_hall eq_refl eq_refl eq_refl Hcap Hcls).
Defined.




(** C9. Room exclusivity rests on the two half values.  The room check
    reads the room's table only under "Sem-I" and "Sem-II", and a commit
    writes the slot under the course's own semester_half.  So no two
    sessions share a room and a slot when every course's half is one of
    the two strings; and with two courses whose half is "first-half", a
    run commits both lectures to room R1 at Monday 9:00-10:30. *)
Theorem room_exclusivity_needs_valid_halves :
  (∀ (cs : list Course.t) (rs : list Room.t),
     (∀ c, c ∈ cs → valid_half c) → no_two room_clash (schedule (run cs rs)))
  ∧ (∀ s course session_type time_slot room,
       slot_in time_slot (get2 (room_schedule s) (Room.room_id room) "Sem-I") = false →
       slot_in time_slot (get2 (room_schedule s) (Room.room_id room) "Sem-II") = false →
       (_check_constraints s course session_type time_slot room).2.2 ≠ "Room occupied")
  ∧ (∀ s course session_type time_slot room n,
       slot_in time_slot
         (get2 (room_schedule (commit s course session_type time_slot room n))
            (Room.room_id room) (Course.semester_half course)) = true)
  ∧ (¬ valid_half ex_signals
     ∧ ∃ x y, schedule (run [ex_signals; ex_networks] [ex_hall]) = [x; y]
              ∧ ScheduledSession.room x = ScheduledSession.room y
              ∧ ScheduledSession.time_slot x = ScheduledSession.time_slot y
              ∧ room_clash x y).
Proof.
  split; [apply room_exclusive|]. split; [|split].
  - intros s course session_type time_slot room HI HII.
    rewrite check_unfold. unfold room_occupied. rewrite HI, HII. cbn [orb].
    unfold rejected.
    destruct (faculty_busy s course time_slot); [simpl; discriminate|].
    destruct (students_busy s course time_slot); [simpl; discriminate|].
    destruct (2 <=? length (daily_sessions s course time_slot))%nat;
      [simpl; discriminate|].
    destruct (daily_sessions s course time_slot) as [|e [|e' l]];
      try (destruct (wrong_duration session_type time_slot); simpl; discriminate).
    destruct session_type, e; simpl;
      try (destruct (wrong_duration _ time_slot); simpl; discriminate);
      discriminate.
  - intros. simpl. apply slot_in_append2_new.
  - split; [intros [H|H]; discriminate H|].
    eexists _, _. split; [by vm_compute|]. by vm_compute.
Qed.

Lemma room_exclusivity_needs_valid_halves_witness :
  (∀ c, c ∈ ex_courses → valid_half c)
  ∧ no_two room_clash (schedule (run ex_courses ex_rooms)).
Proof.
  assert (∀ c, c ∈ ex_courses → valid_half c) as Hv.
  { intros c Hc. unfold ex_courses in Hc.
    apply elem_of_cons in Hc as [->|Hc]; [by left|].
    apply elem_of_cons in Hc as [->|Hc]; [by right|].
    by apply elem_of_nil in Hc. }
  split; [exact Hv|].
  exact (proj1 room_exclusivity_needs_valid_halves ex_courses ex_rooms Hv).
Defined.

(** C10. Frame condition on the inputs.  Construction changes no field of
    a course but basket, by at most one assignment per course, made while
    the schedule is still empty; [generate_timetable] then leaves the
    courses as construction left them; the rooms are the input rooms
    throughout. *)
Theorem inputs_frame (cs : list Course.t) (rs : list Room.t) :
  Forall2 same_but_basket cs (courses (__init__ cs rs))
  ∧ courses (__init__ cs rs)
    = apply_assignments (basket_assignments (elective_groups cs) 1) cs
  ∧ NoDup (basket_assignments (elective_groups cs) 1).*1
  ∧ schedule (__init__ cs rs) = []
  ∧ courses (run cs rs) = courses (__init__ cs rs)
  ∧ rooms (__init__ cs rs) = rs
  ∧ rooms (run cs rs) = rs.
Proof.
  rewrite init_courses.
  split; [apply detect_baskets_frame|]. split; [apply detect_baskets_apply|].
  split; [apply basket_assignments_NoDup|].
  destruct (init_schedule cs rs) as (Hs & _). split; [done|].
  destruct (init_rooms cs rs) as (Hr & _).
  destruct (generate_timetable_inv (λ s, rooms s = rs) (courses (__init__ cs rs)))
    with (s := __init__ cs rs) as [H1 H2]; try done.
  split; [|done]. unfold run. by rewrite H2, init_courses.
Qed.

(** * Further properties *)

(** ** Slots filed by duration *)

Lemma Qeq_bool_sym (a b : Q) : Qeq_bool a b = Qeq_bool b a.
Proof.
  destruct (Qeq_bool a b) eqn:H1, (Qeq_bool b a) eqn:H2; try done.
  - apply Qeq_bool_iff in H1. apply Qeq_bool_neq in H2. exfalso. apply H2. by symmetry.
  - apply Qeq_bool_iff in H2. apply Qeq_bool_neq in H1. exfalso. apply H1. by symmetry.
Qed.

Lemma Qeq_bool_trans_l (a b c : Q) :
  Qeq_bool a b = true → Qeq_bool a c = Qeq_bool b c.
Proof.
  intros Hab%Qeq_bool_iff.
  destruct (Qeq_bool a c) eqn:H1, (Qeq_bool b c) eqn:H2; try done.
  - apply Qeq_bool_iff in H1. apply Qeq_bool_neq in H2. exfalso. apply H2.
    by rewrite <- Hab.
  - apply Qeq_bool_iff in H2. apply Qeq_bool_neq in H1. exfalso. apply H1.
    by rewrite Hab.
Qed.

Lemma od_get_append_Q (d : list (Q * list TimeSlot.t)) (k k' : Q) (v : TimeSlot.t) :
  od_get Qeq_bool (od_append Qeq_bool d k v) k'
  = if Qeq_bool k k' then od_get Qeq_bool d k' ++ [v] else od_get Qeq_bool d k'.
Proof.
  induction d as [|[k0 vs] d IH]; simpl.
  - by destruct (Qeq_bool k k').
  - destruct (Qeq_bool k0 k) eqn:H0; simpl.
    + rewrite <- (Qeq_bool_trans_l k0 k k' H0). by destruct (Qeq_bool k0 k').
    + destruct (Qeq_bool k0 k') eqn:H0'; [|apply IH].
      destruct (Qeq_bool k k') eqn:Hk; [|done].
      rewrite (Qeq_bool_trans_l k0 k' k H0') in H0.
      rewrite Qeq_bool_sym in Hk. congruence.
Qed.

Lemma group_slots_get (slots : list TimeSlot.t) (d : list (Q * list TimeSlot.t)) (k : Q) :
  od_get Qeq_bool
    (fold_left (fun d slot => od_append Qeq_bool d (TimeSlot.duration_hours slot) slot)
       slots d) k
  = od_get Qeq_bool d k
    ++ filter (λ slot, Qeq_bool (TimeSlot.duration_hours slot) k) slots.
Proof.
  revert d. induction slots as [|slot slots IH]; intros d; simpl.
  - by rewrite app_nil_r.
  - rewrite IH, od_get_append_Q, filter_cons_bool.
    destruct (Qeq_bool (TimeSlot.duration_hours slot) k); [|done].
    by rewrite <- app_assoc.
Qed.

Lemma group_slots_filter (slots : list TimeSlot.t) (k : Q) :
  od_get Qeq_bool (group_slots slots) k
  = filter (λ slot, Qeq_bool (TimeSlot.duration_hours slot) k) slots.
Proof. unfold group_slots. by rewrite group_slots_get. Qed.

(** X1. Filing slots by duration loses nothing and keeps the order: for
    any slot list, the entry of [slots_by_duration] under a duration is
    the list of the slots of that duration, in the order of the list. *)
Theorem slots_by_duration_lookup (slots : list TimeSlot.t) (k : Q) :
  od_get Qeq_bool (group_slots slots) k
  = filter (λ slot, Qeq_bool (TimeSlot.duration_hours slot) k) slots.
Proof.
  unfold group_slots. rewrite group_slots_get. simpl. reflexivity.
Qed.

(** ** Steps of a run

    A second induction over the loops of [generate_timetable], which
    records where each candidate comes from: the course is one of the
    scheduler's, the session number lies in [1..count], the room is a
    suitable room, the slot is filed under the duration of the type. *)

Lemma same_setup_refl s0 : same_setup s0 s0.
Proof. by repeat split. Qed.

Lemma same_setup_count s0 s key : same_setup s0 s → same_setup s0 (count_reason key s).
Proof. done. Qed.

Lemma same_setup_conflict s0 s msg : same_setup s0 s → same_setup s0 (add_conflict msg s).
Proof. done. Qed.

Lemma same_setup_commit s0 s course session_type time_slot room n :
  same_setup s0 s → same_setup s0 (commit s course session_type time_slot room n).
Proof. done. Qed.

Lemma same_setup_suitable s0 s course session_type :
  same_setup s0 s →
  _get_suitable_rooms s course session_type = _get_suitable_rooms s0 course session_type.
Proof.
  intros (_ & _ & _ & _ & Hb & Hr & Hl & _). unfold _get_suitable_rooms.
  by rewrite Hb, Hr, Hl.
Qed.

Lemma check_reject_key s course session_type time_slot room s' msg :
  wrong_duration session_type time_slot = false →
  _check_constraints s course session_type time_slot room = (s', (false, msg)) →
  ∃ key, key ∈ run_reasons ∧ s' = count_reason key s.
Proof.
  intros Hd. rewrite check_unfold, Hd. unfold rejected, run_reasons.
  destruct (faculty_busy s course time_slot).
  { intros [= <- <-]. eexists. split; [|done]. repeat constructor. }
  destruct (room_occupied s room time_slot).
  { intros [= <- <-]. eexists. split; [|done]. repeat constructor. }
  destruct (students_busy s course time_slot).
  { intros [= <- <-]. eexists. split; [|done]. repeat constructor. }
  destruct (2 <=? length (daily_sessions s course time_slot))%nat.
  { intros [= <- <-]. eexists. split; [|done]. repeat constructor. }
  destruct (daily_sessions s course time_slot) as [|e [|e' l]]; try done.
  destruct session_type, e; simpl; try done;
    intros [= <- <-]; (eexists; split; [|done]); repeat constructor.
Qed.

Lemma elem_of_range (a b n : Z) : n ∈ range a b ↔ a ≤ n < b.
Proof.
  unfold range. rewrite list_elem_of_fmap. split.
  - intros (i & -> & Hi). apply elem_of_seq in Hi. lia.
  - intros H. exists (Z.to_nat (n - a)). split; [lia|]. apply elem_of_seq. lia.
Qed.

Section RunSteps.
Variable P : Scheduler → Prop.
Variable s0 : Scheduler.
Hypothesis fit : slots_fit s0.
Hypothesis P_count :
  ∀ key s, key ∈ run_reasons → same_setup s0 s → P s → P (count_reason key s).
Hypothesis P_conflict :
  ∀ s course session_type n,
    same_setup s0 s → course ∈ courses s0 →
    1 ≤ n ≤ needed_count course session_type →
    P s → P (add_conflict (conflict_message course session_type n) s).
Hypothesis P_commit :
  ∀ s course session_type time_slot room n,
    same_setup s0 s → course ∈ courses s0 →
    1 ≤ n ≤ needed_count course session_type →
    room ∈ _get_suitable_rooms s0 course session_type →
    time_slot ∈ od_get Qeq_bool (slots_by_duration s0) (required session_type) →
    checks_pass s course session_type time_slot room →
    P s → P (commit s course session_type time_slot room n).

Lemma try_rooms_steps course session_type time_slot suitable_rooms s s' res :
  wrong_duration session_type time_slot = false →
  holds_in_run P s0 s →
  try_rooms s course session_type time_slot suitable_rooms = (s', res) →
  holds_in_run P s0 s'
  ∧ match res with
    | Some room =>
        room ∈ suitable_rooms ∧ checks_pass s' course session_type time_slot room
    | None => True
    end.
Proof.
  intros Hd. revert s. induction suitable_rooms as [|room rest IH]; intros s HQ; simpl.
  - by intros [= <- <-].
  - destruct (_check_constraints s course session_type time_slot room)
      as [s1 [[] msg]] eqn:Hc.
    + apply check_accept_inv in Hc as (-> & _ & Hp).
      intros [= <- <-]. split; [done|]. split; [left|done].
    + apply (check_reject_key _ _ _ _ _ _ _ Hd) in Hc as (key & Hkey & ->).
      intros H. apply IH in H as [HQ' Hres].
      * split; [done|]. destruct res; [|done]. destruct Hres. split; [by right|done].
      * destruct HQ as [HP Hs]. split; [by apply P_count|done].
Qed.

Lemma try_slots_steps course session_type n slots suitable_rooms s :
  course ∈ courses s0 → 1 ≤ n ≤ needed_count course session_type →
  (∀ slot, slot ∈ slots →
     slot ∈ od_get Qeq_bool (slots_by_duration s0) (required session_type)) →
  (∀ room, room ∈ suitable_rooms → room ∈ _get_suitable_rooms s0 course session_type) →
  holds_in_run P s0 s →
  holds_in_run P s0 (try_slots s course session_type n slots suitable_rooms).1.
Proof.
  intros Hc Hn Hslots Hrooms. revert s.
  induction slots as [|slot rest IH]; intros s HQ; simpl; [done|].
  destruct (try_rooms s course session_type slot suitable_rooms) as [s' res] eqn:Ht.
  apply try_rooms_steps in Ht as [[HP Hs] Hres]; [|apply fit, Hslots; left|done].
  destruct res as [room|].
  - destruct Hres as [Hr Hp]. simpl. split; [|done].
    apply P_commit; try done; [by apply Hrooms|apply Hslots; left].
  - apply IH; [|done]. intros slot' Hin. apply Hslots. by right.
Qed.

Lemma schedule_session_steps course session_type n s :
  course ∈ courses s0 → 1 ≤ n ≤ needed_count course session_type →
  holds_in_run P s0 s →
  holds_in_run P s0 (_schedule_session s course session_type n).1.
Proof.
  intros Hc Hn HQ. unfold _schedule_session.
  pose proof HQ as [HP Hs].
  rewrite (same_setup_suitable s0 s) by done.
  destruct (_get_suitable_rooms s0 course session_type) as [|r rs] eqn:Hrooms.
  - simpl. split; [|done]. apply P_count; try done.
    unfold run_reasons. repeat constructor.
  - destruct Hs as (_ & _ & _ & Hsl & _). rewrite Hsl.
    apply try_slots_steps; try done. intros room Hin. by rewrite Hrooms.
Qed.

Lemma schedule_one_steps course session_type acc n :
  course ∈ courses s0 → 1 ≤ n ≤ needed_count course session_type →
  holds_in_run P s0 acc.1 →
  holds_in_run P s0 (schedule_one course session_type acc n).1.
Proof.
  intros Hc Hn HQ. destruct acc as [s k]. unfold schedule_one.
  pose proof (schedule_session_steps course session_type n s Hc Hn HQ) as H.
  destruct (_schedule_session s course session_type n) as [s' []]; simpl in *; [done|].
  destruct H. split; [by apply P_conflict|done].
Qed.

Lemma schedule_type_steps course session_type acc :
  course ∈ courses s0 → holds_in_run P s0 acc.1 →
  holds_in_run P s0
    (fold_left (schedule_one course session_type)
       (range 1 (needed_count course session_type + 1)) acc).1.
Proof.
  intros Hc.
  assert (∀ nums acc,
    (∀ n, n ∈ nums → 1 ≤ n ≤ needed_count course session_type) →
    holds_in_run P s0 acc.1 →
    holds_in_run P s0 (fold_left (schedule_one course session_type) nums acc).1) as Hloop.
  { induction nums as [|n nums IH]; intros acc' Hnums Hacc; simpl; [done|].
    apply IH; [intros m Hm; apply Hnums; by right|].
    apply schedule_one_steps; [done|apply Hnums; left|done]. }
  apply Hloop. intros n Hn%elem_of_range. lia.
Qed.

Lemma schedule_course_steps course s :
  course ∈ courses s0 → holds_in_run P s0 s →
  holds_in_run P s0 (schedule_course s course).1.
Proof.
  intros Hc HQ. unfold schedule_course, sessions_needed. simpl.
  apply (schedule_type_steps course PRACTICAL); [done|].
  apply (schedule_type_steps course TUTORIAL); [done|].
  by apply (schedule_type_steps course LECTURE).
Qed.

Lemma generate_timetable_steps :
  P s0 → holds_in_run P s0 (generate_timetable s0).1.
Proof.
  intros HP. unfold generate_timetable.
  assert (∀ l acc, (∀ c, c ∈ l → c ∈ courses s0) → holds_in_run P s0 acc.1 →
    holds_in_run P s0 (fold_left (fun '(s, total_sessions) course =>
         let '(s', count) := schedule_course s course in
         (s', total_sessions + count)) l acc).1) as Hloop.
  { induction l as [|c l IH]; intros [s k] Hl Hacc; simpl; [done|].
    apply IH; [intros c' Hc'; apply Hl; by right|].
    pose proof (schedule_course_steps c s (Hl c ltac:(left)) Hacc) as H.
    by destruct (schedule_course s c). }
  apply Hloop.
  - intros c. by rewrite elem_of_sorted.
  - split; [done|apply same_setup_refl].
Qed.

End RunSteps.

(** ** Where sessions are placed *)

Lemma init_slots_fit (cs : list Course.t) (rs : list Room.t) : slots_fit (__init__ cs rs).
Proof.
  intros ty slot. destruct (init_rooms cs rs) as (_ & _ & _ & _ & ->).
  rewrite group_slots_filter. intros [H _]%list_elem_of_filter.
  unfold wrong_duration. by destruct (Qeq_bool _ _).
Qed.

Lemma catalog_wf : Forall (λ slot, slot_wf slot = true) _generate_time_slots.
Proof.
  apply Forall_forall. intros slot Hin. apply list_elem_of_In in Hin.
  revert slot Hin. apply forallb_forall. by vm_compute.
Qed.

Lemma init_suitable (cs : list Course.t) (rs : list Room.t) course session_type room :
  room ∈ _get_suitable_rooms (__init__ cs rs) course session_type →
  suits rs course session_type room.
Proof.
  destruct (init_rooms cs rs) as (_ & Hb & Hr & Hl & _).
  unfold _get_suitable_rooms, suits. rewrite Hb, Hr, Hl.
  destruct session_type.
  - intros [Hcap [H|H]%elem_of_app]%list_elem_of_filter.
    + apply elem_of_big_rooms in H as [? ?]. split; [done|]. split; [done|by left].
    + apply elem_of_regular_rooms in H as (? & ? & ?). split; [done|]. split; [done|by right].
  - intros [Hcap [H|H]%elem_of_app]%list_elem_of_filter.
    + apply elem_of_big_rooms in H as [? ?]. split; [done|]. split; [done|by left].
    + apply elem_of_regular_rooms in H as (? & ? & ?). split; [done|]. split; [done|by right].
  - intros [Hcap [? ?]%elem_of_labs]%list_elem_of_filter. done.
Qed.

(** X2. Room of a placed session: every session of the schedule of a run
    is in one of the input rooms, the room's capacity is at least the
    course's num_students, a practical is in a lab-like room, and a
    lecture or tutorial is in a room of capacity at least 100 or in one
    whose id does not start with "L". *)
Theorem placed_room_suits (cs : list Course.t) (rs : list Room.t) (i : nat)
    (x : ScheduledSession.t) :
  schedule (run cs rs) !! i = Some x →
  suits rs (ScheduledSession.course x) (ScheduledSession.session_type x)
    (ScheduledSession.room x).
Proof.
  intros Hx%list_elem_of_lookup_2. revert x Hx. unfold run.
  apply (generate_timetable_steps
           (λ s, ∀ x, x ∈ schedule s →
              suits rs (ScheduledSession.course x) (ScheduledSession.session_type x)
                (ScheduledSession.room x)) (__init__ cs rs)).
  - apply init_slots_fit.
  - done.
  - done.
  - intros s c ty t r n _ _ _ Hr _ _ HP x. simpl.
    intros [Hx| ->%list_elem_of_singleton]%elem_of_app; [by apply HP|].
    simpl. by eapply init_suitable.
  - destruct (init_schedule cs rs) as (-> & _). by intros x ?%elem_of_nil.
Qed.

Lemma placed_room_suits_witness :
  schedule (run ex_courses ex_rooms) !! 1%nat
  = Some (ScheduledSession.mk ex_programming PRACTICAL first_practical_slot ex_lab
            "Dr A" 1 None)
  ∧ suits ex_rooms ex_programming PRACTICAL ex_lab.
Proof.
  assert (schedule (run ex_courses ex_rooms) !! 1%nat
          = Some (ScheduledSession.mk ex_programming PRACTICAL first_practical_slot
                    ex_lab "Dr A" 1 None)) as H by (by vm_compute).
  split; [exact H|exact (placed_room_suits _ _ _ _ H)].
Defined.

Lemma placed_in_catalog (cs : list Course.t) (rs : list Room.t) (x : ScheduledSession.t) :
  x ∈ schedule (run cs rs) → ScheduledSession.time_slot x ∈ _generate_time_slots.
Proof.
  revert x. unfold run.
  apply (generate_timetable_steps
           (λ s, ∀ x, x ∈ schedule s →
              ScheduledSession.time_slot x ∈ _generate_time_slots) (__init__ cs rs)).
  - apply init_slots_fit.
  - done.
  - done.
  - intros s c ty t r n _ _ _ _ Ht _ HP x. simpl.
    intros [Hx| ->%list_elem_of_singleton]%elem_of_app; [by apply HP|].
    simpl. destruct (init_rooms cs rs) as (_ & _ & _ & _ & Hs). rewrite Hs in Ht.
    rewrite group_slots_filter in Ht. by apply list_elem_of_filter in Ht as [_ ?].
  - destruct (init_schedule cs rs) as (-> & _). by intros x ?%elem_of_nil.
Qed.

Lemma placed_on_weekday (cs : list Course.t) (rs : list Room.t) (x : ScheduledSession.t) :
  x ∈ schedule (run cs rs) → TimeSlot.day (ScheduledSession.time_slot x) ∈ days.
Proof.
  intros Hin%placed_in_catalog.
  pose proof (proj1 (Forall_forall _ _) catalog_wf _ Hin) as Hwf.
  unfold slot_wf in Hwf. apply andb_true_iff in Hwf as [[Hd _]%andb_true_iff _].
  by apply bool_decide_eq_true in Hd.
Qed.

(** X3. Slot of a placed session: every session of the schedule of a run
    sits in a slot of the generated catalog; the slot is on one of the
    five weekdays, starts before it ends, and its duration_hours is the
    time from start to end. *)
Theorem placed_slot_in_catalog (cs : list Course.t) (rs : list Room.t) (i : nat)
    (x : ScheduledSession.t) :
  schedule (run cs rs) !! i = Some x →
  ScheduledSession.time_slot x ∈ _generate_time_slots
  ∧ TimeSlot.day (ScheduledSession.time_slot x) ∈ days
  ∧ TimeSlot.time_lt (TimeSlot.start_time (ScheduledSession.time_slot x))
      (TimeSlot.end_time (ScheduledSession.time_slot x)) = true
  ∧ (TimeSlot.duration_hours (ScheduledSession.time_slot x)
     == minutes_between (TimeSlot.start_time (ScheduledSession.time_slot x))
          (TimeSlot.end_time (ScheduledSession.time_slot x)) # 60)%Q.
Proof.
  intros Hx%list_elem_of_lookup_2.
  pose proof (placed_in_catalog cs rs x Hx) as Hin.
  split; [done|].
  pose proof (proj1 (Forall_forall _ _) catalog_wf _ Hin) as Hwf.
  unfold slot_wf in Hwf. apply andb_true_iff in Hwf as [[Hd Hlt]%andb_true_iff Hq].
  split; [by apply bool_decide_eq_true in Hd|]. split; [done|].
  by apply Qeq_bool_iff.
Qed.

Lemma placed_slot_in_catalog_witness :
  schedule (run ex_courses ex_rooms) !! 0%nat = Some ex_first_session
  ∧ first_lecture_slot ∈ _generate_time_slots
  ∧ "Monday" ∈ days
  ∧ TimeSlot.time_lt (9, 0) (10, 30) = true
  ∧ (3 # 2 == minutes_between (9, 0)%Z (10, 30)%Z # 60)%Q.
Proof.
  assert (schedule (run ex_courses ex_rooms) !! 0%nat = Some ex_first_session) as H
    by (by vm_compute).
  split; [exact H|exact (placed_slot_in_catalog _ _ _ _ H)].
Defined.

(** X4. Identity of a placed session: its course is one of the
    scheduler's courses (an input course up to its basket), its number
    lies between 1 and the count the course asks for its type, and its
    faculty_name and basket are copies of the course's. *)
Theorem placed_session_fields (cs : list Course.t) (rs : list Room.t) (i : nat)
    (x : ScheduledSession.t) :
  schedule (run cs rs) !! i = Some x →
  ScheduledSession.course x ∈ (_detect_baskets cs).1
  ∧ (∃ c, c ∈ cs ∧ same_but_basket c (ScheduledSession.course x))
  ∧ 1 ≤ ScheduledSession.session_number x
      ≤ needed_count (ScheduledSession.course x) (ScheduledSession.session_type x)
  ∧ ScheduledSession.faculty_name x = Course.faculty_name (ScheduledSession.course x)
  ∧ ScheduledSession.basket x = Course.basket (ScheduledSession.course x).
Proof.
  intros Hx%list_elem_of_lookup_2.
  assert (ScheduledSession.course x ∈ (_detect_baskets cs).1
          ∧ 1 ≤ ScheduledSession.session_number x
              ≤ needed_count (ScheduledSession.course x) (ScheduledSession.session_type x)
          ∧ ScheduledSession.faculty_name x
            = Course.faculty_name (ScheduledSession.course x)
          ∧ ScheduledSession.basket x = Course.basket (ScheduledSession.course x))
    as (Hc & Hn & Hf & Hb).
  { revert x Hx. unfold run. rewrite <- (init_courses cs rs).
    apply (generate_timetable_steps
             (λ s, ∀ x, x ∈ schedule s →
                ScheduledSession.course x ∈ courses (__init__ cs rs)
                ∧ 1 ≤ ScheduledSession.session_number x
                    ≤ needed_count (ScheduledSession.course x)
                        (ScheduledSession.session_type x)
                ∧ ScheduledSession.faculty_name x
                  = Course.faculty_name (ScheduledSession.course x)
                ∧ ScheduledSession.basket x = Course.basket (ScheduledSession.course x))
             (__init__ cs rs)).
    - apply init_slots_fit.
    - done.
    - done.
    - intros s c ty t r n _ Hc Hn _ _ _ HP x. simpl.
      intros [Hx| ->%list_elem_of_singleton]%elem_of_app; [by apply HP|]. done.
    - destruct (init_schedule cs rs) as (-> & _). by intros x ?%elem_of_nil. }
  split; [done|]. split; [|done].
  apply list_elem_of_lookup_1 in Hc as [j Hj].
  destruct (Forall2_lookup_r _ _ _ _ _ (detect_baskets_frame cs) Hj) as (c & Hc & Hcc).
  exists c. split; [by eapply list_elem_of_lookup_2|done].
Qed.

Lemma placed_session_fields_witness :
  schedule (run ex_courses ex_rooms) !! 0%nat = Some ex_first_session
  ∧ ex_programming ∈ (_detect_baskets ex_courses).1
  ∧ (∃ c, c ∈ ex_courses ∧ same_but_basket c ex_programming)
  ∧ 1 ≤ 1 ≤ needed_count ex_programming LECTURE
  ∧ "Dr A" = Course.faculty_name ex_programming
  ∧ None = Course.basket ex_programming.
Proof.
  assert (schedule (run ex_courses ex_rooms) !! 0%nat = Some ex_first_session) as H
    by (by vm_compute).
  split; [exact H|exact (placed_session_fields _ _ _ _ H)].
Defined.

(** X5. Conflict entries: every entry of the conflict list of a run is
    the line built for one of the scheduler's courses, a session type and
    a session number between 1 and the count the course asks for that
    type. *)
Theorem conflict_entries (cs : list Course.t) (rs : list Room.t) (msg : string) :
  msg ∈ conflicts (run cs rs) →
  ∃ course session_type n,
    course ∈ (_detect_baskets cs).1
    ∧ 1 ≤ n ≤ needed_count course session_type
    ∧ msg = conflict_message course session_type n.
Proof.
  revert msg. unfold run. rewrite <- (init_courses cs rs).
  apply (generate_timetable_steps
           (λ s, ∀ msg, msg ∈ conflicts s →
              ∃ course session_type n,
                course ∈ courses (__init__ cs rs)
                ∧ 1 ≤ n ≤ needed_count course session_type
                ∧ msg = conflict_message course session_type n)
           (__init__ cs rs)).
  - apply init_slots_fit.
  - done.
  - intros s c ty n _ Hc Hn HP msg. simpl.
    intros [Hm| ->%list_elem_of_singleton]%elem_of_app; [by apply HP|].
    by exists c, ty, n.
  - done.
  - destruct (init_schedule cs rs) as (_ & -> & _). by intros x ?%elem_of_nil.
Qed.

Lemma conflict_entries_witness :
  "MA102 (CSE  Sem-I) - Lecture #1 - Faculty: Dr B" ∈ conflicts (run [ex_algebra] [ex_lab])
  ∧ ∃ course session_type n,
      course ∈ (_detect_baskets [ex_algebra]).1
      ∧ 1 ≤ n ≤ needed_count course session_type
      ∧ "MA102 (CSE  Sem-I) - Lecture #1 - Faculty: Dr B"
        = conflict_message course session_type n.
Proof.
  assert ("MA102 (CSE  Sem-I) - Lecture #1 - Faculty: Dr B"
          ∈ conflicts (run [ex_algebra] [ex_lab])) as H
    by (vm_compute; apply list_elem_of_here).
  split; [exact H|exact (conflict_entries _ _ _ H)].
Defined.

(** X6. Reasons counted in a run: [conflict_reasons] only ever holds the
    nine reasons "Faculty busy", "Room occupied", "Students busy",
    "Max 2 sessions/day exceeded", "Two practicals same day",
    "Two lectures same day", "Two tutorials same day",
    "Lecture+Tutorial same day" and "No suitable room".  "Wrong duration"
    is never counted, because candidates are drawn from the slots filed
    under the duration of the session type. *)
Theorem counted_reasons (cs : list Course.t) (rs : list Room.t) (key : string) :
  key ∉ run_reasons → conflict_reasons (run cs rs) !! key = None.
Proof.
  intros Hkey. unfold run.
  apply (generate_timetable_steps
           (λ s, conflict_reasons s !! key = None) (__init__ cs rs)).
  - apply init_slots_fit.
  - intros k s Hk _ HP. simpl. unfold incr.
    rewrite lookup_insert_ne; [done|]. by intros ->.
  - done.
  - done.
  - destruct (init_schedule cs rs) as (_ & _ & _ & _ & _ & _ & ->). apply lookup_empty.
Qed.

Lemma counted_reasons_witness :
  ("Wrong duration" ∉ run_reasons)
  ∧ conflict_reasons (run ex_courses ex_rooms) !! "Wrong duration" = None.
Proof.
  assert ("Wrong duration" ∉ run_reasons) as H.
  { unfold run_reasons. intros Hin.
    repeat (apply elem_of_cons in Hin as [Hin|Hin]; [discriminate Hin|]).
    by apply elem_of_nil in Hin. }
  split; [exact H|]. exact (counted_reasons ex_courses ex_rooms _ H).
Defined.

(** ** A run only appends *)

Lemma get2_append2_prefix {V : Type} (m : gmap string (gmap string (list V))) a b x a' b' l :
  l `prefix_of` get2 m a' b' → l `prefix_of` get2 (append2 m a b x) a' b'.
Proof.
  intros H. rewrite get2_append2. case_decide; [|done].
  by apply prefix_app_r.
Qed.

Lemma extends_refl s : extends s s.
Proof. by repeat split. Qed.

(** X7. A run only appends: from any scheduler, [generate_timetable]
    keeps the schedule and the conflict list as prefixes of the new ones,
    keeps every occupancy list (faculty, room, student, course-per-day)
    as a prefix of the new one, and lowers no reason count. *)
Theorem run_only_appends (s : Scheduler) : extends s (generate_timetable s).1.
Proof.
  apply (generate_timetable_inv (extends s) (courses s)); [..|apply extends_refl|done].
  - intros key s' (H1 & H2 & H3 & H4 & H5 & H6 & H7). repeat split; try done.
    intros k. etrans; [apply H7|]. simpl. unfold incr, count_of.
    destruct (decide (key = k)) as [->|Hne].
    + rewrite lookup_insert_eq. simpl. lia.
    + by rewrite lookup_insert_ne.
  - intros msg s' (H1 & H2 & H3 & H4 & H5 & H6 & H7). repeat split; try done.
    simpl. by apply prefix_app_r.
  - intros s' c ty t r n (H1 & H2 & H3 & H4 & H5 & H6 & H7) _ _ _.
    repeat split; simpl; try done.
    + by apply prefix_app_r.
    + intros a b. apply get2_append2_prefix, H3.
    + intros a b. apply get2_append2_prefix, H4.
    + intros a b. apply get2_append2_prefix, H5.
    + intros a b. apply get2_append2_prefix, H6.
Qed.

(** ** The returned counts *)

Lemma schedule_one_count course session_type acc n :
  Z.of_nat (length (schedule (schedule_one course session_type acc n).1))
  - (schedule_one course session_type acc n).2
  = Z.of_nat (length (schedule acc.1)) - acc.2.
Proof.
  destruct acc as [s k]. unfold schedule_one.
  destruct (_schedule_session s course session_type n) as [s' ok] eqn:H.
  apply schedule_session_reported in H as [H1 H2].
  destruct ok; simpl; rewrite H1; lia.
Qed.

Lemma schedule_all_count course session_type nums acc :
  Z.of_nat (length (schedule (fold_left (schedule_one course session_type) nums acc).1))
  - (fold_left (schedule_one course session_type) nums acc).2
  = Z.of_nat (length (schedule acc.1)) - acc.2.
Proof.
  revert acc. induction nums as [|n nums IH]; intros acc; simpl; [done|].
  by rewrite IH, schedule_one_count.
Qed.

Lemma schedule_course_count (s : Scheduler) (course : Course.t) :
  (schedule_course s course).2
  = Z.of_nat (length (schedule (schedule_course s course).1))
    - Z.of_nat (length (schedule s)).
Proof.
  unfold schedule_course, sessions_needed. cbn [fold_left].
  pose proof (schedule_all_count course LECTURE
    (range 1 (Course.lectures course + 1)) (s, 0)) as H1.
  set (a1 := fold_left (schedule_one course LECTURE) _ (s, 0)) in *.
  pose proof (schedule_all_count course TUTORIAL
    (range 1 (Course.tutorials course + 1)) a1) as H2.
  set (a2 := fold_left (schedule_one course TUTORIAL) _ a1) in *.
  pose proof (schedule_all_count course PRACTICAL
    (range 1 (Course.practicals course + 1)) a2) as H3.
  set (a3 := fold_left (schedule_one course PRACTICAL) _ a2) in *.
  simpl in H1. lia.
Qed.

Lemma generate_timetable_count (s : Scheduler) :
  (generate_timetable s).2
  = Z.of_nat (length (schedule (generate_timetable s).1))
    - Z.of_nat (length (schedule s)).
Proof.
  unfold generate_timetable.
  generalize (sorted course_key_lt (courses s)) as l. intros l.
  assert (∀ l acc,
    Z.of_nat (length (schedule (fold_left (fun '(s, total_sessions) course =>
         let '(s', count) := schedule_course s course in
         (s', total_sessions + count)) l acc).1))
    - (fold_left (fun '(s, total_sessions) course =>
         let '(s', count) := schedule_course s course in
         (s', total_sessions + count)) l acc).2
    = Z.of_nat (length (schedule acc.1)) - acc.2) as Hloop.
  { clear l. induction l as [|c l IH]; intros [s' k]; simpl; [done|].
    rewrite IH. pose proof (schedule_course_count s' c) as Hc.
    destruct (schedule_course s' c) as [s'' count]. simpl in *. lia. }
  specialize (Hloop l (s, 0)). simpl in Hloop. lia.
Qed.

(** X8. Returned counts: [schedule_course] returns the number of sessions
    it appended to the schedule, and the total [generate_timetable] adds
    up is the number of sessions the whole pass appended. *)
Theorem returned_counts (s : Scheduler) :
  (∀ course,
     (schedule_course s course).2
     = Z.of_nat (length (schedule (schedule_course s course).1))
       - Z.of_nat (length (schedule s)))
  ∧ (generate_timetable s).2
    = Z.of_nat (length (schedule (generate_timetable s).1))
      - Z.of_nat (length (schedule s)).
Proof. split; [apply schedule_course_count|apply generate_timetable_count]. Qed.

(** ** How much of a course fits in a week *)

Lemma filter_comm {A : Type} (P1 P2 : A → Prop)
    `{∀ x, Decision (P1 x)} `{∀ x, Decision (P2 x)} (l : list A) :
  filter P1 (filter P2 l) = filter P2 (filter P1 l).
Proof. rewrite !list_filter_filter. apply list_filter_iff. tauto. Qed.

Lemma length_filter_filter {A : Type} (P1 P2 : A → Prop)
    `{∀ x, Decision (P1 x)} `{∀ x, Decision (P2 x)} (l : list A) :
  (length (filter P1 (filter P2 l)) ≤ length (filter P1 l))%nat.
Proof. rewrite filter_comm. apply length_filter. Qed.

Lemma length_by_class {A : Type} (f : A → string) (ds : list string) (b : nat)
    (l : list A) :
  (∀ x, x ∈ l → f x ∈ ds) →
  (∀ d, d ∈ ds → (length (filter (λ x, f x = d) l) ≤ b)%nat) →
  (length l ≤ b * length ds)%nat.
Proof.
  revert l. induction ds as [|d ds IH]; intros l Hin Hb.
  - destruct l as [|x l]; [simpl; lia|].
    specialize (Hin x ltac:(left)). by apply elem_of_nil in Hin.
  - rewrite <- (Permutation_length (filter_app_complement (λ x, f x = d) l)).
    rewrite length_app. simpl.
    specialize (IH (filter (λ x, ¬ f x = d) l)).
    assert (length (filter (λ x, ¬ f x = d) l) ≤ b * length ds)%nat as Hrest.
    { apply IH.
      - intros x [Hne Hx]%list_elem_of_filter.
        apply Hin in Hx. apply elem_of_cons in Hx as [?|?]; done.
      - intros d' Hd'. etrans; [apply length_filter_filter|]. apply Hb. by right. }
    specialize (Hb d ltac:(left)). lia.
Qed.

Lemma day_sessions_shape (cs : list Course.t) (rs : list Room.t) (cid d : string) :
  day_sessions cid d (schedule (run cs rs)) = []
  ∨ (∃ x, day_sessions cid d (schedule (run cs rs)) = [x])
  ∨ (∃ x y, day_sessions cid d (schedule (run cs rs)) = [x; y]
            ∧ same_day_collision (ScheduledSession.session_type y)
                (ScheduledSession.session_type x) = None).
Proof.
  destruct (daily_inv_run cs rs cid d) as [Heq [Hlen Hcol]].
  rewrite <- Heq in Hlen, Hcol. unfold day_types in Hlen, Hcol.
  destruct (day_sessions cid d (schedule (run cs rs))) as [|x [|y [|z l]]];
    simpl in Hlen; try lia.
  - by left.
  - right. left. by exists x.
  - right. right. exists x, y. split; [done|]. by apply Hcol.
Qed.

Lemma day_of_course (cid d : string) (l : list ScheduledSession.t) :
  filter (λ x, TimeSlot.day (ScheduledSession.time_slot x) = d) (course_sessions cid l)
  = day_sessions cid d l.
Proof.
  unfold course_sessions, day_sessions. rewrite list_filter_filter.
  apply list_filter_iff. tauto.
Qed.

(** X9. Weekly room for a course: a run places at most 10 sessions of a
    course (by course_id), at most 5 of them practicals and at most 5 of
    them lectures or tutorials, whatever counts the course asks for. *)
Theorem weekly_bound (cs : list Course.t) (rs : list Room.t) (cid : string) :
  (length (course_sessions cid (schedule (run cs rs))) ≤ 10)%nat
  ∧ (length (filter (λ x, ScheduledSession.session_type x = PRACTICAL)
               (course_sessions cid (schedule (run cs rs)))) ≤ 5)%nat
  ∧ (length (filter (λ x, ScheduledSession.session_type x ≠ PRACTICAL)
               (course_sessions cid (schedule (run cs rs)))) ≤ 5)%nat.
Proof.
  assert (∀ x, x ∈ course_sessions cid (schedule (run cs rs)) →
            TimeSlot.day (ScheduledSession.time_slot x) ∈ days) as Hdays.
  { intros x [_ Hx]%list_elem_of_filter. by eapply placed_on_weekday. }
  split; [|split].
  - apply (length_by_class (λ x, TimeSlot.day (ScheduledSession.time_slot x)) days 2);
      [done|].
    intros d _. rewrite day_of_course.
    destruct (day_sessions_shape cs rs cid d) as [->|[[x ->]|(x & y & -> & _)]];
      simpl; lia.
  - apply (length_by_class (λ x, TimeSlot.day (ScheduledSession.time_slot x)) days 1).
    + intros x [_ Hx]%list_elem_of_filter. by apply Hdays.
    + intros d _. rewrite filter_comm, day_of_course.
      destruct (day_sessions_shape cs rs cid d) as [->|[[x ->]|(x & y & -> & Hcol)]].
      * simpl. lia.
      * etrans; [apply length_filter|]. simpl. lia.
      * rewrite !filter_cons, filter_nil.
        destruct (ScheduledSession.session_type x), (ScheduledSession.session_type y);
          try discriminate Hcol; repeat case_decide; simpl; try lia; naive_solver.
  - apply (length_by_class (λ x, TimeSlot.day (ScheduledSession.time_slot x)) days 1).
    + intros x [_ Hx]%list_elem_of_filter. by apply Hdays.
    + intros d _. rewrite filter_comm, day_of_course.
      destruct (day_sessions_shape cs rs cid d) as [->|[[x ->]|(x & y & -> & Hcol)]].
      * simpl. lia.
      * etrans; [apply length_filter|]. simpl. lia.
      * rewrite !filter_cons, filter_nil.
        destruct (ScheduledSession.session_type x), (ScheduledSession.session_type y);
          try discriminate Hcol; repeat case_decide; simpl; try lia; naive_solver.
Qed.

(** ** Overlapping slots *)

Lemma practical_slots_head :
  ∃ rest, od_get Qeq_bool (group_slots _generate_time_slots) (required PRACTICAL)
          = first_practical_slot :: rest.
Proof. eexists. vm_compute. reflexivity. Qed.

Lemma only_slot_append2 (t : TimeSlot.t) a b : only_slot t (append2 ∅ a b t).
Proof.
  intros a' b' t'. rewrite get2_append2, get2_empty.
  case_decide; simpl; [|done]. by rewrite orb_false_r.
Qed.

Lemma only_slot_free (t t' : TimeSlot.t) m a b :
  only_slot t m → TimeSlot.eqb t' t = false → slot_in t' (get2 m a b) = false.
Proof.
  intros Hm Hne. destruct (slot_in t' (get2 m a b)) eqn:H; [|done].
  apply Hm in H. congruence.
Qed.

Lemma schedule_practical_second s course lab rs' n :
  only_slot first_lecture_slot (faculty_schedule s) →
  only_slot first_lecture_slot (room_schedule s) →
  only_slot first_lecture_slot (student_schedule s) →
  daily_sessions s course first_practical_slot = [LECTURE] →
  slots_by_duration s = group_slots _generate_time_slots →
  _get_suitable_rooms s course PRACTICAL = lab :: rs' →
  _schedule_session s course PRACTICAL n
  = (commit s course PRACTICAL first_practical_slot lab n, true).
Proof.
  intros Hf Hr Hs Hd Hslots Hrooms. unfold _schedule_session.
  rewrite Hrooms, Hslots.
  destruct practical_slots_head as [rest ->]. simpl try_slots.
  rewrite check_accepts.
  - done.
  - unfold faculty_busy. by apply (only_slot_free first_lecture_slot).
  - unfold room_occupied. by rewrite !(only_slot_free first_lecture_slot).
  - unfold students_busy. by apply (only_slot_free first_lecture_slot).
  - rewrite Hd. simpl. lia.
  - rewrite Hd. by intros e [= <-].
  - done.
Qed.

Lemma two_rooms_classes (hall lab : Room.t) :
  100 ≤ Room.capacity hall → is_lab hall = false →
  Room.capacity lab < 100 → startswith_L lab = true →
  big_rooms_of [hall; lab] = [hall]
  ∧ regular_rooms_of [hall; lab] = []
  ∧ labs_of [hall; lab] = [lab].
Proof.
  intros Hh Hhl Hl HlL. unfold big_rooms_of, regular_rooms_of, labs_of.
  rewrite !filter_cons, !filter_nil.
  assert (Is_true (is_lab lab)) as HL by (unfold is_lab; rewrite HlL; exact I).
  assert (¬ Is_true (is_lab hall)) as HH by (rewrite Hhl; simpl; tauto).
  assert (¬ (Room.capacity lab < 100 ∧ ¬ startswith_L lab)) as HR
    by (rewrite HlL; simpl; tauto).
  repeat case_decide; try done; try lia.
Qed.

(** X10. Only identical slots conflict.  A course with one lecture and
    one practical, a hall (capacity at least 100, not lab-like) and a lab
    (capacity below 100, id starting with "L"), both large enough: the
    run places the lecture on Monday 9:00-10:30 in the hall and the
    practical on Monday 9:00-11:00 in the lab.  The two slots overlap
    without being equal, so the same faculty and the same students are
    booked twice at 9:00. *)
Theorem overlapping_sessions_placed (c : Course.t) (hall lab : Room.t) :
  Course.lectures c = 1 → Course.tutorials c = 0 → Course.practicals c = 1 →
  Course.num_students c ≤ Room.capacity hall → Course.num_students c ≤ Room.capacity lab →
  100 ≤ Room.capacity hall → is_lab hall = false →
  Room.capacity lab < 100 → startswith_L lab = true →
  schedule (run [c] [hall; lab])
  = [ScheduledSession.mk c LECTURE first_lecture_slot hall
       (Course.faculty_name c) 1 (Course.basket c);
     ScheduledSession.mk c PRACTICAL first_practical_slot lab
       (Course.faculty_name c) 1 (Course.basket c)]
  ∧ conflicts (run [c] [hall; lab]) = []
  ∧ TimeSlot.overlaps first_lecture_slot first_practical_slot = true
  ∧ TimeSlot.eqb first_lecture_slot first_practical_slot = false.
Proof.
  intros Hl Ht Hp Hch Hcl Hh Hhl Hlc HlL.
  split; [|split; [|done]]; unfold run.
  all: pose proof (init_courses [c] [hall; lab]) as Hcs;
    rewrite detect_baskets_single in Hcs;
    destruct (init_schedule [c] [hall; lab]) as (Hsch & Hcf & Hf & Hr & Hs & Hd & _);
    destruct (init_rooms [c] [hall; lab]) as (_ & Hbig & Hreg & Hlabs & Hslots);
    destruct (two_rooms_classes hall lab Hh Hhl Hlc HlL) as (Eb & Er & El);
    unfold generate_timetable; rewrite Hcs; simpl;
    unfold schedule_course, sessions_needed; rewrite Hl, Ht, Hp; simpl;
    unfold schedule_one;
    rewrite (schedule_session_fresh _ c hall []); try done;
    try (unfold _get_suitable_rooms; rewrite Hbig, Hreg, Eb, Er; simpl;
         rewrite filter_cons, filter_nil; by rewrite decide_True);
    rewrite (schedule_practical_second _ c lab []); simpl;
    try (by rewrite ?Hsch, ?Hcf);
    try (rewrite ?Hf, ?Hr, ?Hs; apply only_slot_append2).
  all: try (unfold daily_sessions; simpl; rewrite Hd;
            by rewrite get2_append2_eq, get2_empty).
  all: unfold _get_suitable_rooms; simpl; rewrite Hlabs, El;
    rewrite filter_cons, filter_nil; by rewrite decide_True.
Qed.

Lemma overlapping_sessions_placed_witness :
  schedule (run [ex_programming] ex_rooms)
  = [ScheduledSession.mk ex_programming LECTURE first_lecture_slot ex_hall "Dr A" 1 None;
     ScheduledSession.mk ex_programming PRACTICAL first_practical_slot ex_lab
       "Dr A" 1 None]
  ∧ conflicts (run [ex_programming] ex_rooms) = []
  ∧ TimeSlot.overlaps first_lecture_slot first_practical_slot = true
  ∧ TimeSlot.eqb first_lecture_slot first_practical_slot = false.
Proof.
  apply (overlapping_sessions_placed ex_programming ex_hall ex_lab);
    first [reflexivity | simpl; lia].
Defined.

(** ** The returned baskets *)

Lemma assign_members_dict basket_id members (cs : list Course.t)
    (baskets : gmap string (list nat)) :
  members ≠ [] →
  (fold_left
     (fun '(cs, baskets) i =>
        (alter (Course.set_basket (Some basket_id)) i cs,
         basket_append baskets basket_id i))
     members (cs, baskets)).2
  = <[basket_id := default [] (baskets !! basket_id) ++ members]> baskets.
Proof.
  revert cs baskets. induction members as [|i members IH]; intros cs baskets Hne; [done|].
  simpl. destruct members as [|j members]; [done|].
  rewrite IH by done. unfold basket_append.
  rewrite lookup_insert_eq. simpl. rewrite insert_insert_eq.
  by rewrite <- app_assoc.
Qed.

Lemma assign_baskets_dict groups k cs (baskets : gmap string (list nat)) :
  (∀ id, is_Some (baskets !! id) → ∃ j, j < k ∧ id = "B" +:+ pretty j) →
  (∀ n K m, filter (λ g, is_multi g) groups !! n = Some (K, m) →
     (assign_baskets groups k cs baskets).2 !! ("B" +:+ pretty (k + Z.of_nat n)) = Some m)
  ∧ (∀ id, is_Some ((assign_baskets groups k cs baskets).2 !! id) →
       is_Some (baskets !! id)
       ∨ ∃ n, (n < length (filter (λ g, is_multi g) groups))%nat
              ∧ id = "B" +:+ pretty (k + Z.of_nat n))
  ∧ (∀ id, is_Some (baskets !! id) →
       (assign_baskets groups k cs baskets).2 !! id = baskets !! id)
  ∧ size (assign_baskets groups k cs baskets).2
    = (size baskets + length (filter (λ g, is_multi g) groups))%nat.
Proof.
  revert k cs baskets.
  induction groups as [|[K0 m0] groups IH]; intros k cs baskets Hold.
  - simpl. split; [by intros n K m H|]. split; [by left|]. split; [done|lia].
  - cbn [assign_baskets]. rewrite filter_cons_bool.
    change (is_multi (K0, m0)) with (1 <? length m0)%nat. destruct (1 <? length m0)%nat eqn:Hm; [|by apply IH].
    assert (m0 ≠ []) as Hne by (intros ->; simpl in Hm; discriminate).
    pose proof (assign_members_dict ("B" +:+ pretty k) m0 cs baskets Hne) as Hd.
    destruct (fold_left _ m0 (cs, baskets)) as [cs' baskets'] eqn:Hfold.
    simpl in Hd. subst baskets'.
    assert (baskets !! ("B" +:+ pretty k) = None) as Hfresh.
    { destruct (baskets !! ("B" +:+ pretty k)) eqn:H; [|done].
      destruct (Hold _ (mk_is_Some _ _ H)) as (j & Hj & Heq).
      apply basket_id_inj in Heq. lia. }
    rewrite Hfresh. simpl.
    destruct (IH (k + 1) cs' (<[("B" +:+ pretty k) := m0]> baskets)) as (H1 & H2 & H3 & H4).
    { intros id [v Hv]. destruct (decide (id = "B" +:+ pretty k)) as [->|Hid].
      - exists k. split; [lia|done].
      - rewrite lookup_insert_ne in Hv by done.
        destruct (Hold id (mk_is_Some _ _ Hv)) as (j & Hj & ->). exists j. split; [lia|done]. }
    split; [|split; [|split]].
    + intros [|n] K m Hn; simpl in Hn.
      * injection Hn as -> ->. replace (k + Z.of_nat 0) with k by lia.
        rewrite H3; [apply lookup_insert_eq|]. rewrite lookup_insert_eq. by eexists.
      * replace (k + Z.of_nat (S n)) with (k + 1 + Z.of_nat n) by lia. by eapply H1.
    + intros id Hid. destruct (H2 id Hid) as [Hin|(n & Hn & ->)].
      * destruct (decide (id = "B" +:+ pretty k)) as [->|Hne'].
        -- right. exists 0%nat. split; [simpl; lia|]. f_equal. f_equal. lia.
        -- left. by rewrite lookup_insert_ne in Hin.
      * right. exists (S n). split; [simpl; lia|]. f_equal. f_equal. lia.
    + intros id Hid. rewrite H3.
      * rewrite lookup_insert_ne; [done|]. intros <-. rewrite Hfresh in Hid.
        by destruct Hid.
      * destruct (decide (id = "B" +:+ pretty k)) as [->|Hne'].
        -- rewrite lookup_insert_eq. by eexists.
        -- by rewrite lookup_insert_ne.
    + rewrite H4, map_size_insert_None by done. simpl. lia.
Qed.



(** ** Slots: overlap and printing *)

Lemma time_lt_irrefl_pair (x y : time) :
  TimeSlot.time_lt x y = true → TimeSlot.time_lt y x = false.
Proof.
  unfold TimeSlot.time_lt. destruct x as [h m], y as [h' m']. simpl.
  intros H. apply orb_true_iff in H as [H|[H1 H2]%andb_true_iff].
  - apply Z.ltb_lt in H. apply orb_false_iff. split; [apply Z.ltb_ge; lia|].
    apply andb_false_iff. left. apply Z.eqb_neq. lia.
  - apply Z.eqb_eq in H1. apply Z.ltb_lt in H2. apply orb_false_iff.
    split; [apply Z.ltb_ge; lia|]. apply andb_false_iff. right. apply Z.ltb_ge. lia.
Qed.

(** X12. [overlaps] is symmetric, gives the same answer on slots that are
    equal under [__eq__], and holds between equal slots that start before
    they end: an exact-match conflict is an overlap. *)
Theorem overlaps_properties (a b : TimeSlot.t) :
  TimeSlot.overlaps a b = TimeSlot.overlaps b a
  ∧ (∀ a', TimeSlot.eqb a a' = true → TimeSlot.overlaps a b = TimeSlot.overlaps a' b)
  ∧ (TimeSlot.eqb a b = true →
     TimeSlot.time_lt (TimeSlot.start_time a) (TimeSlot.end_time a) = true →
     TimeSlot.overlaps a b = true).
Proof.
  split; [|split].
  - unfold TimeSlot.overlaps.
    destruct (decide (TimeSlot.day a = TimeSlot.day b)) as [Hd|Hd].
    + rewrite !bool_decide_eq_true_2 by done. simpl. apply andb_comm.
    + rewrite !bool_decide_eq_false_2 by done. done.
  - intros a' (Hd & Hs & He)%TimeSlot_eqb_spec. unfold TimeSlot.overlaps.
    by rewrite Hd, Hs, He.
  - intros (Hd & Hs & He)%TimeSlot_eqb_spec Hlt. unfold TimeSlot.overlaps.
    rewrite bool_decide_eq_true_2 by done. simpl. rewrite <- Hs, <- He.
    by rewrite Hlt.
Qed.

Lemma overlaps_properties_witness :
  (TimeSlot.eqb first_lecture_slot first_lecture_slot = true
   ∧ TimeSlot.time_lt (TimeSlot.start_time first_lecture_slot)
       (TimeSlot.end_time first_lecture_slot) = true)
  ∧ TimeSlot.overlaps first_lecture_slot first_lecture_slot = true.
Proof.
  split; [by split|].
  exact (proj2 (proj2 (overlaps_properties first_lecture_slot first_lecture_slot))
           eq_refl eq_refl).
Defined.

(** X13. The catalog: [_generate_time_slots] yields 70 slots; no two of
    them, at different positions, are equal under [__eq__]; two
    slots of the same duration overlap only if they are equal, so within
    one session type an exact match is the only way to overlap; 20 slots
    are filed for lectures, 30 for tutorials and 20 for practicals. *)
Theorem catalog_properties :
  length _generate_time_slots = 70%nat
  ∧ (∀ i j a b, _generate_time_slots !! i = Some a → _generate_time_slots !! j = Some b →
       TimeSlot.eqb a b = true → i = j)
  ∧ (∀ a b, a ∈ _generate_time_slots → b ∈ _generate_time_slots →
       (TimeSlot.duration_hours a == TimeSlot.duration_hours b)%Q →
       TimeSlot.overlaps a b = true → TimeSlot.eqb a b = true)
  ∧ length (od_get Qeq_bool (group_slots _generate_time_slots) (required LECTURE)) = 20%nat
  ∧ length (od_get Qeq_bool (group_slots _generate_time_slots) (required TUTORIAL)) = 30%nat
  ∧ length (od_get Qeq_bool (group_slots _generate_time_slots) (required PRACTICAL))
    = 20%nat.
Proof.
  split; [done|]. split; [|split; [|by vm_compute]].
  - assert (catalog_distinct = true) as H by (by vm_compute).
    intros i j a b Hi Hj Hab. unfold catalog_distinct in H.
    assert (In (i, a) (imap (fun i a => (i, a)) _generate_time_slots)) as Hia.
    { apply list_elem_of_In, list_elem_of_lookup.
      exists i. by rewrite list_lookup_imap, Hi. }
    assert (In (j, b) (imap (fun j b => (j, b)) _generate_time_slots)) as Hjb.
    { apply list_elem_of_In, list_elem_of_lookup.
      exists j. by rewrite list_lookup_imap, Hj. }
    pose proof (proj1 (forallb_forall _ _) H (i, a) Hia) as H1. cbn beta iota in H1.
    pose proof (proj1 (forallb_forall _ _) H1 (j, b) Hjb) as H2. cbn beta iota in H2.
    rewrite Hab in H2. by apply Nat.eqb_eq.
  - assert (catalog_same_duration_apart = true) as H by (by vm_compute).
    intros a b Ha Hb Hq Ho. unfold catalog_same_duration_apart in H.
    pose proof (proj1 (forallb_forall _ _) H a (proj1 (list_elem_of_In _ _) Ha)) as H1.
    cbn beta in H1.
    pose proof (proj1 (forallb_forall _ _) H1 b (proj1 (list_elem_of_In _ _) Hb)) as H2.
    cbn beta in H2. apply Qeq_bool_iff in Hq. by rewrite Hq, Ho in H2.
Qed.

Lemma catalog_properties_witness :
  first_lecture_slot ∈ _generate_time_slots
  ∧ TimeSlot.overlaps first_lecture_slot first_lecture_slot = true
  ∧ TimeSlot.eqb first_lecture_slot first_lecture_slot = true.
Proof.
  assert (first_lecture_slot ∈ _generate_time_slots) as Hin
    by (vm_compute; apply list_elem_of_here).
  assert (TimeSlot.overlaps first_lecture_slot first_lecture_slot = true) as Hov
    by reflexivity.
  split; [exact Hin|split; [exact Hov|]].
  exact (proj1 (proj2 (proj2 catalog_properties)) _ _ Hin Hin (Qeq_refl _) Hov).
Defined.

Lemma string_app_nil_l (s : string) : "" +:+ s = s.
Proof. reflexivity. Qed.

Lemma string_length_app (s t : string) :
  String.length (s +:+ t) = (String.length s + String.length t)%nat.
Proof. induction s as [|c s IH]; simpl; [done|]. by rewrite IH. Qed.

Lemma string_app_inj_l (s1 t1 s2 t2 : string) :
  String.length s1 = String.length t1 → s1 +:+ s2 = t1 +:+ t2 → s1 = t1 ∧ s2 = t2.
Proof.
  revert t1. induction s1 as [|c s1 IH]; intros [|c' t1]; simpl; try done.
  intros [= Hlen] [= -> H]. destruct (IH t1 Hlen H) as [-> ->]. done.
Qed.

Lemma string_app_inj_r (s1 t1 s2 t2 : string) :
  String.length s2 = String.length t2 → s1 +:+ s2 = t1 +:+ t2 → s1 = t1 ∧ s2 = t2.
Proof.
  intros Hlen H. apply string_app_inj_l; [|done].
  apply (f_equal String.length) in H. rewrite !string_length_app in H. lia.
Qed.

Lemma pad2_table : pad2_table_ok = true.
Proof. by vm_compute. Qed.

Lemma in_minutes (n : Z) : 0 ≤ n < 60 → In n (map Z.of_nat (seq 0 60)).
Proof.
  intros H. apply in_map_iff. exists (Z.to_nat n). split; [lia|].
  apply in_seq. lia.
Qed.

Lemma pad2_length (n : Z) : 0 ≤ n < 60 → String.length (pad2 n) = 2%nat.
Proof.
  intros Hn. pose proof pad2_table as H. unfold pad2_table_ok in H. cbv zeta in H.
  pose proof (proj1 (forallb_forall _ _) H n (in_minutes n Hn)) as H1. cbn beta in H1.
  apply andb_true_iff in H1 as [H1 _]. by apply bool_decide_eq_true in H1.
Qed.

Lemma pad2_inj (a b : Z) : 0 ≤ a < 60 → 0 ≤ b < 60 → pad2 a = pad2 b → a = b.
Proof.
  intros Ha Hb Heq. pose proof pad2_table as H. unfold pad2_table_ok in H. cbv zeta in H.
  pose proof (proj1 (forallb_forall _ _) H a (in_minutes a Ha)) as H1. cbn beta in H1.
  apply andb_true_iff in H1 as [_ H1].
  pose proof (proj1 (forallb_forall _ _) H1 b (in_minutes b Hb)) as H2. cbn beta in H2.
  rewrite Heq, String.eqb_refl in H2. simpl in H2. by apply Z.eqb_eq.
Qed.

Lemma strftime_length (t : time) : valid_time t → String.length (strftime_HM t) = 5%nat.
Proof.
  intros [Hh Hm]. unfold strftime_HM.
  rewrite !string_length_app, !pad2_length by lia. done.
Qed.

Lemma strftime_inj (t t' : time) :
  valid_time t → valid_time t' → strftime_HM t = strftime_HM t' → t = t'.
Proof.
  intros [Hh Hm] [Hh' Hm'] H. unfold strftime_HM in H.
  apply string_app_inj_l in H; [|by rewrite !pad2_length by lia].
  destruct H as [H1 H2]. injection H2 as H2. rewrite !string_app_nil_l in H2.
  apply pad2_inj in H1, H2; try lia.
  destruct t, t'; simpl in *. by subst.
Qed.

Lemma slot_str_inj (a b : TimeSlot.t) :
  valid_time (TimeSlot.start_time a) → valid_time (TimeSlot.end_time a) →
  valid_time (TimeSlot.start_time b) → valid_time (TimeSlot.end_time b) →
  (TimeSlot_str a = TimeSlot_str b ↔ TimeSlot.eqb a b = true).
Proof.
  intros Hsa Hea Hsb Heb. rewrite TimeSlot_eqb_spec. unfold TimeSlot_str. split.
  - intros H. apply string_app_inj_r in H.
    + destruct H as [Hd H]. injection H as H. rewrite !string_app_nil_l in H.
      apply string_app_inj_l in H; [|by rewrite !strftime_length].
      destruct H as [Hs H].
      injection H as He. rewrite !string_app_nil_l in He.
      apply strftime_inj in Hs, He; done.
    + by rewrite !string_length_app, !strftime_length.
  - by intros (-> & -> & ->).
Qed.

Lemma catalog_valid_times (a : TimeSlot.t) :
  a ∈ _generate_time_slots →
  valid_time (TimeSlot.start_time a) ∧ valid_time (TimeSlot.end_time a).
Proof.
  intros Hin. apply list_elem_of_In in Hin.
  assert (forallb slot_clock_ok _generate_time_slots = true) as Hall by (by vm_compute).
  pose proof (proj1 (forallb_forall _ _) Hall a Hin) as H.
  unfold slot_clock_ok in H. apply andb_true_iff in H as [H1 H2].
  apply bool_decide_eq_true in H1, H2. done.
Qed.

(** X14. Printing a slot of the program: two slots of the catalog of
    [_generate_time_slots], and so the slots of any two sessions placed
    in a run, print the same under [__str__] exactly when they are equal
    under [__eq__]. *)
Theorem catalog_str_faithful :
  (∀ a b, a ∈ _generate_time_slots → b ∈ _generate_time_slots →
     (TimeSlot_str a = TimeSlot_str b ↔ TimeSlot.eqb a b = true))
  ∧ (∀ cs rs x y, x ∈ schedule (run cs rs) → y ∈ schedule (run cs rs) →
       (TimeSlot_str (ScheduledSession.time_slot x)
        = TimeSlot_str (ScheduledSession.time_slot y)
        ↔ TimeSlot.eqb (ScheduledSession.time_slot x)
            (ScheduledSession.time_slot y) = true)).
Proof.
  assert (∀ a b, a ∈ _generate_time_slots → b ∈ _generate_time_slots →
            (TimeSlot_str a = TimeSlot_str b ↔ TimeSlot.eqb a b = true)) as Hcat.
  { intros a b [Ha1 Ha2]%catalog_valid_times [Hb1 Hb2]%catalog_valid_times.
    by apply slot_str_inj. }
  split; [exact Hcat|].
  intros cs rs x y Hx%placed_in_catalog Hy%placed_in_catalog. by apply Hcat.
Qed.

Lemma catalog_str_faithful_witness :
  (first_lecture_slot ∈ _generate_time_slots
   ∧ first_practical_slot ∈ _generate_time_slots)
  ∧ (TimeSlot_str first_lecture_slot = TimeSlot_str first_practical_slot
     ↔ TimeSlot.eqb first_lecture_slot first_practical_slot = true).
Proof.
  assert (first_lecture_slot ∈ _generate_time_slots) as H1
    by (vm_compute; apply list_elem_of_here).
  assert (first_practical_slot ∈ _generate_time_slots) as H2
    by (vm_compute; repeat constructor).
  split; [done|].
  exact (proj1 catalog_str_faithful first_lecture_slot first_practical_slot H1 H2).
Defined.

(** ** Student keys *)

(** X15. Cohorts: two courses of one branch without a section (None or
    the empty string) have the same student key exactly when they are in
    the same year, (semester + 1) // 2, so semesters 2k-1 and 2k share a
    cohort; two courses of one branch with the same non-empty section
    have the same key exactly when they are in the same semester. *)
Theorem cohort_keys (c c' : Course.t) :
  Course.branch c = Course.branch c' →
  (Course.section_truthy c = None → Course.section_truthy c' = None →
   (Course.get_student_key c = Course.get_student_key c'
    ↔ (Course.semester c + 1) / 2 = (Course.semester c' + 1) / 2))
  ∧ (∀ sec, Course.section_truthy c = Some sec → Course.section_truthy c' = Some sec →
       (Course.get_student_key c = Course.get_student_key c'
        ↔ Course.semester c = Course.semester c')).
Proof.
  intros Hb. unfold Course.get_student_key. split.
  - intros -> ->. cbv zeta. rewrite Hb. split.
    + intros H. apply (inj (String.append _)) in H. apply (inj (String.append _)) in H.
      by apply (inj pretty) in H.
    + by intros ->.
  - intros sec -> ->. rewrite Hb. split.
    + intros H. do 4 apply (inj (String.append _)) in H. by apply (inj pretty) in H.
    + by intros ->.
Qed.

Lemma cohort_keys_witness :
  Course.branch ex_programming = Course.branch ex_calculus
  ∧ Course.get_student_key ex_programming = Course.get_student_key ex_calculus.
Proof.
  split; [reflexivity|].
  apply (proj1 (cohort_keys ex_programming ex_calculus eq_refl) eq_refl eq_refl).
  reflexivity.
Defined.

(** ** What [sorted] guarantees *)

Section SortedOrder.
Context {A : Type} (lt : A → A → bool).
Hypothesis lt_asym : ∀ a b, lt a b = true → lt b a = false.
Hypothesis le_trans : ∀ a b c, lt b a = false → lt c b = false → lt c a = false.

Lemma sorted_insert_ordered (x : A) (l : list A) :
  StronglySorted (not_before lt) l → StronglySorted (not_before lt) (sorted_insert lt x l).
Proof.
  induction 1 as [|y l Hl IH Hy]; simpl.
  - repeat constructor.
  - destruct (lt y x) eqn:Hyx.
    + constructor; [done|]. rewrite (sorted_insert_perm lt x l).
      constructor; [by apply lt_asym|done].
    + constructor; [by constructor|].
      constructor; [done|].
      eapply Forall_impl; [exact Hy|]. intros z Hz. by eapply le_trans.
Qed.

Lemma sorted_ordered (l : list A) : StronglySorted (not_before lt) (sorted lt l).
Proof.
  induction l as [|x l IH]; simpl; [constructor|]. by apply sorted_insert_ordered.
Qed.

End SortedOrder.

Section SortedStable.
Context {A : Type} (lt : A → A → bool) (P : A → Prop) `{∀ x, Decision (P x)}.
Hypothesis lt_apart : ∀ x y, lt y x = true → P x → ¬ P y.

Lemma sorted_insert_stable (x : A) (l : list A) :
  filter P (sorted_insert lt x l) = filter P (x :: l).
Proof.
  induction l as [|y l IH]; simpl; [done|].
  destruct (lt y x) eqn:Hyx; [|done].
  rewrite filter_cons, IH, !filter_cons.
  destruct (decide (P y)) as [Hy|Hy]; [|done].
  destruct (decide (P x)) as [Hx|Hx]; [|done].
  by destruct (lt_apart x y Hyx Hx).
Qed.

Lemma sorted_stable (l : list A) : filter P (sorted lt l) = filter P l.
Proof.
  induction l as [|x l IH]; simpl; [done|].
  by rewrite sorted_insert_stable, !filter_cons, IH.
Qed.

End SortedStable.

(** X16. Ties between rooms: in [big_rooms] and in [regular_rooms], rooms
    of equal capacity keep the order they have in the input, so among
    equally large rooms the one listed first is tried first. *)
Theorem room_ties_keep_input_order (rs : list Room.t) (k : Z) :
  filter (λ r, Room.capacity r = k) (big_rooms_of rs)
  = filter (λ r, Room.capacity r = k) (filter (λ r, 100 ≤ Room.capacity r) rs)
  ∧ filter (λ r, Room.capacity r = k) (regular_rooms_of rs)
    = filter (λ r, Room.capacity r = k)
        (filter (λ r, Room.capacity r < 100 ∧ ¬ startswith_L r) rs).
Proof.
  split; apply sorted_stable; intros x y Hlt Hx Hy;
    unfold capacity_desc in Hlt; apply Z.ltb_lt in Hlt; lia.
Qed.

Lemma string_lt_gt (x y : string) : String.compare x y = Lt ↔ String.compare y x = Gt.
Proof.
  rewrite (String.compare_antisym x y). by destruct (String.compare y x).
Qed.

Lemma string_compare_refl (x : string) : String.compare x x = Eq.
Proof.
  destruct (String.compare x x) eqn:H; [done|..].
  - pose proof H as H'. apply string_lt_gt in H'. congruence.
  - pose proof H as H'. apply string_lt_gt in H'. congruence.
Qed.

Lemma string_lt_trans (x y z : string) :
  String.compare x y = Lt → String.compare y z = Lt → String.compare x z = Lt.
Proof.
  intros Hxy Hyz.
  assert (String.le x z) as Hle.
  { transitivity y; unfold String.le, String.leb; [by rewrite Hxy|by rewrite Hyz]. }
  unfold String.le, String.leb in Hle.
  destruct (String.compare x z) eqn:Hxz; [|done|done].
  apply String.compare_eq_iff in Hxz as ->.
  apply string_lt_gt in Hxy. congruence.
Qed.

Lemma course_key_lt_spec (a b : Course.t) :
  course_key_lt a b = true ↔
  String.compare (Course.semester_half a) (Course.semester_half b) = Lt
  ∨ (Course.semester_half a = Course.semester_half b
     ∧ (Course.semester a < Course.semester b
        ∨ (Course.semester a = Course.semester b
           ∧ (Course.practicals b < Course.practicals a
              ∨ (Course.practicals a = Course.practicals b
                 ∧ Course.num_students b < Course.num_students a))))).
Proof.
  unfold course_key_lt.
  destruct (String.compare _ _) eqn:Hc.
  - apply String.compare_eq_iff in Hc.
    destruct (Z.eqb_spec (Course.semester a) (Course.semester b));
      [destruct (Z.eqb_spec (- Course.practicals a) (- Course.practicals b))|];
      rewrite Z.ltb_lt; split;
      [intros; right; split; [done|lia]|intros [?|[_ ?]]; [done|lia]
      |intros; right; split; [done|lia]|intros [?|[_ ?]]; [done|lia]
      |intros; right; split; [done|lia]|intros [?|[_ ?]]; [done|lia]].
  - split; [by left|done].
  - split; [done|]. intros [?|[Heq _]]; [done|].
    rewrite Heq, string_compare_refl in Hc. done.
Qed.

Lemma course_key_lt_asym (a b : Course.t) :
  course_key_lt a b = true → course_key_lt b a = false.
Proof.
  intros Hab. destruct (course_key_lt b a) eqn:Hba; [|done].
  apply course_key_lt_spec in Hab, Hba.
  destruct Hab as [Hab|[Hh Hab]], Hba as [Hba|[Hh' Hba]].
  - apply string_lt_gt in Hab. congruence.
  - rewrite Hh', string_compare_refl in Hab. done.
  - rewrite Hh, string_compare_refl in Hba. done.
  - lia.
Qed.

Lemma course_key_le_trans (a b c : Course.t) :
  course_key_lt b a = false → course_key_lt c b = false → course_key_lt c a = false.
Proof.
  intros Hba Hcb. destruct (course_key_lt c a) eqn:Hca; [|done].
  apply course_key_lt_spec in Hca.
  assert (¬ course_key_lt b a = true) as Hba' by (by rewrite Hba).
  assert (¬ course_key_lt c b = true) as Hcb' by (by rewrite Hcb).
  rewrite course_key_lt_spec in Hba', Hcb'.
  destruct (String.compare (Course.semester_half b) (Course.semester_half a)) eqn:Hb_a.
  - apply String.compare_eq_iff in Hb_a.
    destruct Hca as [Hca|[Hh Hca]].
    + exfalso. apply Hcb'. left. by rewrite Hb_a.
    + exfalso. assert (Course.semester_half c = Course.semester_half b) as Hcb_eq
        by congruence.
      assert (¬ (Course.semester b < Course.semester a
                 ∨ Course.semester b = Course.semester a
                   ∧ (Course.practicals a < Course.practicals b
                      ∨ Course.practicals b = Course.practicals a
                        ∧ Course.num_students a < Course.num_students b))) as H1
        by (intros H; apply Hba'; right; by split).
      assert (¬ (Course.semester c < Course.semester b
                 ∨ Course.semester c = Course.semester b
                   ∧ (Course.practicals b < Course.practicals c
                      ∨ Course.practicals c = Course.practicals b
                        ∧ Course.num_students b < Course.num_students c))) as H2
        by (intros H; apply Hcb'; right; by split).
      lia.
  - exfalso. apply Hba'. by left.
  - apply string_lt_gt in Hb_a.
    destruct Hca as [Hca|[Hh Hca]].
    + exfalso. apply Hcb'. left. by eapply string_lt_trans.
    + exfalso. apply Hcb'. left. by rewrite Hh.
Qed.

(** X17. Processing order: the list [generate_timetable] iterates over
    is a rearrangement of the courses in which no course comes before one
    with a smaller key (semester_half, semester, -practicals,
    -num_students), and courses with equal keys keep their input order. *)
Theorem courses_processing_order (cs : list Course.t) :
  sorted course_key_lt cs ≡ₚ cs
  ∧ StronglySorted (not_before course_key_lt) (sorted course_key_lt cs)
  ∧ (∀ k, filter (λ c, course_key c = k) (sorted course_key_lt cs)
          = filter (λ c, course_key c = k) cs)
  ∧ (∀ a b, course_key_lt a b = true ↔
       String.compare (Course.semester_half a) (Course.semester_half b) = Lt
       ∨ (Course.semester_half a = Course.semester_half b
          ∧ (Course.semester a < Course.semester b
             ∨ (Course.semester a = Course.semester b
                ∧ (Course.practicals b < Course.practicals a
                   ∨ (Course.practicals a = Course.practicals b
                      ∧ Course.num_students b < Course.num_students a)))))).
Proof.
  split; [apply sorted_perm|]. split; [|split; [|apply course_key_lt_spec]].
  - apply sorted_ordered; [apply course_key_lt_asym|apply course_key_le_trans].
  - intros k. apply sorted_stable. intros x y Hlt Hx Hy.
    apply course_key_lt_spec in Hlt. unfold course_key in Hx, Hy. subst k.
    injection Hy as Hh Hs Hp Hn.
    destruct Hlt as [Hlt|[_ Hlt]]; [|lia].
    rewrite Hh, string_compare_refl in Hlt. done.
Qed.

(** ** Grouping by student key *)

Section OrderedDictString.
Context {V : Type}.
Implicit Types d : list (string * list V).

Lemma ods_get_append d k v k' :
  od_get String.eqb (od_append String.eqb d k v) k'
  = if decide (k = k') then od_get String.eqb d k' ++ [v] else od_get String.eqb d k'.
Proof.
  induction d as [|[k0 vs] d IH]; simpl.
  - destruct (String.eqb_spec k k'); case_decide; done.
  - destruct (String.eqb_spec k0 k) as [->|Hk0]; simpl.
    + destruct (String.eqb_spec k k'); case_decide; done.
    + destruct (String.eqb_spec k0 k') as [->|Hk0']; [|apply IH].
      by rewrite decide_False by congruence.
Qed.

Lemma ods_keys_append d k v :
  (od_append String.eqb d k v).*1 = if decide (k ∈ d.*1) then d.*1 else d.*1 ++ [k].
Proof.
  induction d as [|[k0 vs] d IH]; [done|].
  cbn [od_append]. destruct (String.eqb_spec k0 k) as [->|Hk0].
  - rewrite !fmap_cons. cbn [fst].
    destruct (decide (k ∈ k :: d.*1)) as [H|H]; [done|]. exfalso. apply H. left.
  - rewrite !fmap_cons, IH. cbn [fst]. clear IH.
    destruct (decide (k ∈ d.*1)) as [Hin|Hin];
      destruct (decide (k ∈ k0 :: d.*1)) as [H|H]; try done.
    + exfalso. apply H. by right.
    + apply elem_of_cons in H as [?|?]; congruence.
Qed.

Lemma ods_entry_get d k l :
  NoDup d.*1 → (k, l) ∈ d → od_get String.eqb d k = l.
Proof.
  induction d as [|[k0 vs] d IH]; intros Hnd Hin; [by apply elem_of_nil in Hin|].
  rewrite fmap_cons in Hnd. apply NoDup_cons in Hnd as [Hk0 Hnd]. simpl.
  apply elem_of_cons in Hin as [[= -> ->]|Hin].
  - by rewrite String.eqb_refl.
  - destruct (String.eqb_spec k0 k) as [->|Hne]; [|by apply IH].
    exfalso. apply Hk0. apply list_elem_of_fmap. by exists (k, l).
Qed.

Lemma ods_get_entry d k :
  od_get String.eqb d k ≠ [] → (k, od_get String.eqb d k) ∈ d.
Proof.
  induction d as [|[k0 vs] d IH]; simpl; [done|].
  destruct (String.eqb_spec k0 k) as [->|Hne]; [by left|].
  intros H. right. by apply IH.
Qed.

End OrderedDictString.

Section Grouping.
Context {X V : Type} (f : X → string) (g : X → V).

Lemma group_get (l : list X) (d : list (string * list V)) (k : string) :
  od_get String.eqb (fold_left (fun d x => od_append String.eqb d (f x) (g x)) l d) k
  = od_get String.eqb d k ++ (g <$> filter (λ x, f x = k) l).
Proof.
  revert d. induction l as [|x l IH]; intros d; simpl.
  - by rewrite app_nil_r.
  - rewrite IH, ods_get_append, filter_cons.
    destruct (decide (f x = k)); [|done]. by rewrite fmap_cons, <- app_assoc.
Qed.

Lemma group_keys (l : list X) (d : list (string * list V)) :
  (NoDup d.*1 → NoDup (fold_left (fun d x => od_append String.eqb d (f x) (g x)) l d).*1)
  ∧ (∀ k, k ∈ (fold_left (fun d x => od_append String.eqb d (f x) (g x)) l d).*1
          ↔ k ∈ d.*1 ∨ ∃ x, x ∈ l ∧ f x = k).
Proof.
  revert d. induction l as [|x l IH]; intros d; simpl.
  - split; [done|]. intros k. split; [by left|].
    intros [?|(x & Hx & _)]; [done|by apply elem_of_nil in Hx].
  - destruct (IH (od_append String.eqb d (f x) (g x))) as [IH1 IH2]. split.
    + intros Hnd. apply IH1. rewrite ods_keys_append. case_decide as Hin; [done|].
      apply NoDup_app. split; [done|]. split; [|apply NoDup_singleton].
      intros k Hk ->%list_elem_of_singleton. done.
    + intros k. rewrite IH2, ods_keys_append. split.
      * intros [Hk|(y & Hy & <-)].
        -- case_decide; [by left|].
           apply elem_of_app in Hk as [?| ->%list_elem_of_singleton]; [by left|].
           right. exists x. split; [left|done].
        -- right. exists y. split; [by right|done].
      * intros [Hk|(y & Hy & Hfy)].
        -- left. case_decide; [done|]. apply elem_of_app. by left.
        -- apply elem_of_cons in Hy as [Hy|Hy].
           ++ subst. left. case_decide; [done|]. apply elem_of_app. right.
              by apply list_elem_of_singleton.
           ++ right. by exists y.
Qed.

Lemma group_nonempty (l : list X) (d : list (string * list V)) :
  (∀ k vs, (k, vs) ∈ d → vs ≠ []) →
  ∀ k vs, (k, vs) ∈ fold_left (fun d x => od_append String.eqb d (f x) (g x)) l d →
          vs ≠ [].
Proof.
  revert d. induction l as [|x l IH]; intros d Hd; simpl; [done|].
  apply IH. clear IH. intros k vs.
  induction d as [|[k0 vs0] d IHd]; simpl.
  - intros [= -> ->]%list_elem_of_singleton. done.
  - destruct (String.eqb k0 (f x)).
    + intros [[= -> ->]|Hin]%elem_of_cons.
      * intros Heq. by apply app_eq_nil in Heq as [_ ?].
      * apply (Hd k vs). by right.
    + intros [[= -> ->]|Hin]%elem_of_cons.
      * apply (Hd k0 vs0). left.
      * apply IHd; [|done]. intros k' vs' H'. apply (Hd k' vs'). by right.
Qed.

End Grouping.

Lemma entry_key_lt_spec (a b : StudentEntry.t) :
  entry_key_lt a b = true ↔
  day_rank (StudentEntry.day a) < day_rank (StudentEntry.day b)
  ∨ (day_rank (StudentEntry.day a) = day_rank (StudentEntry.day b)
     ∧ String.compare (StudentEntry.time a) (StudentEntry.time b) = Lt).
Proof.
  unfold entry_key_lt, String.ltb.
  destruct (Z.eqb_spec (day_rank (StudentEntry.day a)) (day_rank (StudentEntry.day b))).
  - destruct (String.compare _ _); split; try done.
    + intros [?|[_ ?]]; [lia|done].
    + intros _. by right.
    + intros [?|[_ ?]]; [lia|done].
  - rewrite Z.ltb_lt. split; [by left|]. intros [?|[? _]]; done.
Qed.

Lemma entry_key_lt_asym (a b : StudentEntry.t) :
  entry_key_lt a b = true → entry_key_lt b a = false.
Proof.
  intros Hab. destruct (entry_key_lt b a) eqn:Hba; [|done].
  apply entry_key_lt_spec in Hab, Hba.
  destruct Hab as [Hab|[Hr Hab]], Hba as [Hba|[Hr' Hba]]; try lia.
  apply string_lt_gt in Hab. congruence.
Qed.

Lemma entry_key_le_trans (a b c : StudentEntry.t) :
  entry_key_lt b a = false → entry_key_lt c b = false → entry_key_lt c a = false.
Proof.
  intros Hba Hcb. destruct (entry_key_lt c a) eqn:Hca; [|done].
  apply entry_key_lt_spec in Hca.
  assert (¬ entry_key_lt b a = true) as Hba' by (by rewrite Hba).
  assert (¬ entry_key_lt c b = true) as Hcb' by (by rewrite Hcb).
  rewrite entry_key_lt_spec in Hba', Hcb'. exfalso.
  destruct (Z.lt_trichotomy (day_rank (StudentEntry.day b)) (day_rank (StudentEntry.day a)))
    as [Hlt|[Heq|Hgt]].
  - apply Hba'. by left.
  - destruct Hca as [Hca|[Hr Hca]]; [apply Hcb'; left; lia|].
    destruct (String.compare (StudentEntry.time b) (StudentEntry.time a)) eqn:Hb_a.
    + apply String.compare_eq_iff in Hb_a. apply Hcb'. right. split; [lia|].
      by rewrite Hb_a.
    + apply Hba'. by right.
    + apply string_lt_gt in Hb_a. apply Hcb'. right. split; [lia|].
      by eapply string_lt_trans.
  - apply Hcb'. left. destruct Hca as [Hca|[Hr Hca]]; lia.
Qed.

Lemma sorted_nil_inv {A : Type} (lt : A → A → bool) (l : list A) :
  sorted lt l = [] → l = [].
Proof.
  intros H. apply Permutation_nil_r. rewrite <- H. symmetry. apply sorted_perm.
Qed.

Lemma od_get_map_sorted (d : list (string * list StudentEntry.t)) (key : string) :
  od_get String.eqb (map (fun '(key, entries) => (key, sorted entry_key_lt entries)) d) key
  = sorted entry_key_lt (od_get String.eqb d key).
Proof.
  induction d as [|[k l] d IH]; simpl; [done|]. by destruct (String.eqb k key).
Qed.

Lemma keys_map_sorted (d : list (string * list StudentEntry.t)) :
  (map (fun '(key, entries) => (key, sorted entry_key_lt entries)) d).*1 = d.*1.
Proof. induction d as [|[k l] d IH]; [done|]. simpl. f_equal. exact IH. Qed.

Lemma student_group_eq (s : Scheduler) (key : string) :
  student_group s key
  = sorted entry_key_lt
      (student_entry
       <$> filter (λ x, Course.get_student_key (ScheduledSession.course x) = key)
             (schedule s)).
Proof.
  unfold student_group, export_by_student_group, organize.
  by rewrite od_get_map_sorted, group_get.
Qed.

(** X18. Export by student group: the group of a student key holds one
    entry for each scheduled session whose course has that key and
    nothing else; the group is ordered by weekday (unknown days last)
    and then by the time string; a key is present exactly when some
    scheduled session has it, each key once, and no group is empty. *)
Theorem student_groups (s : Scheduler) (key : string) :
  student_group s key
  ≡ₚ student_entry
     <$> filter (λ x, Course.get_student_key (ScheduledSession.course x) = key)
           (schedule s)
  ∧ StronglySorted (not_before entry_key_lt) (student_group s key)
  ∧ (key ∈ (export_by_student_group s).*1
     ↔ ∃ x, x ∈ schedule s ∧ Course.get_student_key (ScheduledSession.course x) = key)
  ∧ NoDup (export_by_student_group s).*1
  ∧ (∀ entries, (key, entries) ∈ export_by_student_group s →
       entries = student_group s key ∧ entries ≠ []).
Proof.
  pose proof (group_keys (λ x, Course.get_student_key (ScheduledSession.course x))
                student_entry (schedule s) []) as [Hnd Hkeys].
  fold (organize (schedule s)) in Hnd, Hkeys.
  assert (NoDup (export_by_student_group s).*1) as Hnd'.
  { unfold export_by_student_group. rewrite keys_map_sorted. apply Hnd. constructor. }
  split; [rewrite student_group_eq; apply sorted_perm|].
  split; [rewrite student_group_eq;
          apply sorted_ordered; [apply entry_key_lt_asym|apply entry_key_le_trans]|].
  split; [|split; [done|]].
  - unfold export_by_student_group. rewrite keys_map_sorted, Hkeys. split.
    + intros [H|H]; [by apply elem_of_nil in H|done].
    + by right.
  - intros entries Hin.
    pose proof (ods_entry_get _ _ _ Hnd' Hin) as Hget. split; [done|].
    unfold export_by_student_group in Hin.
    apply list_elem_of_fmap in Hin as ([k l] & [= -> ->] & Hl).
    intros Hnil%sorted_nil_inv. revert Hnil.
    apply (group_nonempty (λ x, Course.get_student_key (ScheduledSession.course x))
             student_entry (schedule s) [] ltac:(by intros ? ? ?%elem_of_nil) k l Hl).
Qed.

Lemma student_groups_witness :
  ("CSE_Year1", student_group (run ex_courses ex_rooms) "CSE_Year1")
    ∈ export_by_student_group (run ex_courses ex_rooms)
  ∧ student_group (run ex_courses ex_rooms) "CSE_Year1" ≠ [].
Proof.
  assert (("CSE_Year1", student_group (run ex_courses ex_rooms) "CSE_Year1")
            ∈ export_by_student_group (run ex_courses ex_rooms)) as H
    by (vm_compute; apply list_elem_of_here).
  split; [exact H|].
  exact (proj2 (proj2 (proj2 (proj2 (proj2 (student_groups _ _)))) _ H)).
Defined.

(** ** No collision on a student's page *)

Lemma no_two_cons {A : Type} (clash : A → A → Prop) (x : A) (l : list A) :
  no_two clash (x :: l) ↔
  (∀ y, y ∈ l → ¬ clash x y ∧ ¬ clash y x) ∧ no_two clash l.
Proof.
  split.
  - intros H. split.
    + intros y [j Hj]%list_elem_of_lookup_1. split.
      * apply (H 0%nat (S j)); [lia|done|done].
      * apply (H (S j) 0%nat); [lia|done|done].
    + intros i j a b Hij Hi Hj. by apply (H (S i) (S j)); [lia|..].
  - intros [Hx Hl] [|i] [|j] a b Hij Hi Hj; simpl in *; try done.
    + injection Hi as <-. apply Hx. by eapply list_elem_of_lookup_2.
    + injection Hj as <-. apply Hx. by eapply list_elem_of_lookup_2.
    + apply (Hl i j); [lia|done|done].
Qed.

Lemma no_two_perm {A : Type} (clash : A → A → Prop) (l l' : list A) :
  l ≡ₚ l' → no_two clash l → no_two clash l'.
Proof.
  induction 1 as [|x l l' Hp IH|x y l|l l' l'' _ IH1 _ IH2]; [done|..].
  - rewrite !no_two_cons. intros [Hx Hl]. split; [|by apply IH].
    intros y Hy. apply Hx. by rewrite Hp.
  - rewrite !no_two_cons. intros (Hy & Hx & Hl). split; [|split; [|done]].
    + intros z [->|Hz]%elem_of_cons.
      * split; apply (Hy x); left.
      * apply Hx, Hz.
    + intros z Hz. apply Hy. by right.
  - intros H. by apply IH2, IH1.
Qed.

Lemma no_two_filter {A : Type} (clash : A → A → Prop) (P : A → Prop)
    `{∀ x, Decision (P x)} (l : list A) :
  no_two clash l → no_two clash (filter P l).
Proof.
  induction l as [|x l IH]; [done|].
  rewrite no_two_cons. intros [Hx Hl]. rewrite filter_cons.
  destruct (decide (P x)); [|by apply IH].
  apply no_two_cons. split; [|by apply IH].
  intros y [_ Hy]%list_elem_of_filter. by apply Hx.
Qed.

Lemma no_two_fmap {A B : Type} (clash : A → A → Prop) (clash' : B → B → Prop)
    (f : A → B) (l : list A) :
  (∀ x y, x ∈ l → y ∈ l → clash' (f x) (f y) → clash x y) →
  no_two clash l → no_two clash' (f <$> l).
Proof.
  intros Hf Hl i j a b Hij Hi Hj Hc.
  rewrite list_lookup_fmap in Hi, Hj.
  destruct (l !! i) as [x|] eqn:Hx; [|done]. destruct (l !! j) as [y|] eqn:Hy; [|done].
  simpl in Hi, Hj. injection Hi as <-. injection Hj as <-.
  apply (Hl i j x y Hij Hx Hy). apply Hf; [..|done]; by eapply list_elem_of_lookup_2.
Qed.

Lemma catalog_clock : Forall (λ slot, slot_clock_ok slot = true) _generate_time_slots.
Proof.
  apply Forall_forall. intros slot Hin. apply list_elem_of_In in Hin.
  revert slot Hin. apply forallb_forall. by vm_compute.
Qed.

Lemma placed_clock (cs : list Course.t) (rs : list Room.t) (x : ScheduledSession.t) :
  x ∈ schedule (run cs rs) →
  valid_time (TimeSlot.start_time (ScheduledSession.time_slot x))
  ∧ valid_time (TimeSlot.end_time (ScheduledSession.time_slot x)).
Proof.
  intros Hin%placed_in_catalog.
  pose proof (proj1 (Forall_forall _ _) catalog_clock _ Hin) as H.
  unfold slot_clock_ok in H. apply andb_true_iff in H as [H1 H2].
  apply bool_decide_eq_true in H1, H2. done.
Qed.

(** X19. A student's page has no collision: in the export by student
    group of a run, no group holds two entries with the same
    semester_half, day and time. *)
Theorem student_page_no_collision (cs : list Course.t) (rs : list Room.t) (key : string) :
  no_two entry_clash (student_group (run cs rs) key).
Proof.
  rewrite student_group_eq.
  eapply no_two_perm; [symmetry; apply sorted_perm|].
  apply (no_two_fmap student_clash).
  - intros x y [Hkx Hx]%list_elem_of_filter [Hky Hy]%list_elem_of_filter (Hh & Hd & Ht).
    simpl in Hh, Hd, Ht. split; [congruence|]. split; [done|].
    destruct (placed_clock cs rs x Hx) as [Hsx Hex].
    destruct (placed_clock cs rs y Hy) as [Hsy Hey].
    apply string_app_inj_l in Ht; [|by rewrite !strftime_length].
    destruct Ht as [Hs He]. injection He as He. rewrite !string_app_nil_l in He.
    apply strftime_inj in Hs, He; try done.
    apply TimeSlot_eqb_spec. done.
  - apply no_two_filter. apply student_exclusive.
Qed.

(** ** The export's metadata *)

Lemma init_baskets (cs : list Course.t) (rs : list Room.t) :
  elective_baskets (__init__ cs rs) = (_detect_baskets cs).2.
Proof. unfold __init__. by destruct (_detect_baskets cs). Qed.

Lemma detect_baskets_size (cs : list Course.t) :
  size (_detect_baskets cs).2 = length (multi_groups cs).
Proof.
  destruct (assign_baskets_dict (elective_groups cs) 1 cs ∅) as (_ & _ & _ & H4).
  { intros id [v Hv]. by rewrite lookup_empty in Hv. }
  fold (multi_groups cs) in H4.
  change (assign_baskets (elective_groups cs) 1 cs ∅) with (_detect_baskets cs) in *.
  by rewrite H4, map_size_empty.
Qed.

Lemma run_same_setup (cs : list Course.t) (rs : list Room.t) :
  same_setup (__init__ cs rs) (run cs rs).
Proof.
  unfold run.
  by destruct (generate_timetable_steps (λ _, True) (__init__ cs rs)
                 (init_slots_fit cs rs)) as [_ H].
Qed.

(** X20. Metadata of [export_timetable] after a run: total_sessions is
    the number of rows of the exported schedule and the total that
    [generate_timetable] adds up; total_conflicts is the number of
    exported conflict lines; total_courses is the number of input
    courses; elective_baskets is the number of groups of more than one
    elective. *)
Theorem export_metadata (cs : list Course.t) (rs : list Room.t) :
  Metadata.total_sessions (Timetable.metadata (export_timetable (run cs rs)))
  = length (Timetable.schedule (export_timetable (run cs rs)))
  ∧ Z.of_nat (Metadata.total_sessions (Timetable.metadata (export_timetable (run cs rs))))
    = (generate_timetable (__init__ cs rs)).2
  ∧ Metadata.total_conflicts (Timetable.metadata (export_timetable (run cs rs)))
    = length (Timetable.conflicts (export_timetable (run cs rs)))
  ∧ Metadata.total_courses (Timetable.metadata (export_timetable (run cs rs)))
    = length cs
  ∧ Metadata.elective_baskets (Timetable.metadata (export_timetable (run cs rs)))
    = length (multi_groups cs).
Proof.
  destruct (run_same_setup cs rs) as (Hc & _ & _ & _ & _ & _ & _ & Hb). simpl.
  split; [by rewrite length_map|]. split; [|split; [done|split]].
  - pose proof (generate_timetable_count (__init__ cs rs)) as H.
    destruct (init_schedule cs rs) as (Hs & _). rewrite Hs in H. simpl in H.
    unfold run. lia.
  - rewrite Hc, init_courses. symmetry. apply (Forall2_length _ _ _ (detect_baskets_frame cs)).
  - by rewrite Hb, init_baskets, detect_baskets_size.
Qed.

(** ** First fit *)

Lemma checks_pass_count key s course session_type time_slot room :
  checks_pass (count_reason key s) course session_type time_slot room
  ↔ checks_pass s course session_type time_slot room.
Proof. split; intros []; by constructor. Qed.

Lemma checks_pass_counts keys s course session_type time_slot room :
  checks_pass (foldr count_reason s keys) course session_type time_slot room
  ↔ checks_pass s course session_type time_slot room.
Proof.
  induction keys as [|k keys IH]; simpl; [done|]. by rewrite checks_pass_count.
Qed.

Lemma check_decides s course session_type time_slot room :
  (_check_constraints s course session_type time_slot room).2.1 = true
  ↔ checks_pass s course session_type time_slot room.
Proof.
  split.
  - destruct (_check_constraints s course session_type time_slot room)
      as [s' [ok msg]] eqn:H. simpl. intros ->.
    by apply check_accept_inv in H as (_ & _ & ?).
  - intros [Hf HrI HrII Hs Hcap Hcol Hd]. rewrite check_accepts; try done.
    + unfold room_occupied. by rewrite HrI, HrII.
    + unfold wrong_duration. by rewrite Hd.
Qed.

Lemma try_rooms_first s course session_type time_slot suitable_rooms s' res :
  try_rooms s course session_type time_slot suitable_rooms = (s', res) →
  ∃ keys, s' = foldr count_reason s keys
    ∧ match res with
      | Some room =>
          ∃ rooms1 rooms2,
            suitable_rooms = rooms1 ++ room :: rooms2
            ∧ (∀ room', room' ∈ rooms1 →
                 ¬ checks_pass s course session_type time_slot room')
            ∧ checks_pass s course session_type time_slot room
      | None =>
          ∀ room', room' ∈ suitable_rooms →
            ¬ checks_pass s course session_type time_slot room'
      end.
Proof.
  revert s. induction suitable_rooms as [|room rest IH]; intros s; simpl.
  - intros [= <- <-]. exists []. split; [done|]. by intros r ?%elem_of_nil.
  - pose proof (check_decides s course session_type time_slot room) as Hdec.
    destruct (_check_constraints s course session_type time_slot room)
      as [s1 [[] msg]] eqn:Hc; simpl in Hdec.
    + apply check_accept_inv in Hc as (-> & _ & Hp).
      intros [= <- <-]. exists []. split; [done|]. exists [], rest.
      split; [done|]. split; [by intros r ?%elem_of_nil|done].
    + apply check_reject_inv in Hc as [key ->].
      assert (¬ checks_pass s course session_type time_slot room) as Hno.
      { intros Hp. apply Hdec in Hp. done. }
      intros H. apply IH in H as (keys & -> & Hres).
      exists (keys ++ [key]). split; [by rewrite foldr_app|].
      destruct res as [r|].
      * destruct Hres as (r1 & r2 & -> & Hr1 & Hp). exists (room :: r1), r2.
        split; [done|]. split.
        -- intros r' [->|Hr']%elem_of_cons; [done|].
           rewrite <- (checks_pass_count key). by apply Hr1.
        -- by apply (checks_pass_count key).
      * intros r' [->|Hr']%elem_of_cons; [done|].
        rewrite <- (checks_pass_count key). by apply Hres.
Qed.

Lemma try_slots_first s course session_type n slots suitable_rooms s' ok :
  try_slots s course session_type n slots suitable_rooms = (s', ok) →
  if ok then
    ∃ slots1 slot slots2 rooms1 room rooms2,
      slots = slots1 ++ slot :: slots2
      ∧ suitable_rooms = rooms1 ++ room :: rooms2
      ∧ checks_pass s course session_type slot room
      ∧ (∀ slot' room', slot' ∈ slots1 → room' ∈ suitable_rooms →
           ¬ checks_pass s course session_type slot' room')
      ∧ (∀ room', room' ∈ rooms1 → ¬ checks_pass s course session_type slot room')
      ∧ schedule s'
        = schedule s
          ++ [ScheduledSession.mk course session_type slot room
                (Course.faculty_name course) n (Course.basket course)]
  else
    (∀ slot room, slot ∈ slots → room ∈ suitable_rooms →
       ¬ checks_pass s course session_type slot room)
    ∧ schedule s' = schedule s.
Proof.
  revert s. induction slots as [|slot rest IH]; intros s; simpl.
  - intros [= <- <-]. split; [|done]. by intros slot room ?%elem_of_nil.
  - destruct (try_rooms s course session_type slot suitable_rooms) as [s1 res] eqn:Ht.
    apply try_rooms_first in Ht as (keys & -> & Hres).
    destruct (count_reasons_fields keys s) as [Hsch _].
    destruct res as [room|].
    + intros [= <- <-]. destruct Hres as (r1 & r2 & -> & Hr1 & Hp).
      exists [], slot, rest, r1, room, r2. split; [done|]. split; [done|].
      split; [done|]. split; [by intros ? ? ?%elem_of_nil|]. split; [done|].
      simpl. by rewrite Hsch.
    + intros H. apply IH in H. destruct ok.
      * destruct H as (s1 & slot' & s2 & r1 & room & r2 & -> & -> & Hp & Hs1 & Hr1 & Hsch').
        exists (slot :: s1), slot', s2, r1, room, r2. split; [done|]. split; [done|].
        split; [by apply (checks_pass_counts keys s)|]. split; [|split].
        -- intros sl r [->|Hsl]%elem_of_cons Hr; [by apply Hres|].
           rewrite <- (checks_pass_counts keys). by apply Hs1.
        -- intros r Hr. rewrite <- (checks_pass_counts keys). by apply Hr1.
        -- by rewrite Hsch', Hsch.
      * destruct H as [Hno Hsch']. split; [|by rewrite Hsch', Hsch].
        intros sl r [->|Hsl]%elem_of_cons Hr; [by apply Hres|].
        rewrite <- (checks_pass_counts keys). by apply Hno.
Qed.

(** X21. First fit: [_schedule_session] returns False exactly when no
    pair of a candidate slot and a suitable room passes the checks, and
    then leaves the schedule alone; when it returns True it has appended
    one session, at the first candidate slot that has an acceptable
    room and in the first acceptable room for that slot. *)
Theorem schedule_session_first_fit (s : Scheduler) (course : Course.t)
    (session_type : SessionType) (n : Z) :
  if (_schedule_session s course session_type n).2 then
    ∃ slots1 slot slots2 rooms1 room rooms2,
      candidate_slots s session_type = slots1 ++ slot :: slots2
      ∧ _get_suitable_rooms s course session_type = rooms1 ++ room :: rooms2
      ∧ checks_pass s course session_type slot room
      ∧ (∀ slot' room', slot' ∈ slots1 →
           room' ∈ _get_suitable_rooms s course session_type →
           ¬ checks_pass s course session_type slot' room')
      ∧ (∀ room', room' ∈ rooms1 → ¬ checks_pass s course session_type slot room')
      ∧ schedule (_schedule_session s course session_type n).1
        = schedule s
          ++ [ScheduledSession.mk course session_type slot room
                (Course.faculty_name course) n (Course.basket course)]
  else
    (∀ slot room, slot ∈ candidate_slots s session_type →
       room ∈ _get_suitable_rooms s course session_type →
       ¬ checks_pass s course session_type slot room)
    ∧ schedule (_schedule_session s course session_type n).1 = schedule s.
Proof.
  unfold _schedule_session, candidate_slots.
  destruct (_get_suitable_rooms s course session_type) as [|r rs] eqn:Hrooms.
  - simpl. split; [|done]. by intros slot room _ ?%elem_of_nil.
  - destruct (try_slots s course session_type n _ (r :: rs)) as [s' ok] eqn:H.
    apply try_slots_first in H. simpl. exact H.
Qed.

(** ** Order of the suitable rooms *)

Lemma StronglySorted_filter_dec {A} (R : A → A → Prop) (P : A → Prop)
    `{∀ x, Decision (P x)} (l : list A) :
  StronglySorted R l → StronglySorted R (filter P l).
Proof.
  induction 1 as [|x l Hl IH Hx]; [constructor|].
  rewrite filter_cons. destruct (decide (P x)); [|done].
  constructor; [done|]. apply Forall_forall. intros y [_ Hy]%list_elem_of_filter.
  by apply (proj1 (Forall_forall _ _) Hx).
Qed.

Lemma StronglySorted_append {A} (R : A → A → Prop) (l1 l2 : list A) :
  StronglySorted R l1 → StronglySorted R l2 →
  (∀ x y, x ∈ l1 → y ∈ l2 → R x y) →
  StronglySorted R (l1 ++ l2).
Proof.
  induction 1 as [|x l Hl IH Hx]; intros H2 Hc; simpl; [done|].
  constructor.
  - apply IH; [done|]. intros a b Ha Hb. apply Hc; [by right|done].
  - apply Forall_app. split; [done|]. apply Forall_forall. intros y Hy.
    apply Hc; [by left|done].
Qed.

Lemma suits_suitable (cs : list Course.t) (rs : list Room.t) course session_type room :
  suits rs course session_type room →
  room ∈ _get_suitable_rooms (__init__ cs rs) course session_type.
Proof.
  destruct (init_rooms cs rs) as (_ & Hb & Hr & Hl & _).
  unfold _get_suitable_rooms, suits. rewrite Hb, Hr, Hl.
  intros (Hin & Hcap & Hty).
  destruct session_type; apply list_elem_of_filter; (split; [done|]).
  1,2: destruct (decide (100 ≤ Room.capacity room));
       [apply elem_of_app; left; by apply elem_of_big_rooms|].
  1,2: destruct Hty as [?|Hty]; [done|];
       apply elem_of_app; right; apply elem_of_regular_rooms;
       split; [done|]; split; [lia|done].
  by apply elem_of_labs.
Qed.

(** X22. The rooms tried for a session are exactly the rooms of the
    input that suit it. For a lecture or a tutorial they are tried from
    the largest capacity down; for a practical they are tried in the
    order of the input. *)
Theorem suitable_rooms_order (cs : list Course.t) (rs : list Room.t)
    (course : Course.t) (session_type : SessionType) :
  (∀ room, room ∈ _get_suitable_rooms (__init__ cs rs) course session_type
           ↔ suits rs course session_type room)
  ∧ match session_type with
    | PRACTICAL => _get_suitable_rooms (__init__ cs rs) course session_type `sublist_of` rs
    | _ => StronglySorted capacity_ge
             (_get_suitable_rooms (__init__ cs rs) course session_type)
    end.
Proof.
  split.
  - intros room. split; [apply init_suitable|apply suits_suitable].
  - destruct (init_rooms cs rs) as (_ & Hb & Hr & Hl & _).
    unfold _get_suitable_rooms. rewrite Hb, Hr, Hl.
    assert (StronglySorted capacity_ge (big_rooms_of rs ++ regular_rooms_of rs)) as Hs.
    { apply StronglySorted_append; [apply sorted_capacity..|].
      intros x y [_ Hx]%elem_of_big_rooms (_ & Hy & _)%elem_of_regular_rooms.
      unfold capacity_ge. lia. }
    destruct session_type.
    + by apply StronglySorted_filter_dec.
    + by apply StronglySorted_filter_dec.
    + etrans; [apply sublist_filter|]. apply sublist_filter.
Qed.
